(** * Deployment lifecycle manager of the hosting control plane (src/main.py)

    A shallow embedding of the lifecycle handlers of [main.py]
    ([start_project], [stop_project], [delete_project], [project_stats],
    [new_deployment]), of the two execution backends, of the two background
    monitors and of [calculate_cpu_percent], followed by the properties the
    specification states about them.

    Python code that mutates the database, the file system, the container
    engine, the process table or the tunnel agent is written in a state and
    error monad over [World].  Every call that leaves the program (git,
    pip, the container engine, the operating system, the tunnel agent) takes
    its outcome from an [Env], which the theorems quantify over. *)

From Stdlib Require Import ZArith QArith Qround Lia DecimalString Ascii String.
From stdpp Require Import base gmap strings list option.

Local Close Scope Q_scope.
Local Open Scope Z_scope.

(** ** Python values and builtins *)

(** The newline character of the log messages. *)
Definition nl : string := String "010"%char "".

(** [str(n)] for an [int]. *)
Definition py_str (z : Z) : string := NilZero.string_of_int (Z.to_int z).

(** A value of the configuration mapping: [request.form.get] yields a [str]
    or [None], and [json.dumps]/[json.loads] keep both. *)
Inductive jval : Type :=
| JNull
| JStr (s : string).

#[global] Instance jval_eq_dec : EqDecision jval.
Proof. solve_decision. Defined.

(** Truth value of a [str] or [None]: [None] and [''] are false. *)
Definition truthy (v : jval) : bool :=
  match v with
  | JNull => false
  | JStr s => negb (String.eqb s "")
  end.

(** A nullable string column read in a boolean context. *)
Definition truthy_opt (v : option string) : bool :=
  match v with
  | None => false
  | Some s => negb (String.eqb s "")
  end.

(** [d.get(k)]: the value, or [None] when the key is absent. *)
Definition dict_get (k : string) (d : gmap string jval) : jval :=
  default JNull (d !! k).

(** [d.get(k, dflt)]: the default replaces an absent key only, not a key
    that is present with value [None]. *)
Definition dict_get_default (k : string) (dflt : jval) (d : gmap string jval) : jval :=
  default dflt (d !! k).

(** [x in [s1, s2, ...]] for strings. *)
Definition str_in (x : string) (l : list string) : bool :=
  existsb (String.eqb x) l.

(** ** Exceptions *)

Inductive exn : Type :=
| CalledProcessError (output : string)   (* subprocess, check=True *)
| ProcessLookupError
| PermissionError
| ValueError
| TypeError
| AttributeError
| KeyError (key : string)
| ZeroDivisionError
| FileNotFoundError
| FileExistsError
| NotADirectoryError
| IsADirectoryError
| IntegrityError                          (* NOT NULL column left empty *)
| NotFound                                (* docker.errors.NotFound *)
| NullResource                            (* docker.errors.NullResource *)
| OtherError (what : string)              (* any other library failure *)
| Exception (msg : string)                (* raise Exception(msg) *)
| Wrapped (msg : string) (cause : exn).   (* raise Exception(f"{msg}{str(e)}") *)

#[global] Instance exn_eq_dec : EqDecision exn.
Proof. solve_decision. Defined.

Inductive result (A : Type) : Type :=
| Ok (a : A)
| Raise (e : exn).
Arguments Ok {A} a.
Arguments Raise {A} e.

(** ** CPU percentage of a stats sample *)

Module Stats.

(** The fields of the engine's stats sample that the program subscripts. *)
Record cpu_usage : Type := mk_cpu_usage {
  total_usage : Z;
  percpu_usage : list Z
}.

Record cpu_stats : Type := mk_cpu_stats {
  cpu_usage_of : cpu_usage;
  system_cpu_usage : Z
}.

Record stats : Type := mk_stats {
  cpu : cpu_stats;          (* stats['cpu_stats'] *)
  precpu : cpu_stats;       (* stats['precpu_stats'] *)
  memory_usage : Z          (* stats['memory_stats']['usage'] *)
}.

(** [a / b] on two [int]s: the quotient as a rational number, [None] for
    [ZeroDivisionError]. *)
Definition py_truediv (a b : Z) : option Q :=
  if b =? 0 then None else Some (inject_Z a / inject_Z b)%Q.

Definition cpu_delta (s : stats) : Z :=
  total_usage (cpu_usage_of (cpu s)) - total_usage (cpu_usage_of (precpu s)).

Definition system_delta (s : stats) : Z :=
  system_cpu_usage (cpu s) - system_cpu_usage (precpu s).

Definition calculate_cpu_percent (s : stats) : option Q :=
  if (0 <? system_delta s) && (0 <? cpu_delta s) then
    q ← py_truediv (cpu_delta s) (system_delta s);
    Some (q * inject_Z (Z.of_nat (length (percpu_usage (cpu_usage_of (cpu s))))) * 100)%Q
  else
    Some 0%Q.

End Stats.

(** ** Persisted records *)

(** The columns of [User] that the lifecycle code reads. *)
Record User : Type := mkUser {
  u_id : Z;
  username : string;
  plan : string
}.

(** A row of the [project] table.  The [config] column holds the JSON text
    of a flat mapping written by [json.dumps]; it is kept here as the
    mapping [json.loads] gives back.  The time stamps are left out. *)
Record Project : Type := mkProject {
  p_id : Z;
  name : string;
  template : string;
  status : string;
  user_id : Z;
  port : Z;
  config : gmap string jval;
  container_id : option string;
  ngrok_tunnel_id : option Z;
  github_repo : option string
}.

(** A row of the [ngrok_tunnel] table. *)
Record NgrokTunnel : Type := mkNgrokTunnel {
  t_id : Z;
  t_user_id : Z;
  t_project_id : option Z;
  public_url : string;
  local_port : Z;
  proto : string;
  active : bool
}.

Definition set_status (s : string) (p : Project) : Project :=
  mkProject (p_id p) (name p) (template p) s (user_id p) (port p) (config p)
            (container_id p) (ngrok_tunnel_id p) (github_repo p).

Definition set_container_id (c : option string) (p : Project) : Project :=
  mkProject (p_id p) (name p) (template p) (status p) (user_id p) (port p) (config p)
            c (ngrok_tunnel_id p) (github_repo p).

Definition set_ngrok_tunnel_id (t : option Z) (p : Project) : Project :=
  mkProject (p_id p) (name p) (template p) (status p) (user_id p) (port p) (config p)
            (container_id p) t (github_repo p).

Definition set_config (c : gmap string jval) (p : Project) : Project :=
  mkProject (p_id p) (name p) (template p) (status p) (user_id p) (port p) c
            (container_id p) (ngrok_tunnel_id p) (github_repo p).

Definition set_active (b : bool) (t : NgrokTunnel) : NgrokTunnel :=
  mkNgrokTunnel (t_id t) (t_user_id t) (t_project_id t) (public_url t)
                (local_port t) (proto t) b.

(** [Config.PLANS] and [User.get_plan_limits]. *)
Record PlanLimits : Type := mkPlanLimits {
  max_projects : Z;
  cpu_limit : Q;
  memory_limit : Z;
  disk_limit : Z;
  max_ngrok_tunnels : Z
}.

Definition PLANS (plan : string) : option PlanLimits :=
  if String.eqb plan "free" then Some (mkPlanLimits 1 0.1 512 1024 0)
  else if String.eqb plan "premium" then Some (mkPlanLimits 10 0.5 2048 5120 1)
  else if String.eqb plan "enterprise" then Some (mkPlanLimits (-1) 2.0 8192 20480 5)
  else None.

Definition get_plan_limits (u : User) : PlanLimits :=
  default (mkPlanLimits 1 0.1 512 1024 0) (PLANS (plan u)).

(** ** File system *)

(** A path is the list of its components below the working directory. *)
Abbreviation path := (list string).

(** What one [f.write] call puts into a file.  The template constants and
    the texts that embed the clock are named, not spelled out. *)
Inductive chunk : Type :=
| Text (s : string)
| Value (v : string)
| Template (constant : string)
| PyrogramBotSource (bot_token api_id api_hash : jval)  (* PYROGRAM_BOT_TEMPLATE.format *)
| VpsDockerfile (os_type packages : jval)
| StartingDeploymentAt                                  (* carries the clock *)
| ErrorMonitoring (e : exn).                            (* carries str(e) *)

#[global] Instance chunk_eq_dec : EqDecision chunk.
Proof. solve_decision. Defined.

Inductive node : Type :=
| Dir
| File (content : list chunk).

#[global] Instance node_eq_dec : EqDecision node.
Proof. solve_decision. Defined.

(** ** The world outside the handlers *)

Inductive signal : Type := SIGTERM | SIGKILL | SIG0.

(** The two monitor threads, with the arguments they are started with. *)
Inductive thread : Type :=
| MonitorContainerHealth (project : Z) (container : string)
| MonitorNativeProcess (pid : Z) (project : Z) (log_file : path).

(** Calls that leave the program, in the order they are made. *)
Inductive Event : Type :=
| EvGitClone (repo : string) (dir : path)
| EvImagesBuild (dir : path) (tag : string)
| EvContainersCreate (image : string) (ports : list (string * Z))
                     (mem_limit : string) (cpu_quota : Z)
| EvContainerStart (cid : string)
| EvContainersGet (cid : option string)
| EvContainerStop (cid : string)
| EvContainerRemove (cid : string)
| EvContainerStats (cid : string)
| EvPipInstall (requirements : path)
| EvRun (cmd : list string)
| EvPopen (cmd : list string) (port_env : string)
| EvKill (pid : Z) (sig : signal)
| EvConnectEx (port : Z)
| EvSleep (seconds : Z)
| EvNgrokToken (token : string)
| EvNgrokConnect (port : Z)
| EvNgrokDisconnect (url : string)
| EvRmtree (dir : path)
| EvThreadStart (t : thread).

#[global] Instance signal_eq_dec : EqDecision signal.
Proof. solve_decision. Defined.

#[global] Instance thread_eq_dec : EqDecision thread.
Proof. solve_decision. Defined.

#[global] Instance Event_eq_dec : EqDecision Event.
Proof. solve_decision. Defined.

Record World : Type := mkWorld {
  projects : gmap Z Project;        (* table project, by primary key *)
  tunnels : list NgrokTunnel;       (* table ngrok_tunnel, in row order *)
  fs : gmap path node;              (* files and directories *)
  containers : gmap string bool;    (* the engine's containers: id, running *)
  procs : gset Z;                   (* pids of the live processes *)
  agent : gset string;              (* public urls the tunnel agent holds open *)
  trace : list Event
}.

Definition with_projects (f : gmap Z Project → gmap Z Project) (w : World) : World :=
  mkWorld (f (projects w)) (tunnels w) (fs w) (containers w) (procs w) (agent w) (trace w).

Definition with_tunnels (f : list NgrokTunnel → list NgrokTunnel) (w : World) : World :=
  mkWorld (projects w) (f (tunnels w)) (fs w) (containers w) (procs w) (agent w) (trace w).

Definition with_fs (f : gmap path node → gmap path node) (w : World) : World :=
  mkWorld (projects w) (tunnels w) (f (fs w)) (containers w) (procs w) (agent w) (trace w).

Definition with_containers (f : gmap string bool → gmap string bool) (w : World) : World :=
  mkWorld (projects w) (tunnels w) (fs w) (f (containers w)) (procs w) (agent w) (trace w).

Definition with_procs (f : gset Z → gset Z) (w : World) : World :=
  mkWorld (projects w) (tunnels w) (fs w) (containers w) (f (procs w)) (agent w) (trace w).

Definition with_agent (f : gset string → gset string) (w : World) : World :=
  mkWorld (projects w) (tunnels w) (fs w) (containers w) (procs w) (f (agent w)) (trace w).

Definition with_trace (f : list Event → list Event) (w : World) : World :=
  mkWorld (projects w) (tunnels w) (fs w) (containers w) (procs w) (agent w) (f (trace w)).

(** The outcome of every call that leaves the program during one handler or
    one monitor run.  [None] in an [option exn] means the call returns. *)
Record Env : Type := mkEnv {
  git_clone : result string;          (* subprocess.run(['git', 'clone', ...]): stdout *)
  images_build : option exn;          (* docker_client.images.build *)
  containers_create : result string;  (* docker_client.containers.create: the new id *)
  container_start : option exn;
  containers_get_fault : option exn;  (* a failure of containers.get other than a missing id *)
  container_stop : option exn;
  container_remove : option exn;
  container_stats : result Stats.stats;
  pip_install : result string;        (* stdout of pip install -r *)
  build_command_run : result string;  (* stdout of the build command *)
  popen : result Z;                   (* subprocess.Popen: the child's pid *)
  os_kill_denied : bool;              (* os.kill on a live pid is refused *)
  exits_after : option nat;           (* seconds the child survives SIGTERM; None: it stays *)
  connect_ex : nat → result Z;        (* sock.connect_ex at the i-th attempt *)
  time_sleep : nat → option exn;      (* time.sleep in the i-th round of a loop *)
  ngrok_connect : result string;      (* ngrok.connect: the tunnel's public url *)
  ngrok_disconnect : option exn;
  rmtree_fault : option exn
}.

(** ** The monad of handler code

    A computation takes the world and returns a value or a raised
    exception, with the world as the code left it: effects made before an
    exception stay. *)
Definition M (A : Type) : Type := World → result A * World.

#[global] Instance M_ret : MRet M := λ A a w, (Ok a, w).

#[global] Instance M_bind : MBind M := λ A B k m w,
  match m w with
  | (Ok a, w') => k a w'
  | (Raise e, w') => (Raise e, w')
  end.

Definition raise {A : Type} (e : exn) : M A := λ w, (Raise e, w).

(** [try: body except Exception as e: handler e]. *)
Definition try_except {A : Type} (body : M A) (handler : exn → M A) : M A := λ w,
  match body w with
  | (Ok a, w') => (Ok a, w')
  | (Raise e, w') => handler e w'
  end.

Definition get_world : M World := λ w, (Ok w, w).

Definition modify (f : World → World) : M unit := λ w, (Ok tt, f w).

Definition emit (ev : Event) : M unit := modify (with_trace (λ t, t ++ [ev])).

Definition lift {A : Type} (r : result A) : M A := λ w, (r, w).

Definition check (o : option exn) : M unit :=
  match o with
  | None => mret tt
  | Some e => raise e
  end.

(** ** Database primitives *)

(** [db.session.get(Project, project_id)]. *)
Definition db_get (project_id : Z) : M (option Project) := λ w,
  (Ok (projects w !! project_id), w).

(** An attribute assignment on the loaded [project] object.  The object is
    the stored row: the unit of work of the session is not modelled. *)
Definition update_project (project_id : Z) (f : Project → Project) : M unit :=
  modify (with_projects (alter f project_id)).

(** The next primary key of a table whose keys are [ks]. *)
Definition next_key (ks : list Z) : Z := foldr Z.max 0 ks + 1.

(** [project.ngrok_tunnel]: the scalar side ([uselist=False]) of the
    relationship over [NgrokTunnel.project_id]; it yields one row. *)
Definition ngrok_tunnel (p : Project) (w : World) : option NgrokTunnel :=
  find (λ t, bool_decide (t_project_id t = Some (p_id p))) (tunnels w).

(** [db.session.delete(tunnel)]. *)
Definition db_delete_tunnel (t : NgrokTunnel) : M unit :=
  modify (with_tunnels (filter (λ t', t_id t' ≠ t_id t))).

(** [db.session.delete(project)]. *)
Definition db_delete_project (p : Project) : M unit :=
  modify (with_projects (delete (p_id p))).

(** ** File system primitives *)

Definition is_dir (m : gmap path node) (d : path) : bool :=
  match d with
  | [] => true
  | _ => bool_decide (m !! d = Some Dir)
  end.

Definition is_file (m : gmap path node) (d : path) : bool :=
  match m !! d with
  | Some (File _) => true
  | _ => false
  end.

(** The non-empty prefixes of a path, shortest first. *)
Definition ancestors (d : path) : list path :=
  (λ n, take n d) <$> seq 1 (length d).

Definition parent (d : path) : path := take (length d - 1)%nat d.

(** [os.makedirs(d, exist_ok=True)]: every missing directory on the way
    is created; a file on the way is an error. *)
Definition makedirs (d : path) : M unit := λ w,
  if existsb (is_file (fs w)) (ancestors d)
  then (Raise (if is_file (fs w) d then FileExistsError else NotADirectoryError), w)
  else (Ok tt, with_fs (λ m, foldr (λ q, <[q := Dir]>) m (ancestors d)) w).

(** [os.path.exists(d)]. *)
Definition path_exists (d : path) : M bool := λ w,
  (Ok (bool_decide (is_Some (fs w !! d))), w).

(** [open(f, 'w')]: the file is created or emptied. *)
Definition open_w (f : path) : M unit := λ w,
  if negb (is_dir (fs w) (parent f)) then (Raise FileNotFoundError, w)
  else if bool_decide (fs w !! f = Some Dir) then (Raise IsADirectoryError, w)
  else (Ok tt, with_fs <[f := File []]> w).

(** [open(f, 'a')]: the file is created when it is not there. *)
Definition open_a (f : path) : M unit := λ w,
  if negb (is_dir (fs w) (parent f)) then (Raise FileNotFoundError, w)
  else if bool_decide (fs w !! f = Some Dir) then (Raise IsADirectoryError, w)
  else (Ok tt, with_fs (λ m, if is_file m f then m else <[f := File []]> m) w).

(** [f.write(c)] on an open file. *)
Definition f_write (f : path) (c : chunk) : M unit :=
  modify (with_fs (alter (λ n, match n with
                               | File cs => File (cs ++ [c])
                               | Dir => Dir
                               end) f)).

(** [f.write(v)] where [v] comes out of the configuration: [None] is not
    a [str]. *)
Definition f_write_val (f : path) (v : jval) : M unit :=
  match v with
  | JStr s => f_write f (Value s)
  | JNull => raise TypeError
  end.

(** [with open(f, 'a') as h: h.write(c)]. *)
Definition append (f : path) (c : chunk) : M unit :=
  open_a f;; f_write f c.

(** [shutil.rmtree(d)]. *)
Definition rmtree (env : Env) (d : path) : M unit :=
  emit (EvRmtree d);;
  check (rmtree_fault env);;
  modify (with_fs (filter (λ kv, ¬ (d `prefix_of` kv.1)))).

(** ** What the host provides

    Builtins of the language whose definitions are not part of the
    repository, and the result of the engine probe made once when the
    program starts. *)
Class Host : Type := mkHost {
  py_int : string → option Z;         (* int(s); None is ValueError *)
  py_split : string → list string;    (* s.split() *)
  sys_executable : string;            (* sys.executable *)
  docker_available : bool             (* set by the probe at start-up *)
}.

(** [' '.join(cmd)]. *)
Fixpoint join_space (cmd : list string) : string :=
  match cmd with
  | [] => ""
  | [x] => x
  | x :: rest => x +:+ " " +:+ join_space rest
  end.

(** The strings of a list whose items are all [str]. *)
Fixpoint all_str (l : list jval) : option (list string) :=
  match l with
  | [] => Some []
  | JStr s :: rest => cons s <$> all_str rest
  | JNull :: _ => None
  end.

(** [int(x)] on a float: truncation towards zero. *)
Definition py_int_of_Q (x : Q) : Z := Z.quot (Qnum x) (Z.pos (Qden x)).

(** ** Calls that leave the program *)

Definition time_sleep_ (env : Env) (i : nat) (seconds : Z) : M unit :=
  emit (EvSleep seconds);; check (time_sleep env i).

Definition images_build_ (env : Env) (dir : path) (tag : string) : M unit :=
  emit (EvImagesBuild dir tag);; check (images_build env).

Definition containers_create_ (env : Env) (image : string) (ports : list (string * Z))
    (mem_limit : string) (cpu_quota : Z) : M string :=
  emit (EvContainersCreate image ports mem_limit cpu_quota);;
  c ← lift (containers_create env);
  modify (with_containers <[c := false]>);;
  mret c.

Definition container_start_ (env : Env) (c : string) : M unit :=
  emit (EvContainerStart c);;
  check (container_start env);;
  modify (with_containers <[c := true]>).

(** [docker_client.containers.get(cid)]: an empty id is refused by the
    client, an unknown one by the engine. *)
Definition containers_get_ (env : Env) (cid : option string) : M string :=
  emit (EvContainersGet cid);;
  check (containers_get_fault env);;
  w ← get_world;
  match cid with
  | Some c =>
      if String.eqb c "" then raise NullResource
      else if bool_decide (is_Some (containers w !! c)) then mret c
      else raise NotFound
  | None => raise NullResource
  end.

Definition container_stop_ (env : Env) (c : string) : M unit :=
  emit (EvContainerStop c);;
  check (container_stop env);;
  modify (with_containers (alter (λ _, false) c)).

Definition container_remove_ (env : Env) (c : string) : M unit :=
  emit (EvContainerRemove c);;
  check (container_remove env);;
  modify (with_containers (delete c)).

(** [git clone]; the files it writes into [dir] are not modelled. *)
Definition git_clone_ (env : Env) (repo : string) (dir : path) : M string :=
  emit (EvGitClone repo dir);; lift (git_clone env).

Definition popen_ (env : Env) (cmd : list string) (port_env : string) : M Z :=
  emit (EvPopen cmd port_env);;
  pid ← lift (popen env);
  modify (with_procs (λ s, {[pid]} ∪ s));;
  mret pid.

(** The child that was sent SIGTERM is gone once [exits_after] seconds
    have passed; [i] is the number of seconds slept since the signal. *)
Definition reap (env : Env) (i : nat) (pid : Z) : M unit :=
  match exits_after env with
  | Some k => if (k <=? i)%nat then modify (with_procs (λ s, s ∖ {[pid]})) else mret tt
  | None => mret tt
  end.

(** [os.kill(pid, sig)]. *)
Definition os_kill (env : Env) (pid : Z) (sig : signal) : M unit :=
  emit (EvKill pid sig);;
  w ← get_world;
  if bool_decide (pid ∈ procs w) then
    if os_kill_denied env then raise PermissionError
    else match sig with
         | SIGKILL => modify (with_procs (λ s, s ∖ {[pid]}))
         | _ => mret tt
         end
  else raise ProcessLookupError.

Definition ngrok_connect_ (env : Env) (local : Z) : M string :=
  emit (EvNgrokConnect local);;
  url ← lift (ngrok_connect env);
  modify (with_agent (λ s, {[url]} ∪ s));;
  mret url.

Definition ngrok_disconnect_ (env : Env) (url : string) : M unit :=
  emit (EvNgrokDisconnect url);;
  check (ngrok_disconnect env);;
  modify (with_agent (λ s, s ∖ {[url]})).

(** [thread.start()] of a monitor thread; the thread's body runs later. *)
Definition thread_start (t : thread) : M unit := emit (EvThreadStart t).

(** ** Helper functions of main.py *)

Definition PROJECTS_ROOT : path := ["users"].

Definition get_project_dir (u : User) (p : Project) : path :=
  PROJECTS_ROOT ++ [username u; "projects"; py_str (p_id p)].

Definition github_kinds : list string := ["github-docker"; "github-custom"].

Definition network_kinds : list string :=
  ["static-site"; "web-service"; "github-docker"; "github-custom"].

(** The kinds listed where the tunnel is started automatically. *)
Definition tunnel_kinds : list string :=
  ["web-service"; "static-site"; "github-docker"; "github-custom"].

Definition stop_ngrok_tunnel (env : Env) (tunnel : NgrokTunnel) : M unit :=
  try_except
    (ngrok_disconnect_ env (public_url tunnel);;
     modify (with_tunnels (fmap (λ t, if bool_decide (t_id t = t_id tunnel)
                                      then set_active false t else t))))
    (λ _, mret tt).

Definition start_ngrok_for_project (env : Env) (project : Project) (ngrok_token : string)
    : M unit :=
  try_except
    (emit (EvNgrokToken ngrok_token);;
     time_sleep_ env 0 10;;
     url ← ngrok_connect_ env (port project);
     w ← get_world;
     let tunnel_id := next_key (t_id <$> tunnels w) in
     modify (with_tunnels (λ ts, ts ++ [mkNgrokTunnel tunnel_id (user_id project)
                                          (Some (p_id project)) url (port project)
                                          "http" true]));;
     update_project (p_id project) (set_ngrok_tunnel_id (Some tunnel_id)))
    (λ e, raise e).

(** *** Container backend *)

Definition clone_for_docker (env : Env) (project : Project) (project_dir : path) : M unit :=
  if str_in (template project) github_kinds then
    match dict_get "github_repo" (config project) with
    | JStr github_repo =>
        if truthy (JStr github_repo) then
          try_except
            (_ ← git_clone_ env github_repo project_dir; mret tt)
            (λ e, match e with
                  | CalledProcessError _ =>
                      raise (Wrapped "Failed to clone GitHub repository: " e)
                  | _ => raise e
                  end)
        else mret tt
    | JNull => mret tt
    end
  else mret tt.

Definition port_mapping (project : Project) : list (string * Z) :=
  (if str_in (template project) network_kinds
   then [(py_str (port project) +:+ "/tcp", port project)] else [])
  ++ (if String.eqb (template project) "vps" then [("7681/tcp", 7681)] else []).

Definition start_docker_deployment (env : Env) (u : User) (project : Project) : M unit :=
  let project_dir := get_project_dir u project in
  let plan_limits := get_plan_limits u in
  let image_tag := "kustify-" +:+ py_str (p_id project) in
  try_except
    (clone_for_docker env project project_dir;;
     images_build_ env project_dir image_tag)
    (λ e, raise (Wrapped "Failed to build Docker image: " e));;
  try_except
    (let mem_limit := py_str (memory_limit plan_limits) +:+ "m" in
     let cpu_quota := py_int_of_Q (cpu_limit plan_limits * 100000)%Q in
     container ← containers_create_ env image_tag (port_mapping project) mem_limit cpu_quota;
     container_start_ env container;;
     update_project (p_id project) (set_container_id (Some container));;
     thread_start (MonitorContainerHealth (p_id project) container))
    (λ e, raise (Wrapped "Failed to start Docker container: " e)).

(** [for _ in range(n)]: probe the port, leave the loop on result 0, sleep
    one second otherwise.  Whatever the probe raises is passed over. *)
Fixpoint wait_for_port (env : Env) (port_no : Z) (n i : nat) : M unit :=
  match n with
  | O => mret tt
  | S n' =>
      emit (EvConnectEx port_no);;
      match connect_ex env i with
      | Ok 0 => mret tt
      | _ => time_sleep_ env i 1;; wait_for_port env port_no n' (S i)
      end
  end.

Definition wait_until_ready (env : Env) (project : Project) : M unit :=
  if str_in (template project) network_kinds then wait_for_port env (port project) 30 0
  else if String.eqb (template project) "vps" then wait_for_port env 7681 30 0
  else if String.eqb (template project) "pyrogram-bot" then time_sleep_ env 0 120
  else if String.eqb (template project) "worker" then time_sleep_ env 0 10
  else mret tt.

Definition monitor_container_health (env : Env) (project : Project) (container : string)
    : M unit :=
  try_except
    (wait_until_ready env project;;
     found ← db_get (p_id project);
     match found with
     | Some project =>
         update_project (p_id project) (set_status "running");;
         match dict_get "ngrok_token" (config project) with
         | JStr ngrok_token =>
             if truthy (JStr ngrok_token) && str_in (template project) tunnel_kinds then
               try_except (start_ngrok_for_project env (set_status "running" project) ngrok_token)
                          (λ _, mret tt)
             else mret tt
         | JNull => mret tt
         end
     | None => mret tt
     end)
    (λ _,
     found ← db_get (p_id project);
     match found with
     | Some project => update_project (p_id project) (set_status "error")
     | None => mret tt
     end).

Definition stop_docker_deployment (env : Env) (project : Project) : M unit :=
  try_except
    (container ← containers_get_ env (container_id project);
     container_stop_ env container;;
     container_remove_ env container;;
     update_project (p_id project) (set_container_id None))
    (λ e, raise (Wrapped "Failed to stop Docker container: " e)).

(** *** Native process backend *)

(** The child process as the monitor thread sees it. *)
Record Process : Type := mkProcess {
  proc_pid : Z;
  proc_stdout : list string;   (* what readline returns before end of file *)
  proc_returncode : Z          (* what wait returns *)
}.

(** [except subprocess.CalledProcessError as e]: log the output, raise
    [Exception(f"{msg}{e.output}")]; any other exception passes through. *)
Definition on_called_process_error (log_file : path) (log_msg msg : string) (e : exn)
    : M unit :=
  match e with
  | CalledProcessError output =>
      append log_file (Text (log_msg +:+ output +:+ nl));;
      raise (Exception (msg +:+ output))
  | _ => raise e
  end.

Definition clone_for_native (env : Env) (project : Project) (project_dir log_file : path)
    : M unit :=
  if str_in (template project) github_kinds then
    match dict_get "github_repo" (config project) with
    | JStr github_repo =>
        if truthy (JStr github_repo) then
          try_except
            (append log_file (Text ("Cloning GitHub repository: " +:+ github_repo +:+ nl));;
             out ← git_clone_ env github_repo project_dir;
             append log_file (Text out))
            (on_called_process_error log_file "Error cloning GitHub repository: "
                                     "Failed to clone GitHub repository: ")
        else mret tt
    | JNull => mret tt
    end
  else mret tt.

Definition install_requirements (env : Env) (project_dir log_file : path) : M unit :=
  let requirements_file := project_dir ++ ["requirements.txt"] in
  present ← path_exists requirements_file;
  if present : bool then
    append log_file (Text ("Installing requirements..." +:+ nl));;
    try_except
      (emit (EvPipInstall requirements_file);;
       out ← lift (pip_install env);
       append log_file (Text out))
      (on_called_process_error log_file "Error installing requirements: "
                               "Failed to install requirements: ")
  else mret tt.

Definition run_build_command `{Host} (env : Env) (project : Project) (log_file : path)
    : M unit :=
  match dict_get "build_command" (config project) with
  | JStr build_command =>
      if String.eqb (template project) "github-custom" && truthy (JStr build_command) then
        append log_file (Text ("Running build command: " +:+ build_command +:+ nl));;
        try_except
          (emit (EvRun (py_split build_command));;
           out ← lift (build_command_run env);
           append log_file (Text out))
          (on_called_process_error log_file "Error running build command: "
                                   "Failed to run build command: ")
      else mret tt
  | JNull => mret tt
  end.

(** The launch command of a kind; an item may be [None] when the
    configuration holds [None] for the main file. *)
Definition launch_command `{Host} (project : Project) : M (list jval) :=
  let t := template project in
  if String.eqb t "pyrogram-bot" then mret [JStr sys_executable; JStr "bot.py"]
  else if String.eqb t "static-site" then mret [JStr sys_executable; JStr "app.py"]
  else if String.eqb t "web-service" then
    mret [JStr sys_executable; dict_get_default "main_file" (JStr "main.py") (config project)]
  else if String.eqb t "worker" then
    mret [JStr sys_executable; dict_get_default "main_file" (JStr "main.py") (config project)]
  else if String.eqb t "github-custom" then
    match dict_get "start_command" (config project) with
    | JStr start_command => mret (JStr <$> py_split start_command)
    | JNull => raise AttributeError
    end
  else raise (Exception ("Unknown template: " +:+ t)).

Definition start_native_deployment `{Host} (env : Env) (u : User) (project : Project)
    : M unit :=
  let project_dir := get_project_dir u project in
  let logs_dir := project_dir ++ ["logs"] in
  makedirs logs_dir;;
  let log_file := logs_dir ++ ["app.log"] in
  open_w log_file;;
  f_write log_file StartingDeploymentAt;;
  clone_for_native env project project_dir log_file;;
  install_requirements env project_dir log_file;;
  run_build_command env project log_file;;
  cmd ← launch_command project;
  match all_str cmd with
  | None => raise TypeError
  | Some cmd =>
      append log_file (Text ("Starting application with command: "
                             +:+ join_space cmd +:+ nl));;
      pid ← popen_ env cmd (py_str (port project));
      update_project (p_id project) (set_container_id (Some (py_str pid)));;
      thread_start (MonitorNativeProcess pid (p_id project) log_file)
  end.

(** [for line in iter(process.stdout.readline, ''): if line: write]. *)
Fixpoint capture_logs (log_file : path) (lines : list string) : M unit :=
  match lines with
  | [] => mret tt
  | line :: rest =>
      (if String.eqb line "" then mret tt else append log_file (Text line));;
      capture_logs log_file rest
  end.

Definition exit_message (return_code : Z) : chunk :=
  Text (nl +:+ "Process exited with code " +:+ py_str return_code +:+ nl).

Definition monitor_native_process (process : Process) (project : Project) (log_file : path)
    : M unit :=
  try_except
    (capture_logs log_file (proc_stdout process);;
     let return_code := proc_returncode process in
     modify (with_procs (λ s, s ∖ {[proc_pid process]}));;
     append log_file (exit_message return_code);;
     found ← db_get (p_id project);
     match found with
     | Some project =>
         if return_code =? 0
         then update_project (p_id project) (set_status "running")
         else update_project (p_id project) (set_status "error")
     | None => mret tt
     end)
    (λ e,
     append log_file (ErrorMonitoring e);;
     found ← db_get (p_id project);
     match found with
     | Some project => update_project (p_id project) (set_status "error")
     | None => mret tt
     end).

(** [for _ in range(n)]: leave the loop once the process is gone. *)
Fixpoint wait_for_exit (env : Env) (pid : Z) (n i : nat) : M unit :=
  match n with
  | O => mret tt
  | S n' =>
      alive ← try_except
                (reap env i pid;; os_kill env pid SIG0;; time_sleep_ env i 1;; mret true)
                (λ e, match e with
                      | ProcessLookupError => mret false
                      | _ => raise e
                      end);
      if alive : bool then wait_for_exit env pid n' (S i) else mret tt
  end.

(** [try: os.kill(pid, 0); os.kill(pid, SIGKILL) except ProcessLookupError: pass]. *)
Definition force_kill (env : Env) (pid : Z) : M unit :=
  try_except
    (reap env 10 pid;; os_kill env pid SIG0;; os_kill env pid SIGKILL)
    (λ e, match e with
          | ProcessLookupError => mret tt
          | _ => raise e
          end).

Definition stop_native_deployment `{Host} (env : Env) (project : Project) : M unit :=
  if negb (truthy_opt (container_id project)) then mret tt
  else
    try_except
      (pid ← match py_int (default "" (container_id project)) with
             | Some pid => mret pid
             | None => raise ValueError
             end;
       os_kill env pid SIGTERM;;
       wait_for_exit env pid 10 0;;
       force_kill env pid;;
       update_project (p_id project) (set_container_id None))
      (λ e, raise (Wrapped "Failed to stop native process: " e)).

(** ** Route handlers *)

Inductive message : Type :=
| Msg (s : string)
| MsgExn (e : exn).          (* str(e) *)

Inductive response : Type :=
| Json (success : bool) (msg : message) (code : Z)
| JsonStats (cpu_percent memory_mb : Q) (status_now : string)
| Redirect (endpoint : string)
| Render (page : string) (error : option string).

Definition unauthorized : response := Json false (Msg "Unauthorized") 403.

(** The dispatch written out in [stop_project], [restart_project] and
    [delete_project]: the container backend when the engine is there and
    the handle is set, the native backend otherwise. *)
Definition terminate `{Host} (env : Env) (project : Project) : M unit :=
  if docker_available && truthy_opt (container_id project)
  then stop_docker_deployment env project
  else stop_native_deployment env project.

(** The dispatch written out in [start_project] and [restart_project]. *)
Definition launch `{Host} (env : Env) (u : User) (project : Project) : M unit :=
  if docker_available
  then start_docker_deployment env u project
  else start_native_deployment env u project.

Definition start_project `{Host} (env : Env) (current_user : User) (project_id : Z)
    : M response :=
  found ← db_get project_id;
  match found with
  | None => mret unauthorized
  | Some project =>
      if negb (user_id project =? u_id current_user) then mret unauthorized
      else if String.eqb (status project) "running" then
        mret (Json false (Msg "Project is already running") 400)
      else
        try_except
          (update_project project_id (set_status "deploying");;
           launch env current_user (set_status "deploying" project);;
           mret (Json true (Msg "Project is starting") 200))
          (λ e,
           update_project project_id (set_status "error");;
           mret (Json false (MsgExn e) 500))
  end.

Definition stop_project `{Host} (env : Env) (current_user : User) (project_id : Z)
    : M response :=
  found ← db_get project_id;
  match found with
  | None => mret unauthorized
  | Some project =>
      if negb (user_id project =? u_id current_user) then mret unauthorized
      else if negb (String.eqb (status project) "running") then
        mret (Json false (Msg "Project is not running") 400)
      else
        try_except
          (terminate env project;;
           update_project project_id (set_status "stopped");;
           mret (Json true (Msg "Project stopped successfully") 200))
          (λ e, mret (Json false (MsgExn e) 500))
  end.

Definition delete_project `{Host} (env : Env) (current_user : User) (project_id : Z)
    : M response :=
  found ← db_get project_id;
  match found with
  | None => mret unauthorized
  | Some project =>
      if negb (user_id project =? u_id current_user) then mret unauthorized
      else
        try_except
          ((if String.eqb (status project) "running"
            then terminate env project else mret tt);;
           let project_dir := get_project_dir current_user project in
           present ← path_exists project_dir;
           (if present : bool then rmtree env project_dir else mret tt);;
           w ← get_world;
           match ngrok_tunnel project w with
           | Some tunnel => stop_ngrok_tunnel env tunnel;; db_delete_tunnel tunnel
           | None => mret tt
           end;;
           db_delete_project project;;
           mret (Json true (Msg "Project deleted successfully") 200))
          (λ e, mret (Json false (MsgExn e) 500))
  end.

Definition project_stats `{Host} (env : Env) (current_user : User) (project_id : Z)
    : M response :=
  found ← db_get project_id;
  match found with
  | None => mret unauthorized
  | Some project =>
      if negb (user_id project =? u_id current_user) then mret unauthorized
      else if negb (String.eqb (status project) "running") then
        mret (Json false (Msg "Project is not running") 400)
      else
        try_except
          (if docker_available && truthy_opt (container_id project) then
             container ← containers_get_ env (container_id project);
             emit (EvContainerStats container);;
             stats ← lift (container_stats env);
             cpu_percent ← match Stats.calculate_cpu_percent stats with
                           | Some q => mret q
                           | None => raise ZeroDivisionError
                           end;
             let memory_usage := (inject_Z (Stats.memory_usage stats) / inject_Z (1024 * 1024))%Q in
             mret (JsonStats cpu_percent memory_usage (status project))
           else if negb (truthy_opt (container_id project)) then
             mret (Json false (Msg "Native deployment stats not available") 400)
           else
             mret (Json false (Msg "Container not found") 404))
          (λ e, mret (Json false (MsgExn e) 500))
  end.

(** *** Creation and materialization *)

(** [request.form.get(k)]. *)
Definition form_get (k : string) (form : gmap string string) : jval :=
  match form !! k with
  | Some s => JStr s
  | None => JNull
  end.

(** [request.form.get(k, dflt)]. *)
Definition form_get_default (k dflt : string) (form : gmap string string) : jval :=
  JStr (default dflt (form !! k)).

(** [d[k]]. *)
Definition subscript (k : string) (d : gmap string jval) : M jval :=
  match d !! k with
  | Some v => mret v
  | None => raise (KeyError k)
  end.

(** [os.path.join(d, v)] for one further component. *)
Definition path_join (d : path) (v : jval) : M path :=
  match v with
  | JStr s => mret (d ++ [s])
  | JNull => raise TypeError
  end.

Definition setup_project (u : User) (project : Project) (config : gmap string jval)
    : M unit :=
  let project_dir := get_project_dir u project in
  let logs_dir := project_dir ++ ["logs"] in
  makedirs logs_dir;;
  let t := template project in
  if String.eqb t "pyrogram-bot" then
    let bot_file := project_dir ++ ["bot.py"] in
    open_w bot_file;;
    bot_token ← subscript "bot_token" config;
    api_id ← subscript "api_id" config;
    api_hash ← subscript "api_hash" config;
    f_write bot_file (PyrogramBotSource bot_token api_id api_hash);;
    let requirements_file := project_dir ++ ["requirements.txt"] in
    open_w requirements_file;;
    f_write requirements_file (Text ("pyrogram" +:+ nl))
  else if String.eqb t "static-site" then
    let index_file := project_dir ++ ["index.html"] in
    open_w index_file;;
    match config !! "index_html" with
    | Some v => f_write_val index_file v
    | None => f_write index_file (Template "STATIC_SITE_TEMPLATE")
    end;;
    let app_file := project_dir ++ ["app.py"] in
    open_w app_file;;
    f_write app_file (Template "STATIC_SITE_APP");;
    let requirements_file := project_dir ++ ["requirements.txt"] in
    open_w requirements_file;;
    f_write requirements_file (Text ("flask" +:+ nl))
  else if String.eqb t "web-service" then
    main_file ← path_join project_dir (dict_get_default "main_file" (JStr "main.py") config);
    open_w main_file;;
    f_write main_file (Template "WEB_SERVICE_TEMPLATE");;
    let requirements_file := project_dir ++ ["requirements.txt"] in
    open_w requirements_file;;
    f_write_val requirements_file (dict_get_default "requirements" (JStr ("flask" +:+ nl)) config)
  else if String.eqb t "worker" then
    main_file ← path_join project_dir (dict_get_default "main_file" (JStr "main.py") config);
    open_w main_file;;
    f_write main_file (Template "WORKER_TEMPLATE");;
    let requirements_file := project_dir ++ ["requirements.txt"] in
    open_w requirements_file;;
    f_write_val requirements_file (dict_get_default "requirements" (JStr "") config)
  else if String.eqb t "vps" then
    let dockerfile := project_dir ++ ["Dockerfile"] in
    open_w dockerfile;;
    f_write dockerfile (VpsDockerfile (dict_get_default "os" (JStr "ubuntu:22.04") config)
                                      (dict_get_default "packages" (JStr "") config));;
    let startup_script := project_dir ++ ["startup.sh"] in
    open_w startup_script;;
    f_write startup_script (Template "startup.sh")
  else mret tt.

(** The template-specific configuration read from the form. *)
Definition form_config (template_ : jval) (form : gmap string string) (github_repo : jval)
    : gmap string jval :=
  if bool_decide (template_ = JStr "pyrogram-bot") then
    <["api_hash" := form_get "api_hash" form]>
      (<["api_id" := form_get "api_id" form]>
         (<["bot_token" := form_get "bot_token" form]> ∅))
  else if bool_decide (template_ = JStr "static-site") then
    <["index_html" := form_get "index_html" form]> ∅
  else if bool_decide (template_ = JStr "web-service") then
    <["main_file" := form_get "main_file" form]>
      (<["requirements" := form_get "requirements" form]> ∅)
  else if bool_decide (template_ = JStr "vps") then
    <["packages" := form_get_default "packages" "" form]>
      (<["os" := form_get_default "os" "ubuntu:22.04" form]> ∅)
  else if bool_decide (template_ = JStr "github-docker") then
    <["github_repo" := github_repo]> ∅
  else if bool_decide (template_ = JStr "github-custom") then
    <["start_command" := form_get "start_command" form]>
      (<["build_command" := form_get_default "build_command" "" form]>
         (<["github_repo" := github_repo]> ∅))
  else ∅.

Definition opt_of_jval (v : jval) : option string :=
  match v with
  | JStr s => Some s
  | JNull => None
  end.

(** The check of the project limit of the user's plan. *)
Definition project_limit_reached (current_user : User) (w : World) : bool :=
  let plan_limits := get_plan_limits current_user in
  let current_projects :=
    Z.of_nat (size (filter (λ kv, user_id kv.2 = u_id current_user) (projects w))) in
  (0 <? max_projects plan_limits) && (max_projects plan_limits <=? current_projects).

(** The POST branch of [new_deployment]. *)
Definition new_deployment `{Host} (current_user : User) (form : gmap string string)
    : M response :=
  let name_ := form_get "name" form in
  let template_ := form_get "template" form in
  let github_repo := form_get "github_repo" form in
  let plan_limits := get_plan_limits current_user in
  w ← get_world;
  if project_limit_reached current_user w then
    mret (Render "NEW_DEPLOYMENT_PAGE"
            (Some ("Your " +:+ plan current_user +:+ " plan allows only "
                   +:+ py_str (max_projects plan_limits) +:+ " projects")))
  else
    let config := form_config template_ form github_repo in
    port ← match form !! "port" with
           | Some s => match py_int s with
                       | Some n => mret n
                       | None => raise ValueError
                       end
           | None => mret 8000
           end;
    project ← match name_, template_ with
              | JStr name_, JStr template_ =>
                  mret (mkProject (next_key (fst <$> map_to_list (projects w)))
                                  name_ template_ "stopped" (u_id current_user) port config
                                  None None (opt_of_jval github_repo))
              | _, _ => raise IntegrityError
              end;
    modify (with_projects <[p_id project := project]>);;
    let project_dir := get_project_dir current_user project in
    makedirs project_dir;;
    setup_project current_user project config;;
    match form_get "ngrok_token" form with
    | JStr ngrok_token =>
        if truthy (JStr ngrok_token) && str_in (template project) tunnel_kinds then
          update_project (p_id project)
                         (set_config (<["ngrok_token" := JStr ngrok_token]> config))
        else mret tt
    | JNull => mret tt
    end;;
    mret (Redirect "dashboard").

(** ** Further route handlers *)

(** The object [project] as the session holds it at this point: the
    stored row, with the assignments made so far. *)
Definition current_row (project_id : Z) (project : Project) : M Project := λ w,
  (Ok (default project (projects w !! project_id)), w).

Definition restart_project `{Host} (env : Env) (current_user : User) (project_id : Z)
    : M response :=
  found ← db_get project_id;
  match found with
  | None => mret unauthorized
  | Some project =>
      if negb (user_id project =? u_id current_user) then mret unauthorized
      else
        try_except
          ((if String.eqb (status project) "running"
            then terminate env project else mret tt);;
           update_project project_id (set_status "deploying");;
           project ← current_row project_id project;
           launch env current_user project;;
           mret (Json true (Msg "Project is restarting") 200))
          (λ e,
           update_project project_id (set_status "error");;
           mret (Json false (MsgExn e) 500))
  end.

(** What the tunnel routes answer: an ordinary response, or the url and
    the id of the session that was started. *)
Inductive tunnel_reply : Type :=
| Reply (r : response)
| Started (public_url_ : string) (tunnel_id : Z).

(** [NgrokTunnel.query.filter_by(user_id=..., active=True).count()]. *)
Definition active_tunnels (u : User) (w : World) : Z :=
  Z.of_nat (length (filter (λ t, t_user_id t = u_id u ∧ active t = true) (tunnels w))).

(** Reading a local name that no statement has bound yet. *)
Definition UnboundLocalError : exn := OtherError "UnboundLocalError".

(** The route [/project/<id>/ngrok/start]; [ngrok_available] is the flag
    set when the program starts.  The import under [if ngrok_token] makes
    [ngrok] a local name of the function, bound only when that branch
    runs: [imported] records whether it did. *)
Definition start_ngrok_tunnel (ngrok_available : bool) (env : Env) (current_user : User)
    (project_id : Z) : M tunnel_reply :=
  found ← db_get project_id;
  match found with
  | None => mret (Reply unauthorized)
  | Some project =>
      if negb (user_id project =? u_id current_user) then mret (Reply unauthorized)
      else if negb (String.eqb (status project) "running") then
        mret (Reply (Json false (Msg "Project is not running") 400))
      else
        let plan_limits := get_plan_limits current_user in
        w ← get_world;
        if max_ngrok_tunnels plan_limits <=? active_tunnels current_user w then
          mret (Reply (Json false
                         (Msg ("Your " +:+ plan current_user +:+ " plan allows only "
                               +:+ py_str (max_ngrok_tunnels plan_limits)
                               +:+ " Ngrok tunnels")) 400))
        else if negb ngrok_available then
          mret (Reply (Json false (Msg "Ngrok is not available") 500))
        else
          try_except
            (if String.eqb (template project) "pyrogram-bot" then
               mret (Reply (Json false (Msg "Ngrok not supported for this template") 400))
             else
               let local_port_ := port project in
               imported ← match dict_get "ngrok_token" (config project) with
                          | JStr ngrok_token =>
                              if truthy (JStr ngrok_token)
                              then emit (EvNgrokToken ngrok_token);; mret true
                              else mret false
                          | JNull => mret false
                          end;
               time_sleep_ env 0 10;;
               (if imported : bool then mret tt else raise UnboundLocalError);;
               url ← ngrok_connect_ env local_port_;
               w ← get_world;
               let tunnel_id := next_key (t_id <$> tunnels w) in
               modify (with_tunnels (λ ts, ts ++ [mkNgrokTunnel tunnel_id (u_id current_user)
                                                    (Some (p_id project)) url local_port_
                                                    "http" true]));;
               update_project (p_id project) (set_ngrok_tunnel_id (Some tunnel_id));;
               mret (Started url tunnel_id))
            (λ e, mret (Reply (Json false (MsgExn e) 500)))
  end.

(** The route [/project/<id>/ngrok/stop]. *)
Definition stop_ngrok_tunnel_for_project (env : Env) (current_user : User) (project_id : Z)
    : M response :=
  found ← db_get project_id;
  match found with
  | None => mret unauthorized
  | Some project =>
      if negb (user_id project =? u_id current_user) then mret unauthorized
      else
        w ← get_world;
        match ngrok_tunnel project w with
        | None => mret (Json false (Msg "No active Ngrok tunnel for this project") 400)
        | Some tunnel =>
            try_except
              (stop_ngrok_tunnel env tunnel;;
               db_delete_tunnel tunnel;;
               update_project (p_id project) (set_ngrok_tunnel_id None);;
               mret (Json true (Msg "Ngrok tunnel stopped successfully") 200))
              (λ e, mret (Json false (MsgExn e) 500))
        end
  end.

(** ** Concrete hosts, outcomes and worlds

    Used to run the handlers on explicit inputs. *)

(** [int] on plain decimal text. *)
Definition decimal_int (s : string) : option Z :=
  Z.of_int <$> NilZero.int_of_string s.

(** [split] on single blanks. *)
Fixpoint words_from (cur : string) (s : string) : list string :=
  match s with
  | EmptyString => if String.eqb cur "" then [] else [cur]
  | String c rest =>
      if Ascii.eqb c " "%char
      then (if String.eqb cur "" then [] else [cur]) ++ words_from "" rest
      else words_from (cur +:+ String c "") rest
  end.

Definition host_docker : Host := mkHost decimal_int (words_from "") "python" true.

Definition host_native : Host := mkHost decimal_int (words_from "") "python" false.

Definition no_stats : Stats.stats :=
  Stats.mk_stats (Stats.mk_cpu_stats (Stats.mk_cpu_usage 0 []) 0)
                 (Stats.mk_cpu_stats (Stats.mk_cpu_usage 0 []) 0) 0.

(** Every call returns; the engine names the new container [cid], the
    agent names the new tunnel [url], the port answers at once. *)
Definition env_ok (cid url : string) : Env :=
  mkEnv (Ok "") None (Ok cid) None None None None (Ok no_stats) (Ok "") (Ok "")
        (Ok 4242) false (Some 0%nat) (λ _, Ok 0) (λ _, None) (Ok url) None None.

(** As [env_ok], but the port never answers. *)
Definition env_unreachable (cid url : string) : Env :=
  mkEnv (Ok "") None (Ok cid) None None None None (Ok no_stats) (Ok "") (Ok "")
        (Ok 4242) false (Some 0%nat) (λ _, Ok 111) (λ _, None) (Ok url) None None.

(** As [env_ok], but [git clone] exits with a non-zero status. *)
Definition env_clone_fails : Env :=
  mkEnv (Raise (CalledProcessError "fatal: repository not found")) None (Ok "c1")
        None None None None (Ok no_stats) (Ok "") (Ok "")
        (Ok 4242) false (Some 0%nat) (λ _, Ok 0) (λ _, None) (Ok "https://t1") None None.

(** As [env_ok], but the engine refuses to stop the container. *)
Definition env_stop_fails : Env :=
  mkEnv (Ok "") None (Ok "c1") None None (Some (OtherError "APIError")) None
        (Ok no_stats) (Ok "") (Ok "")
        (Ok 4242) false (Some 0%nat) (λ _, Ok 0) (λ _, None) (Ok "https://t1") None None.

Definition alice : User := mkUser 1 "alice" "premium".

Definition empty_world : World := mkWorld ∅ [] ∅ ∅ ∅ ∅ [].

(** A static site owned by [alice], in the given status and with the given
    handle. *)
Definition site (st : string) (handle : option string) : Project :=
  mkProject 1 "site" "static-site" st 1 8000 ∅ handle None None.

Definition world_with (p : Project) : World :=
  with_projects <[p_id p := p]> empty_world.

(** A repository deployment owned by [alice]. *)
Definition repo_project (st : string) : Project :=
  mkProject 1 "app" "github-custom" st 1 8000
            (<["start_command" := JStr "python main.py"]>
               (<["github_repo" := JStr "https://example.invalid/none.git"]> ∅))
            None None (Some "https://example.invalid/none.git").

(** ** Notions used in the statements *)

(** [keeps f m]: running [m] never changes the observation [f] of the
    world, whether [m] returns or raises. *)
Definition keeps {A X : Type} (f : World → X) (m : M A) : Prop :=
  ∀ w, f (m w).2 = f w.

(** A launch that raises leaves every row as it was; a launch that returns
    has stored a handle in the row of its project and changed nothing
    else. *)
Definition launch_effect (project_id : Z) (w : World) (r : result unit * World) : Prop :=
  match r with
  | (Ok _, w') =>
      ∃ c, projects w' = alter (set_container_id (Some c)) project_id (projects w)
  | (Raise _, w') => projects w' = projects w
  end.

(** [post Q E m w]: when [m] returns from [w], [Q] holds of the value and
    the world; when it raises, [E] holds of the world. *)
Definition post {A : Type} (Q : A → World → Prop) (E : World → Prop) (m : M A) (w : World)
    : Prop :=
  match m w with
  | (Ok a, w') => Q a w'
  | (Raise _, w') => E w'
  end.


(** The workload that the handle [c] names is gone from the backend in
    use: the engine has no such container, or no live process has the pid
    the handle spells. *)
Definition backend_gone `{Host} (c : string) (w : World) : Prop :=
  if docker_available then containers w !! c = None
  else ∀ pid, py_int c = Some pid → pid ∉ procs w.

(** A native deployment of [alice] whose child has the given pid. *)
Definition native_site (st : string) (handle : option string) : Project :=
  mkProject 1 "site" "static-site" st 1 8000 ∅ handle None None.

Definition with_container (c : string) (w : World) : World :=
  with_containers <[c := true]> w.

Definition with_process (pid : Z) (w : World) : World :=
  with_procs (λ s, {[pid]} ∪ s) w.

(** The token with which the monitor starts a tunnel for the row: the
    stored [ngrok_token], when it is non-empty and the kind is one of
    [tunnel_kinds]. *)
Definition tunnel_token (row : Project) : option string :=
  match dict_get "ngrok_token" (config row) with
  | JStr tok => if truthy (JStr tok) && str_in (template row) tunnel_kinds
                then Some tok else None
  | JNull => None
  end.

(** A static site with a stored tunnel token. *)
Definition site_with_token (st : string) (handle : option string) : Project :=
  mkProject 1 "site" "static-site" st 1 8000 (<["ngrok_token" := JStr "tok"]> ∅)
            handle None None.

(** As [env_ok], but [time.sleep] raises. *)
Definition env_sleep_raises : Env :=
  mkEnv (Ok "") None (Ok "c1") None None None None (Ok no_stats) (Ok "") (Ok "")
        (Ok 4242) false (Some 0%nat) (λ _, Ok 111) (λ _, Some (OtherError "interrupted"))
        (Ok "https://t1") None None.

(** What has been written to the file [f]; nothing when [f] is not a
    file. *)
Definition file_content (m : gmap path node) (f : path) : list chunk :=
  match m !! f with
  | Some (File cs) => cs
  | _ => []
  end.

(** [f] can be opened for writing: its directory is there and [f] is not
    itself a directory. *)
Definition openable (m : gmap path node) (f : path) : Prop :=
  is_dir m (parent f) = true ∧ m !! f ≠ Some Dir.

(** The file system of a native deployment of [alice]'s project 1 after
    its start: the logs directory and a log file with one entry. *)
Definition native_fs : gmap path node :=
  <[["users"; "alice"; "projects"; "1"; "logs"; "app.log"] := File [StartingDeploymentAt]]>
    (<[["users"; "alice"; "projects"; "1"; "logs"] := Dir]>
       (<[["users"; "alice"; "projects"; "1"] := Dir]> ∅)).

Definition native_world (st : string) : World :=
  with_process 4242 (with_fs (λ _, native_fs) (world_with (native_site st (Some "4242")))).




(** *** A deployment that is started twice

    A static site with a stored tunnel token is created, started, found
    ready, stopped, started again and found ready again. *)

Definition site_form : gmap string string :=
  <["ngrok_token" := "tok"]>
    (<["port" := "8000"]>
       (<["index_html" := "<h1>hi</h1>"]>
          (<["template" := "static-site"]> (<["name" := "site"]> ∅)))).

(** The world a computation leaves. *)
Definition after {A : Type} (m : M A) (w : World) : World := (m w).2.

(** The row of project 1, as a monitor thread is handed it. *)
Definition row1 (w : World) : Project :=
  default (site "stopped" None) (projects w !! 1).

Definition created_world : World :=
  after (new_deployment (H := host_docker) alice site_form) empty_world.

Definition first_run_world : World :=
  let w1 := after (start_project (H := host_docker) (env_ok "c1" "https://t1") alice 1)
                  created_world in
  after (monitor_container_health (env_ok "c1" "https://t1") (row1 w1) "c1") w1.

Definition second_run_world : World :=
  let w1 := after (stop_project (H := host_docker) (env_ok "c1" "https://t1") alice 1)
                  first_run_world in
  let w2 := after (start_project (H := host_docker) (env_ok "c2" "https://t2") alice 1) w1 in
  after (monitor_container_health (env_ok "c2" "https://t2") (row1 w2) "c2") w2.

(** The launch of the project clones a repository: the kind is a
    repository kind and the stored url is non-empty. *)
Definition clones_repository (project : Project) : Prop :=
  str_in (template project) github_kinds = true
  ∧ truthy (dict_get "github_repo" (config project)) = true.

(** As [env_ok], but the image build fails. *)
Definition env_build_fails : Env :=
  mkEnv (Ok "") (Some (OtherError "BuildError")) (Ok "c1") None None None None
        (Ok no_stats) (Ok "") (Ok "")
        (Ok 4242) false (Some 0%nat) (λ _, Ok 0) (λ _, None) (Ok "https://t1") None None.

(** As [env_ok], but [pip install] exits with a non-zero status. *)
Definition env_pip_fails : Env :=
  mkEnv (Ok "") None (Ok "c1") None None None None (Ok no_stats)
        (Raise (CalledProcessError "no matching distribution")) (Ok "")
        (Ok 4242) false (Some 0%nat) (λ _, Ok 0) (λ _, None) (Ok "https://t1") None None.

(** As [env_ok], but the child process cannot be spawned. *)
Definition env_spawn_fails : Env :=
  mkEnv (Ok "") None (Ok "c1") None None None None (Ok no_stats) (Ok "") (Ok "")
        (Raise FileNotFoundError) false (Some 0%nat) (λ _, Ok 0) (λ _, None)
        (Ok "https://t1") None None.

(** The world right after the creation of [alice]'s static site. *)
Definition created_site_world : World :=
  after (new_deployment (H := host_native) alice site_form) empty_world.

(** A step of the launch path fails before the backend is spawned: the
    clone of the repository; on the container backend the image build, the
    creation or the start of the container; on the native backend the
    installation of the requirements or the spawn of the child. *)
Definition step_fails `{Host} (env : Env) (u : User) (project : Project) (w : World) : Prop :=
  (clones_repository project ∧ ∃ e, git_clone env = Raise e)
  ∨ (docker_available = true
     ∧ (is_Some (images_build env)
        ∨ (∃ e, containers_create env = Raise e)
        ∨ is_Some (container_start env)))
  ∨ (docker_available = false
     ∧ ((is_Some (fs w !! (get_project_dir u project ++ ["requirements.txt"]))
         ∧ ∃ e, pip_install env = Raise e)
        ∨ ∃ e, popen env = Raise e)).

(** No two tunnel sessions reference the project [project_id]. *)
Definition at_most_one_tunnel (project_id : Z) (ts : list NgrokTunnel) : Prop :=
  ∀ t1 t2, t1 ∈ ts → t2 ∈ ts →
    t_project_id t1 = Some project_id → t_project_id t2 = Some project_id →
    t_id t1 = t_id t2.

(** What the termination of a backend leaves alone. *)
Definition sessions_and_files (w : World) : list NgrokTunnel * gmap path node :=
  (tunnels w, fs w).

(** What the engine and the process table hold. *)
Definition workloads (w : World) : gmap string bool * gset Z :=
  (containers w, procs w).

(** The creation form of a static site without its page. *)
Definition site_form_without_page : gmap string string :=
  <["template" := "static-site"]> (<["name" := "site"]> ∅).

(** A response that blames the request: a JSON failure with a code
    from 400 to 499. *)
Definition client_error (r : response) : Prop :=
  match r with
  | Json _ _ code => 400 <= code < 500
  | _ => False
  end.

(** The world without the record of the calls made. *)
Definition state_of (w : World)
    : gmap Z Project * list NgrokTunnel * gmap path node
      * gmap string bool * gset Z * gset string :=
  (projects w, tunnels w, fs w, containers w, procs w, agent w).

(** The project is not there, or it belongs to somebody else. *)
Definition not_owned (u : User) (project_id : Z) (w : World) : Prop :=
  match projects w !! project_id with
  | None => True
  | Some p => user_id p ≠ u_id u
  end.

Definition bob : User := mkUser 2 "bob" "enterprise".

(** A stats sample of a container with [cores] cores. *)
Definition sample (cpu_before cpu_now system_before system_now : Z) (cores : nat)
    : Stats.stats :=
  Stats.mk_stats
    (Stats.mk_cpu_stats (Stats.mk_cpu_usage cpu_now (replicate cores 0)) system_now)
    (Stats.mk_cpu_stats (Stats.mk_cpu_usage cpu_before []) system_before) 0.

(** The status code of a response; 200 for a page or a redirect. *)
Definition response_code (r : response) : Z :=
  match r with
  | Json _ _ code => code
  | _ => 200
  end.

(** The status code of what a handler produced, if it returned. *)
Definition answer_code (r : result response) : option Z :=
  match r with
  | Ok r => Some (response_code r)
  | Raise _ => None
  end.

(** The non-empty [ngrok_token] stored in the row's configuration. *)
Definition stored_token (row : Project) : option string :=
  match dict_get "ngrok_token" (config row) with
  | JStr tok => if truthy (JStr tok) then Some tok else None
  | JNull => None
  end.

(** The session row that a tunnel started for [row] on behalf of the user
    [uid] adds. *)
Definition session_row (k uid : Z) (row : Project) (url : string) : NgrokTunnel :=
  mkNgrokTunnel k uid (Some (p_id row)) url (port row) "http" true.

Definition carol : User := mkUser 3 "carol" "free".

(** The trace of [k] rounds of the readiness wait that did not find the
    port open: a probe and a sleep of one second each. *)
Fixpoint probe_rounds (k : nat) (port_no : Z) : list Event :=
  match k with
  | O => []
  | S k' => EvConnectEx port_no :: EvSleep 1 :: probe_rounds k' port_no
  end.

(** As [env_ok], but the port answers only from the [k]-th probe on. *)
Definition env_port_opens_at (k : nat) : Env :=
  mkEnv (Ok "") None (Ok "c1") None None None None (Ok no_stats) (Ok "") (Ok "")
        (Ok 4242) false (Some 0%nat) (λ i, if (i <? k)%nat then Ok 111 else Ok 0)
        (λ _, None) (Ok "https://t1") None None.

(** [SIGKILL] has been sent to [pid]. *)
Definition kill_sent (pid : Z) (w : World) : Prop := EvKill pid SIGKILL ∈ trace w.

(** The child is still there [seconds] seconds after [SIGTERM]. *)
Definition survives (env : Env) (seconds : nat) : Prop :=
  match exits_after env with
  | Some k => (seconds < k)%nat
  | None => True
  end.

(** As [env_ok], but the child ignores [SIGTERM]. *)
Definition env_ignores_sigterm : Env :=
  mkEnv (Ok "") None (Ok "c1") None None None None (Ok no_stats) (Ok "") (Ok "")
        (Ok 4242) false None (λ _, Ok 0) (λ _, None) (Ok "https://t1") None None.

(** The kinds for which [start_native_deployment] has a launch
    command. *)
Definition native_kinds : list string :=
  ["pyrogram-bot"; "static-site"; "web-service"; "worker"; "github-custom"].

(** A deployment that the native backend has no command for: a kind
    outside [native_kinds], or a repository deployment without a start
    command. *)
Definition no_native_command (p : Project) : Prop :=
  str_in (template p) native_kinds = false
  ∨ (template p = "github-custom" ∧ dict_get "start_command" (config p) = JNull).

(** A shell deployment of [alice]. *)
Definition vps_project (st : string) : Project :=
  mkProject 1 "box" "vps" st 1 8000 ∅ None None None.

(** [Project.query.filter_by(user_id=...).count()]. *)
Definition owned_projects (u : User) (w : World) : Z :=
  Z.of_nat (size (filter (λ kv, user_id kv.2 = u_id u) (projects w))).

(** The key that the next stored project gets. *)
Definition next_project_id (w : World) : Z :=
  next_key (fst <$> map_to_list (projects w)).

(** A creation form that the handler cannot store: no name, no kind, or a
    port that is not a number. *)
Definition incomplete_form `{Host} (form : gmap string string) : Prop :=
  form !! "name" = None
  ∨ form !! "template" = None
  ∨ ∃ s, form !! "port" = Some s ∧ py_int s = None.


(** ** Properties *)

Module StatsFacts.
Import Stats.

Lemma py_truediv_pos (a b : Z) :
  0 < a → 0 < b →
  ∃ q, py_truediv a b = Some q ∧ (0 <= q)%Q.
Proof.
  intros Ha Hb. unfold py_truediv.
  destruct (Z.eqb_spec b 0) as [->|_]; [lia|].
  eexists; split; [reflexivity|].
  apply Qle_shift_div_l.
  - change 0%Q with (inject_Z 0). rewrite <- Zlt_Qlt. exact Hb.
  - rewrite Qmult_0_l. change 0%Q with (inject_Z 0).
    rewrite <- Zle_Qle. lia.
Qed.

(** C10.  [calculate_cpu_percent] returns a value on every stats sample
    (the division is never attempted with a zero divisor), the value is
    non-negative, and it is exactly 0 whenever the container delta or the
    system delta is not strictly positive. *)
Theorem calculate_cpu_percent_total_nonneg (s : stats) :
  ∃ q, calculate_cpu_percent s = Some q
       ∧ (0 <= q)%Q
       ∧ (cpu_delta s <= 0 ∨ system_delta s <= 0 → q = 0%Q)
       ∧ (q ≠ 0%Q → 0 < cpu_delta s ∧ 0 < system_delta s
                    ∧ is_Some (py_truediv (cpu_delta s) (system_delta s))).
Proof.
  unfold calculate_cpu_percent.
  destruct (Z.ltb_spec 0 (system_delta s)) as [Hs|Hs];
    destruct (Z.ltb_spec 0 (cpu_delta s)) as [Hc|Hc]; simpl.
  - destruct (py_truediv_pos _ _ Hc Hs) as (q & Hq & Hpos).
    rewrite Hq. simpl. eexists; split; [reflexivity|].
    split; [|split].
    + apply Qmult_le_0_compat; [apply Qmult_le_0_compat|]; [exact Hpos| |discriminate].
      change 0%Q with (inject_Z 0). rewrite <- Zle_Qle. lia.
    + intros [?|?]; lia.
    + intros _. eauto.
  - exists 0%Q. repeat split; try discriminate; try reflexivity; congruence.
  - exists 0%Q. repeat split; try discriminate; try reflexivity; congruence.
  - exists 0%Q. repeat split; try discriminate; try reflexivity; congruence.
Qed.

End StatsFacts.

(** ** Reasoning about handler code *)

Lemma keeps_ret {A X} (f : World → X) (a : A) : keeps f (mret a).
Proof. by intros w. Qed.

Lemma keeps_raise {A X} (f : World → X) (e : exn) : keeps f (raise e : M A).
Proof. by intros w. Qed.

Lemma keeps_lift {A X} (f : World → X) (r : result A) : keeps f (lift r).
Proof. by intros w. Qed.

Lemma keeps_get_world {X} (f : World → X) : keeps f get_world.
Proof. by intros w. Qed.

Lemma keeps_check {X} (f : World → X) (o : option exn) : keeps f (check o).
Proof. by destruct o; intros w. Qed.

Lemma keeps_bind {A B X} (f : World → X) (m : M A) (k : A → M B) :
  keeps f m → (∀ a, keeps f (k a)) → keeps f (m ≫= k).
Proof.
  intros Hm Hk w. unfold mbind, M_bind. specialize (Hm w).
  destruct (m w) as [[a|e] w1]; simpl in *; [|done].
  by rewrite Hk.
Qed.

Lemma keeps_try {A X} (f : World → X) (m : M A) (h : exn → M A) :
  keeps f m → (∀ e, keeps f (h e)) → keeps f (try_except m h).
Proof.
  intros Hm Hh w. unfold try_except. specialize (Hm w).
  destruct (m w) as [[a|e] w1]; simpl in *; [done|].
  by rewrite Hh.
Qed.

Lemma keeps_modify {X} (f : World → X) (g : World → World) :
  (∀ w, f (g w) = f w) → keeps f (modify g).
Proof. intros Hg w. apply Hg. Qed.

Lemma keeps_emit {X} (f : World → X) (ev : Event) :
  (∀ w t, f (with_trace t w) = f w) → keeps f (emit ev).
Proof. intros Hf. apply keeps_modify. intros w. apply Hf. Qed.

Lemma keeps_db_get {X} (f : World → X) (i : Z) : keeps f (db_get i).
Proof. by intros w. Qed.

Lemma keeps_path_exists {X} (f : World → X) (d : path) : keeps f (path_exists d).
Proof. by intros w. Qed.

(** The steps that take a computation apart, whatever is observed. *)
Ltac keeps_step :=
  first
    [ apply keeps_bind; [|intros ?]
    | apply keeps_try; [|intros ?]
    | apply keeps_ret
    | apply keeps_raise
    | apply keeps_lift
    | apply keeps_get_world
    | apply keeps_check
    | apply keeps_db_get
    | apply keeps_path_exists
    | match goal with
      | |- keeps _ (if ?b then _ else _) => destruct b
      | |- keeps _ (match ?x with _ => _ end) => destruct x
      end ].

(** *** What leaves the [project] table alone *)

Lemma keeps_projects_modify (g : World → World) :
  (∀ w, projects (g w) = projects w) → keeps projects (modify g).
Proof. apply keeps_modify. Qed.

Ltac keeps_projects :=
  repeat first
    [ keeps_step
    | apply keeps_projects_modify; by intros []
    | by apply keeps_emit ].

Lemma makedirs_keeps_projects d : keeps projects (makedirs d).
Proof. intros w. unfold makedirs. by case_match. Qed.

Lemma open_w_keeps_projects f : keeps projects (open_w f).
Proof. intros w. unfold open_w. by repeat case_match. Qed.

Lemma open_a_keeps_projects f : keeps projects (open_a f).
Proof. intros w. unfold open_a. by repeat case_match. Qed.

Lemma f_write_keeps_projects f c : keeps projects (f_write f c).
Proof. unfold f_write. keeps_projects. Qed.

Lemma append_keeps_projects f c : keeps projects (append f c).
Proof.
  unfold append. apply keeps_bind; [apply open_a_keeps_projects|intros _].
  apply f_write_keeps_projects.
Qed.

Lemma time_sleep_keeps_projects env i n : keeps projects (time_sleep_ env i n).
Proof. unfold time_sleep_. keeps_projects. Qed.

Lemma git_clone_keeps_projects env repo d : keeps projects (git_clone_ env repo d).
Proof. unfold git_clone_. keeps_projects. Qed.

Lemma clone_for_docker_keeps_projects env p d : keeps projects (clone_for_docker env p d).
Proof.
  unfold clone_for_docker.
  repeat first [ apply git_clone_keeps_projects | keeps_step ].
Qed.

Lemma images_build_keeps_projects env d t : keeps projects (images_build_ env d t).
Proof. unfold images_build_. keeps_projects. Qed.

(** *** The launch and the [project] table *)

Lemma launch_effect_bind {A} project_id (m : M A) (k : A → M unit) w :
  keeps projects m →
  (∀ a w1, launch_effect project_id w1 (k a w1)) →
  launch_effect project_id w ((m ≫= k) w).
Proof.
  intros Hm Hk. unfold mbind, M_bind. specialize (Hm w).
  destruct (m w) as [[a|e] w1]; simpl in *; [|done].
  specialize (Hk a w1). unfold launch_effect in *.
  destruct (k a w1) as [[?|?] w2]; by rewrite <- Hm.
Qed.

Lemma launch_effect_raise project_id e w :
  launch_effect project_id w (raise e w).
Proof. done. Qed.

Lemma start_docker_deployment_effect env u p w :
  launch_effect (p_id p) w (start_docker_deployment env u p w).
Proof.
  unfold start_docker_deployment. apply launch_effect_bind.
  - apply keeps_try; [|intros; apply keeps_raise].
    apply keeps_bind; [apply clone_for_docker_keeps_projects|intros _].
    apply images_build_keeps_projects.
  - intros _ w1. unfold try_except, containers_create_, container_start_, emit, lift,
      check, update_project, thread_start, modify, raise, mbind, M_bind, mret, M_ret.
    simpl. destruct (containers_create env) as [c|e]; simpl; [|done].
    destruct (container_start env) as [e|]; simpl; [done|]. by exists c.
Qed.

Lemma on_called_process_error_keeps_projects f a b e :
  keeps projects (on_called_process_error f a b e).
Proof.
  unfold on_called_process_error. destruct e; try apply keeps_raise.
  apply keeps_bind; [apply append_keeps_projects|intros; apply keeps_raise].
Qed.

Lemma clone_for_native_keeps_projects env p d f : keeps projects (clone_for_native env p d f).
Proof.
  unfold clone_for_native.
  repeat first [ apply git_clone_keeps_projects | apply append_keeps_projects
               | apply on_called_process_error_keeps_projects | keeps_step ].
Qed.

Lemma install_requirements_keeps_projects env d f : keeps projects (install_requirements env d f).
Proof.
  unfold install_requirements.
  repeat first [ apply append_keeps_projects
               | apply on_called_process_error_keeps_projects
               | by apply keeps_emit | keeps_step ].
Qed.

Lemma run_build_command_keeps_projects `{Host} env p f : keeps projects (run_build_command env p f).
Proof.
  unfold run_build_command.
  repeat first [ apply append_keeps_projects
               | apply on_called_process_error_keeps_projects
               | by apply keeps_emit | keeps_step ].
Qed.

Lemma launch_command_keeps_projects `{Host} p : keeps projects (launch_command p).
Proof. unfold launch_command. repeat keeps_step. Qed.

Lemma start_native_deployment_effect `{Host} env u p w :
  launch_effect (p_id p) w (start_native_deployment env u p w).
Proof.
  unfold start_native_deployment.
  apply launch_effect_bind; [apply makedirs_keeps_projects|intros _ ?].
  apply launch_effect_bind; [apply open_w_keeps_projects|intros _ ?].
  apply launch_effect_bind; [apply f_write_keeps_projects|intros _ ?].
  apply launch_effect_bind; [apply clone_for_native_keeps_projects|intros _ ?].
  apply launch_effect_bind; [apply install_requirements_keeps_projects|intros _ ?].
  apply launch_effect_bind; [apply run_build_command_keeps_projects|intros _ ?].
  apply launch_effect_bind; [apply launch_command_keeps_projects|intros cmd ?].
  destruct (all_str cmd) as [cmd'|]; [|apply launch_effect_raise].
  apply launch_effect_bind; [apply append_keeps_projects|intros _ w7].
  unfold popen_, emit, lift, update_project, thread_start, modify, mbind, M_bind, mret, M_ret.
  simpl. destruct (popen env) as [pid|e]; simpl; [|done]. by eexists.
Qed.

Lemma launch_has_effect `{Host} env u p w :
  launch_effect (p_id p) w (launch env u p w).
Proof.
  unfold launch. destruct docker_available.
  - apply start_docker_deployment_effect.
  - apply start_native_deployment_effect.
Qed.

(** *** Start *)

Lemma start_project_unfold `{Host} env u project_id w p :
  projects w !! project_id = Some p →
  user_id p = u_id u →
  start_project env u project_id w =
    if String.eqb (status p) "running"
    then (Ok (Json false (Msg "Project is already running") 400), w)
    else
      match launch env u (set_status "deploying" p)
                   (with_projects (alter (set_status "deploying") project_id) w) with
      | (Ok _, w2) => (Ok (Json true (Msg "Project is starting") 200), w2)
      | (Raise e, w2) =>
          (Ok (Json false (MsgExn e) 500),
           with_projects (alter (set_status "error") project_id) w2)
      end.
Proof.
  intros Hp Hu. unfold start_project, db_get, mbind, M_bind. rewrite Hp, Hu, Z.eqb_refl.
  simpl. destruct (String.eqb (status p) "running"); [done|].
  unfold try_except, update_project, modify, mbind, M_bind. simpl.
  by destruct (launch _ _ _ _) as [[[]|e] w2].
Qed.

Lemma alter_alter_status (m : gmap Z Project) i s1 s2 p :
  m !! i = Some p →
  alter (set_status s2) i (alter (set_status s1) i m) = <[i := set_status s2 p]> m.
Proof.
  intros Hp. apply map_eq. intros j. destruct (decide (i = j)) as [->|Hne].
  - rewrite lookup_alter_eq, lookup_alter_eq, Hp, lookup_insert_eq. done.
  - by rewrite !lookup_alter_ne, lookup_insert_ne.
Qed.

(** C1, as amended.  A start request on a [running] deployment is
    rejected with a failure response and changes nothing.  On every other
    status ([stopped], [error], and [deploying] as well) start sets the
    status to [deploying] and runs the launch on that state: when the
    launch returns the response is a success and the status is
    [deploying], when it raises the response is a failure and the status
    is [error]. *)
Theorem start_project_guard `{Host} env u project_id w p :
  projects w !! project_id = Some p →
  p_id p = project_id →
  user_id p = u_id u →
  (status p = "running" →
     start_project env u project_id w
     = (Ok (Json false (Msg "Project is already running") 400), w))
  ∧ (status p ≠ "running" →
     ∃ r w', start_project env u project_id w = (Ok r, w') ∧
       match launch env u (set_status "deploying" p)
                    (with_projects (alter (set_status "deploying") project_id) w) with
       | (Ok _, w2) =>
           r = Json true (Msg "Project is starting") 200 ∧ w' = w2
           ∧ status <$> projects w' !! project_id = Some "deploying"
       | (Raise e, w2) =>
           r = Json false (MsgExn e) 500
           ∧ status <$> projects w' !! project_id = Some "error"
       end).
Proof.
  intros Hp Hid Hu. rewrite (start_project_unfold env u project_id w p Hp Hu). split.
  - intros ->. done.
  - intros Hst. destruct (String.eqb_spec (status p) "running") as [?|_]; [done|].
    pose proof (launch_has_effect env u (set_status "deploying" p)
                  (with_projects (alter (set_status "deploying") project_id) w)) as He.
    destruct (launch _ _ _ _) as [[[]|e] w2]; simpl in He.
    + eexists _, _. split; [done|]. split; [done|]. split; [done|].
      destruct He as [c ->]. simpl. rewrite Hid.
      by rewrite !lookup_alter_eq, Hp.
    + eexists _, _. split; [done|]. split; [done|]. simpl.
      rewrite He. simpl. by rewrite !lookup_alter_eq, Hp.
Qed.

Lemma start_project_guard_witness :
  start_project (H := host_docker) (env_ok "c1" "https://t1") alice 1
                (world_with (site "running" (Some "c0")))
  = (Ok (Json false (Msg "Project is already running") 400),
     world_with (site "running" (Some "c0")))
  ∧ ∃ r w', start_project (H := host_docker) (env_ok "c1" "https://t1") alice 1
                          (world_with (site "error" None)) = (Ok r, w')
            ∧ r = Json true (Msg "Project is starting") 200
            ∧ status <$> projects w' !! 1 = Some "deploying".
Proof.
  split.
  - apply (start_project_guard (H := host_docker) (env_ok "c1" "https://t1") alice 1
             (world_with (site "running" (Some "c0"))) (site "running" (Some "c0")));
      reflexivity.
  - destruct (start_project_guard (H := host_docker) (env_ok "c1" "https://t1") alice 1
                (world_with (site "error" None)) (site "error" None)
                eq_refl eq_refl eq_refl) as [_ Hgo].
    destruct (Hgo ltac:(discriminate)) as (r & w' & Hrun & Hcase).
    exists r, w'. split; [exact Hrun|].
    vm_compute in Hcase. destruct Hcase as (Hr & _ & Hs). split; [exact Hr|exact Hs].
Defined.

(** C1, counterexample.  A start request on a deployment whose status is
    [deploying] is not rejected: the response is a success and a second
    container has been created and started. *)
Lemma start_project_while_deploying :
  status (site "deploying" (Some "c0")) = "deploying"
  ∧ ∃ w', start_project (H := host_docker) (env_ok "c1" "https://t1") alice 1
                        (world_with (site "deploying" (Some "c0")))
          = (Ok (Json true (Msg "Project is starting") 200), w')
        ∧ w' ≠ world_with (site "deploying" (Some "c0"))
        ∧ containers w' !! "c1" = Some true
        ∧ EvContainerStart "c1" ∈ trace w'.
Proof.
  split; [reflexivity|]. eexists. split; [vm_compute; reflexivity|].
  split; [|split].
  - intros Heq. apply (f_equal trace) in Heq. vm_compute in Heq. discriminate.
  - vm_compute. reflexivity.
  - vm_compute. apply list_elem_of_In. vm_compute. tauto.
Qed.

(** *** Outcomes of a computation *)

Lemma post_bind {A B} (Q1 : A → World → Prop) (Q : B → World → Prop) E
    (m : M A) (k : A → M B) w :
  post Q1 E m w →
  (∀ a w1, Q1 a w1 → post Q E (k a) w1) →
  post Q E (m ≫= k) w.
Proof.
  unfold post, mbind, M_bind. intros Hm Hk.
  destruct (m w) as [[a|e] w1]; [by apply Hk|done].
Qed.

Lemma post_try {A} (Q : A → World → Prop) (E' E : World → Prop)
    (m : M A) (h : exn → M A) w :
  post Q E' m w →
  (∀ e w1, E' w1 → post Q E (h e) w1) →
  post Q E (try_except m h) w.
Proof.
  unfold post, try_except. intros Hm Hh.
  destruct (m w) as [[a|e] w1]; [done|by apply Hh].
Qed.

Lemma post_weaken {A} (Q Q' : A → World → Prop) (E E' : World → Prop) (m : M A) w :
  post Q E m w → (∀ a w', Q a w' → Q' a w') → (∀ w', E w' → E' w') → post Q' E' m w.
Proof.
  unfold post. intros Hm HQ HE. destruct (m w) as [[a|e] w1]; eauto.
Qed.

(** *** Termination of the backend *)

Lemma stop_docker_deployment_effect env p w :
  post (λ _ w', projects w' = alter (set_container_id None) (p_id p) (projects w)
                ∧ ∀ c, container_id p = Some c → containers w' !! c = None)
       (λ w', projects w' = projects w)
       (stop_docker_deployment env p) w.
Proof.
  unfold post, stop_docker_deployment, try_except, containers_get_, container_stop_,
    container_remove_, update_project, emit, check, modify, raise, get_world,
    mbind, M_bind, mret, M_ret.
  simpl. destruct (containers_get_fault env); simpl; [done|].
  destruct (container_id p) as [c|]; simpl; [|done].
  destruct (String.eqb c ""); simpl; [done|].
  case_bool_decide; simpl; [|done].
  destruct (container_stop env); simpl; [done|].
  destruct (container_remove env); simpl; [done|].
  split; [done|]. intros c' [= <-]. apply lookup_delete_eq.
Qed.

Lemma reap_keeps_projects env i pid : keeps projects (reap env i pid).
Proof. unfold reap. keeps_projects. Qed.

Lemma os_kill_keeps_projects env pid sig : keeps projects (os_kill env pid sig).
Proof. unfold os_kill. keeps_projects. Qed.

Lemma wait_for_exit_keeps_projects env pid n : ∀ i, keeps projects (wait_for_exit env pid n i).
Proof.
  induction n as [|n IH]; intros i; simpl; [apply keeps_ret|].
  repeat first [ apply reap_keeps_projects | apply os_kill_keeps_projects
               | apply time_sleep_keeps_projects | apply IH | keeps_step ].
Qed.

Lemma force_kill_effect env pid w :
  post (λ _ w', projects w' = projects w ∧ pid ∉ procs w')
       (λ w', projects w' = projects w)
       (force_kill env pid) w.
Proof.
  unfold post, force_kill, try_except, reap, os_kill, emit, check, modify, raise,
    get_world, mbind, M_bind, mret, M_ret.
  destruct (exits_after env) as [k|]; [destruct (k <=? 10)%nat|]; simpl;
    destruct (os_kill_denied env); simpl.
  all: repeat match goal with
         | |- context [bool_decide ?P] => destruct (bool_decide_reflect P); simpl
         end.
  all: try done.
  all: split; [done|set_solver].
Qed.

Lemma stop_native_deployment_falsy `{Host} env p w :
  truthy_opt (container_id p) = false →
  stop_native_deployment env p w = (Ok tt, w).
Proof. intros Hf. unfold stop_native_deployment. by rewrite Hf. Qed.

Lemma post_bind_keeps {A B X} (f : World → X) (x : X) (Q : B → World → Prop)
    (E : World → Prop) (m : M A) (k : A → M B) w :
  keeps f m →
  f w = x →
  (∀ w1, f w1 = x → E w1) →
  (∀ a w1, f w1 = x → post Q E (k a) w1) →
  post Q E (m ≫= k) w.
Proof.
  intros Hm Hw HE Hk. unfold post, mbind, M_bind. specialize (Hm w).
  destruct (m w) as [[a|e] w1]; simpl in *.
  - apply Hk. congruence.
  - apply HE. congruence.
Qed.

#[local] Opaque wait_for_exit.

Lemma stop_native_deployment_effect `{Host} env p w :
  truthy_opt (container_id p) = true →
  post (λ _ w', projects w' = alter (set_container_id None) (p_id p) (projects w)
                ∧ ∀ c pid, container_id p = Some c → py_int c = Some pid → pid ∉ procs w')
       (λ w', projects w' = projects w)
       (stop_native_deployment env p) w.
Proof.
  intros Ht. unfold stop_native_deployment. rewrite Ht. simpl.
  apply post_try with (E' := λ w', projects w' = projects w); [|by intros].
  destruct (container_id p) as [c|] eqn:Hc; [|done]. simpl.
  destruct (py_int c) as [pid|] eqn:Hpid; [|done].
  change (mret pid ≫= ?k) with (k pid). 
  apply (post_bind_keeps projects (projects w));
    [apply os_kill_keeps_projects|done|done|intros _ w1 H1].
  apply (post_bind_keeps projects (projects w));
    [apply wait_for_exit_keeps_projects|done|done|intros _ w2 H2].
  eapply post_bind.
  { eapply post_weaken; [apply force_kill_effect|..]; simpl.
    - intros ? w3 [H3 Hn].
      instantiate (1 := λ _ w3, projects w3 = projects w ∧ pid ∉ procs w3).
      simpl. split; [congruence|exact Hn].
    - intros w3 H3. simpl. congruence. }
  intros ? w3 [H3 Hn]. unfold post, update_project, modify. simpl.
  rewrite H3. split; [done|]. intros ? ? [= <-] Hp. by simplify_eq.
Qed.

Lemma terminate_falsy `{Host} env p w :
  truthy_opt (container_id p) = false →
  terminate env p w = (Ok tt, w).
Proof.
  intros Hf. unfold terminate. rewrite Hf, andb_false_r.
  by apply stop_native_deployment_falsy.
Qed.

Lemma terminate_effect `{Host} env p w :
  truthy_opt (container_id p) = true →
  post (λ _ w', projects w' = alter (set_container_id None) (p_id p) (projects w)
                ∧ ∀ c, container_id p = Some c → backend_gone c w')
       (λ w', projects w' = projects w)
       (terminate env p) w.
Proof.
  intros Ht. unfold terminate, backend_gone. rewrite Ht, andb_true_r.
  destruct docker_available.
  - apply stop_docker_deployment_effect.
  - eapply post_weaken; [by apply stop_native_deployment_effect|..]; simpl; [|done].
    intros _ w' [Hp Hg]. split; [done|]. intros c Hc pid Hpid. by eapply Hg.
Qed.

(** *** Stop *)

Lemma stop_project_unfold `{Host} env u project_id w p :
  projects w !! project_id = Some p →
  user_id p = u_id u →
  status p = "running" →
  stop_project env u project_id w =
    match terminate env p w with
    | (Ok _, w1) =>
        (Ok (Json true (Msg "Project stopped successfully") 200),
         with_projects (alter (set_status "stopped") project_id) w1)
    | (Raise e, w1) => (Ok (Json false (MsgExn e) 500), w1)
    end.
Proof.
  intros Hp Hu Hst. unfold stop_project, db_get, mbind, M_bind.
  rewrite Hp, Hu, Z.eqb_refl, Hst. simpl.
  unfold try_except, update_project, modify, mbind, M_bind.
  by destruct (terminate env p w) as [[[]|e] w1].
Qed.


Lemma falsy_handle (h : option string) :
  h ≠ Some "" → truthy_opt h = false → h = None.
Proof.
  destruct h as [s|]; [|done]. simpl. intros Hne.
  destruct (String.eqb_spec s ""); [by subst|done].
Qed.



(** The same on the native backend: the child is signalled and is gone. *)
Example stop_project_native :
  let r := stop_project (H := host_native) (env_ok "c1" "https://t1") alice 1
                        (native_world "running") in
  r.1 = Ok (Json true (Msg "Project stopped successfully") 200)
  ∧ projects r.2 !! 1 = Some (native_site "stopped" None)
  ∧ bool_decide (4242 ∈ procs r.2) = false
  ∧ EvKill 4242 SIGTERM ∈ trace r.2.
Proof.
  repeat split; try (vm_compute; reflexivity).
  apply list_elem_of_In. vm_compute. tauto.
Qed.

(** C7.  When the termination of the backend raises, stop answers with a
    failure that carries the error, and the [project] table is as it was:
    the status is still [running], so the request can be made again. *)
Theorem stop_failure_keeps_status `{Host} env u project_id w p e w1 :
  projects w !! project_id = Some p →
  user_id p = u_id u →
  status p = "running" →
  terminate env p w = (Raise e, w1) →
  stop_project env u project_id w = (Ok (Json false (MsgExn e) 500), w1)
  ∧ projects w1 = projects w
  ∧ status <$> projects w1 !! project_id = Some "running".
Proof.
  intros Hp Hu Hst Ht.
  rewrite (stop_project_unfold env u project_id w p Hp Hu Hst), Ht.
  split; [done|].
  assert (projects w1 = projects w) as Heq.
  { destruct (truthy_opt (container_id p)) eqn:Hh.
    - pose proof (terminate_effect env p w Hh) as He. unfold post in He.
      by rewrite Ht in He.
    - rewrite (terminate_falsy env p w Hh) in Ht. done. }
  split; [done|]. by rewrite Heq, Hp; simpl; rewrite Hst.
Qed.

Lemma stop_failure_keeps_status_witness :
  let w := with_container "c0" (world_with (site "running" (Some "c0"))) in
  ∃ w1, stop_project (H := host_docker) env_stop_fails alice 1 w
        = (Ok (Json false (MsgExn (Wrapped "Failed to stop Docker container: "
                                      (OtherError "APIError"))) 500), w1)
      ∧ projects w1 = projects w
      ∧ status <$> projects w1 !! 1 = Some "running".
Proof.
  intros w. eexists.
  apply (stop_failure_keeps_status (H := host_docker) env_stop_fails alice 1 w
           (site "running" (Some "c0"))).
  - reflexivity.
  - reflexivity.
  - reflexivity.
  - vm_compute. reflexivity.
Defined.

(** Called on its own with a null handle, the termination of the
    container backend raises; the handlers never call it so. *)
Example stop_docker_deployment_null_handle :
  (stop_docker_deployment (env_ok "c1" "https://t1") (site "stopped" None)
                          (world_with (site "stopped" None))).1
  = Raise (Wrapped "Failed to stop Docker container: " NullResource).
Proof. reflexivity. Qed.

(** C9.  Terminating a deployment whose handle is null returns without
    raising and changes nothing, on the native path and through the
    dispatch of the handlers alike.  After a termination that returned,
    the stored handle is null or empty, so a second termination returns
    as well and is a no-op. *)
Theorem terminate_twice `{Host} env env' p w w' :
  (container_id p = None →
     stop_native_deployment env p w = (Ok tt, w) ∧ terminate env p w = (Ok tt, w))
  ∧ (projects w !! p_id p = Some p →
     terminate env p w = (Ok tt, w') →
     ∃ p', projects w' !! p_id p = Some p'
           ∧ truthy_opt (container_id p') = false
           ∧ (container_id p ≠ Some "" → container_id p' = None)
           ∧ terminate env' p' w' = (Ok tt, w')).
Proof.
  split.
  - intros Hn. split.
    + apply stop_native_deployment_falsy. by rewrite Hn.
    + apply terminate_falsy. by rewrite Hn.
  - intros Hp Ht. destruct (truthy_opt (container_id p)) eqn:Hh.
    + pose proof (terminate_effect env p w Hh) as He. unfold post in He.
      rewrite Ht in He. destruct He as [Hp1 _].
      exists (set_container_id None p). rewrite Hp1, lookup_alter_eq, Hp.
      split; [done|]. split; [done|]. split; [done|]. by apply terminate_falsy.
    + rewrite (terminate_falsy env p w Hh) in Ht. injection Ht as <-.
      exists p. split; [done|]. split; [done|]. split.
      * intros Hne. by apply falsy_handle.
      * by apply terminate_falsy.
Qed.

Lemma terminate_twice_witness :
  let w := with_container "c0" (world_with (site "running" (Some "c0"))) in
  ∃ w' p', terminate (H := host_docker) (env_ok "c1" "https://t1")
                     (site "running" (Some "c0")) w = (Ok tt, w')
           ∧ projects w' !! 1 = Some p'
           ∧ container_id p' = None
           ∧ terminate (H := host_docker) env_stop_fails p' w' = (Ok tt, w').
Proof.
  intros w.
  assert (terminate (H := host_docker) (env_ok "c1" "https://t1")
                    (site "running" (Some "c0")) w
          = (Ok tt, (terminate (H := host_docker) (env_ok "c1" "https://t1")
                               (site "running" (Some "c0")) w).2))
    as Hrun by (vm_compute; reflexivity).
  destruct (terminate_twice (H := host_docker) (env_ok "c1" "https://t1") env_stop_fails
              (site "running" (Some "c0")) w
              (terminate (H := host_docker) (env_ok "c1" "https://t1")
                         (site "running" (Some "c0")) w).2) as [_ Hsecond].
  destruct (Hsecond eq_refl Hrun) as (p' & Hrow & _ & Hnone & Hagain).
  eexists _, p'. split; [exact Hrun|]. split; [exact Hrow|].
  split; [apply Hnone; discriminate|exact Hagain].
Defined.

(** *** The readiness monitor of the container backend *)

Lemma wait_for_port_keeps_projects env port_no n :
  ∀ i, keeps projects (wait_for_port env port_no n i).
Proof.
  induction n as [|n IH]; intros i; simpl; [apply keeps_ret|].
  apply keeps_bind; [by apply keeps_emit|intros _].
  destruct (connect_ex env i) as [[]|]; try apply keeps_ret;
    (apply keeps_bind; [apply time_sleep_keeps_projects|intros _; apply IH]).
Qed.

Lemma wait_until_ready_keeps_projects env p : keeps projects (wait_until_ready env p).
Proof.
  unfold wait_until_ready.
  repeat first [ apply wait_for_port_keeps_projects | apply time_sleep_keeps_projects
               | keeps_step ].
Qed.

(** The wait raises only if [time.sleep] does: neither an unreachable
    port nor a failing probe ends it with an exception. *)
Lemma wait_for_port_returns env port_no n :
  (∀ i, time_sleep env i = None) →
  ∀ i w, ∃ w1, wait_for_port env port_no n i w = (Ok tt, w1).
Proof.
  intros Hs. induction n as [|n IH]; intros i w; simpl; [by eexists|].
  unfold mbind, M_bind, emit, modify, time_sleep_, check. simpl.
  destruct (connect_ex env i) as [[]|]; simpl; try (by eexists);
    rewrite Hs; simpl; apply IH.
Qed.

Lemma wait_until_ready_returns env p w :
  (∀ i, time_sleep env i = None) →
  ∃ w1, wait_until_ready env p w = (Ok tt, w1).
Proof.
  intros Hs. unfold wait_until_ready.
  repeat case_match; try (by apply wait_for_port_returns);
    unfold time_sleep_, mbind, M_bind, emit, modify, check; simpl;
    try rewrite Hs; by eexists.
Qed.

Lemma start_ngrok_for_project_keeps_status env row tok i :
  keeps (λ w, status <$> projects w !! i) (start_ngrok_for_project env row tok).
Proof.
  unfold start_ngrok_for_project, time_sleep_, ngrok_connect_, update_project.
  repeat first
    [ keeps_step
    | by apply keeps_emit
    | apply keeps_modify; intros [];  simpl;
      first [ done
            | destruct (decide (p_id row = i)) as [->|];
              [rewrite lookup_alter_eq; by destruct (_ !! i)
              |by rewrite lookup_alter_ne] ] ].
Qed.

Lemma monitor_container_health_unfold env p container w row :
  projects w !! p_id p = Some row →
  p_id row = p_id p →
  monitor_container_health env p container w =
    match wait_until_ready env p w with
    | (Ok _, w1) =>
        let w1' := with_projects (alter (set_status "running") (p_id p)) w1 in
        match tunnel_token row with
        | Some tok =>
            (Ok tt, (start_ngrok_for_project env (set_status "running" row) tok w1').2)
        | None => (Ok tt, w1')
        end
    | (Raise _, w1) => (Ok tt, with_projects (alter (set_status "error") (p_id p)) w1)
    end.
Proof.
  intros Hrow Hid. unfold monitor_container_health, try_except, mbind, M_bind.
  pose proof (wait_until_ready_keeps_projects env p w) as Hk. simpl in Hk.
  destruct (wait_until_ready env p w) as [[[]|e] w1]; simpl in Hk;
    unfold db_get; rewrite Hk, Hrow, Hid; unfold update_project, modify; simpl; [|done].
  unfold tunnel_token. simpl.
  destruct (dict_get "ngrok_token" (config row)) as [|tok]; [done|].
  match goal with |- context [if ?b then _ else _] => destruct b end; [|done].
  by destruct (start_ngrok_for_project _ _ _ _) as [[[]|] ?].
Qed.

(** C2.  When the wait of the readiness monitor ends without an
    exception, the status is set to [running], and the tunnel is started
    on that state exactly when a token is stored and the kind is
    network-facing; when the wait raises, the status is set to [error].
    As long as [time.sleep] returns the wait does not raise, whatever the
    probes answer: a port that never becomes reachable ends in [running],
    not in [error]. *)
Theorem monitor_container_health_outcome env p container w row :
  projects w !! p_id p = Some row →
  p_id row = p_id p →
  match wait_until_ready env p w with
  | (Ok _, w1) =>
      ∃ w2, monitor_container_health env p container w = (Ok tt, w2)
            ∧ status <$> projects w2 !! p_id p = Some "running"
            ∧ let w1' := with_projects (alter (set_status "running") (p_id p)) w1 in
              match tunnel_token row with
              | Some tok =>
                  w2 = (start_ngrok_for_project env (set_status "running" row) tok w1').2
              | None => w2 = w1'
              end
  | (Raise _, w1) =>
      ∃ w2, monitor_container_health env p container w = (Ok tt, w2)
            ∧ status <$> projects w2 !! p_id p = Some "error"
  end
  ∧ ((∀ i, time_sleep env i = None) →
     ∃ w2, monitor_container_health env p container w = (Ok tt, w2)
           ∧ status <$> projects w2 !! p_id p = Some "running").
Proof.
  intros Hrow Hid.
  rewrite (monitor_container_health_unfold env p container w row Hrow Hid).
  pose proof (wait_until_ready_keeps_projects env p w) as Hk. simpl in Hk.
  assert (∀ w1, projects w1 = projects w →
            ∃ w2, match tunnel_token row with
                  | Some tok =>
                      (Ok tt, (start_ngrok_for_project env (set_status "running" row) tok
                                 (with_projects (alter (set_status "running") (p_id p)) w1)).2)
                  | None => (Ok tt, with_projects (alter (set_status "running") (p_id p)) w1)
                  end = (Ok tt, w2)
                  ∧ status <$> projects w2 !! p_id p = Some "running"
                  ∧ match tunnel_token row with
                    | Some tok =>
                        w2 = (start_ngrok_for_project env (set_status "running" row) tok
                                (with_projects (alter (set_status "running") (p_id p)) w1)).2
                    | None => w2 = with_projects (alter (set_status "running") (p_id p)) w1
                    end) as Hrun.
  { intros w1 Hw1. destruct (tunnel_token row) as [tok|].
    - eexists. split; [done|]. split; [|done].
      rewrite (start_ngrok_for_project_keeps_status env _ tok (p_id p) _). simpl.
      by rewrite Hw1, lookup_alter_eq, Hrow.
    - eexists. split; [done|]. split; [|done]. simpl.
      by rewrite Hw1, lookup_alter_eq, Hrow. }
  split.
  - destruct (wait_until_ready env p w) as [[[]|e] w1]; simpl in Hk.
    + destruct (Hrun w1 Hk) as (w2 & Heq & Hst & Htun). by exists w2.
    + eexists. split; [done|]. simpl. by rewrite Hk, lookup_alter_eq, Hrow.
  - intros Hs. destruct (wait_until_ready_returns env p w Hs) as [w1 Hw].
    rewrite Hw in *. simpl in Hk.
    destruct (Hrun w1 Hk) as (w2 & Heq & Hst & _). by exists w2.
Qed.

Lemma monitor_container_health_outcome_witness :
  ∃ w2, monitor_container_health (env_unreachable "c1" "https://t1")
                                 (site_with_token "deploying" (Some "c1")) "c1"
                                 (world_with (site_with_token "deploying" (Some "c1")))
        = (Ok tt, w2)
      ∧ status <$> projects w2 !! 1 = Some "running".
Proof.
  destruct (monitor_container_health_outcome (env_unreachable "c1" "https://t1")
              (site_with_token "deploying" (Some "c1")) "c1"
              (world_with (site_with_token "deploying" (Some "c1")))
              (site_with_token "deploying" (Some "c1")) eq_refl eq_refl)
    as [_ Htimeout].
  apply Htimeout. intros i. reflexivity.
Defined.

(** *** The monitor of the native backend *)

Lemma parent_ne (f : path) : f ≠ [] → parent f ≠ f.
Proof.
  intros Hne Heq. apply (f_equal length) in Heq. unfold parent in Heq.
  rewrite length_take in Heq. destruct f; [done|]. simpl in Heq. lia.
Qed.

Lemma is_dir_parent_insert (m : gmap path node) f n :
  is_dir (<[f := n]> m) (parent f) = is_dir m (parent f).
Proof.
  destruct (decide (f = [])) as [->|Hne]; [done|].
  unfold is_dir. destruct (parent f) eqn:Hp; [done|].
  rewrite <- Hp, lookup_insert_ne; [done|]. intros Heq. by apply (parent_ne f).
Qed.

Lemma is_dir_parent_alter (m : gmap path node) f g :
  is_dir (alter g f m) (parent f) = is_dir m (parent f).
Proof.
  destruct (decide (f = [])) as [->|Hne]; [done|].
  unfold is_dir. destruct (parent f) eqn:Hp; [done|].
  rewrite <- Hp, lookup_alter_ne; [done|]. intros Heq. by apply (parent_ne f).
Qed.

Lemma append_spec f c w :
  openable (fs w) f →
  ∃ w', append f c w = (Ok tt, w')
        ∧ projects w' = projects w
        ∧ openable (fs w') f
        ∧ file_content (fs w') f = file_content (fs w) f ++ [c].
Proof.
  intros [Hd Hf]. unfold append, open_a, f_write, modify, mbind, M_bind.
  rewrite Hd. rewrite bool_decide_eq_false_2 by done. simpl.
  eexists. split; [done|]. split; [done|]. unfold openable, file_content, is_file.
  destruct (fs w !! f) as [[|cs]|] eqn:Hl; [done|..]; simpl.
  - rewrite Hl, is_dir_parent_alter, lookup_alter_eq, Hl. simpl. by rewrite Hd.
  - rewrite Hl, is_dir_parent_alter, is_dir_parent_insert, lookup_alter_eq, lookup_insert_eq.
    simpl. by rewrite Hd.
Qed.

Lemma capture_logs_spec f lines :
  ∀ w, openable (fs w) f →
  ∃ w', capture_logs f lines w = (Ok tt, w')
        ∧ projects w' = projects w
        ∧ openable (fs w') f
        ∧ file_content (fs w') f
          = file_content (fs w) f ++ (Text <$> filter (λ l, l ≠ "") lines).
Proof.
  induction lines as [|line rest IH]; intros w Ho.
  - exists w. simpl. by rewrite app_nil_r.
  - cbn [capture_logs]. unfold mbind, M_bind.
    destruct (String.eqb_spec line "") as [->|Hne].
    + rewrite filter_cons_False by (intros ?; done). apply IH, Ho.
    + destruct (append_spec f (Text line) w Ho) as (w1 & -> & Hp1 & Ho1 & Hc1).
      destruct (IH w1 Ho1) as (w2 & -> & Hp2 & Ho2 & Hc2).
      exists w2. split; [done|]. split; [congruence|]. split; [done|].
      rewrite filter_cons_True by done. rewrite fmap_cons, Hc2, Hc1, <- app_assoc. done.
Qed.

(** C5.  When the child of a native deployment exits, the monitor has
    appended the child's output and then the exit code to the log file,
    and sets the status to [running] for exit code 0 and to [error] for
    any other exit code. *)
Theorem monitor_native_process_outcome process p log_file w row :
  projects w !! p_id p = Some row →
  p_id row = p_id p →
  openable (fs w) log_file →
  ∃ w', monitor_native_process process p log_file w = (Ok tt, w')
        ∧ file_content (fs w') log_file
          = file_content (fs w) log_file
            ++ (Text <$> filter (λ l, l ≠ "") (proc_stdout process))
            ++ [exit_message (proc_returncode process)]
        ∧ status <$> projects w' !! p_id p
          = Some (if proc_returncode process =? 0 then "running" else "error")
        ∧ (proc_returncode process = 1 →
           status <$> projects w' !! p_id p = Some "error"
           ∧ Text (nl +:+ "Process exited with code 1" +:+ nl)
             ∈ file_content (fs w') log_file).
Proof.
  intros Hrow Hid Ho.
  destruct (capture_logs_spec log_file (proc_stdout process) w Ho)
    as (w1 & Hrun1 & Hp1 & Ho1 & Hc1).
  assert (openable (fs (with_procs (λ s, s ∖ {[proc_pid process]}) w1)) log_file) as Ho1'
    by done.
  destruct (append_spec log_file (exit_message (proc_returncode process)) _ Ho1')
    as (w2 & Hrun2 & Hp2 & Ho2 & Hc2).
  simpl in Hp2, Hc2.
  assert (∃ w', monitor_native_process process p log_file w = (Ok tt, w')
                ∧ fs w' = fs w2
                ∧ status <$> projects w' !! p_id p
                  = Some (if proc_returncode process =? 0 then "running" else "error"))
    as (w' & Hrun & Hfs & Hst).
  { unfold monitor_native_process, try_except, mbind, M_bind, modify, db_get.
    rewrite Hrun1. simpl. rewrite Hrun2. simpl. rewrite Hp2, Hp1, Hrow, Hid.
    unfold update_project, modify.
    destruct (proc_returncode process =? 0); eexists; (split; [done|]); simpl;
      (split; [done|]); by rewrite Hp2, Hp1, lookup_alter_eq, Hrow. }
  exists w'. split; [done|]. rewrite Hfs, Hc2, Hc1, <- app_assoc.
  split; [done|]. split; [done|]. intros Hone. rewrite Hone in *. split; [done|].
  rewrite !elem_of_app. right. right. apply list_elem_of_singleton. done.
Qed.

Lemma monitor_native_process_outcome_witness :
  ∃ w', monitor_native_process (mkProcess 4242 ["Traceback"; "boom"] 1)
                               (native_site "deploying" (Some "4242"))
                               ["users"; "alice"; "projects"; "1"; "logs"; "app.log"]
                               (native_world "deploying")
        = (Ok tt, w')
      ∧ status <$> projects w' !! 1 = Some "error"
      ∧ file_content (fs w') ["users"; "alice"; "projects"; "1"; "logs"; "app.log"]
        = [StartingDeploymentAt; Text "Traceback"; Text "boom";
           Text (nl +:+ "Process exited with code 1" +:+ nl)].
Proof.
  destruct (monitor_native_process_outcome (mkProcess 4242 ["Traceback"; "boom"] 1)
              (native_site "deploying" (Some "4242"))
              ["users"; "alice"; "projects"; "1"; "logs"; "app.log"]
              (native_world "deploying") (native_site "deploying" (Some "4242"))
              eq_refl eq_refl)
    as (w' & Hrun & Hlog & Hst & _).
  - split; [reflexivity|]. vm_compute. discriminate.
  - exists w'. split; [exact Hrun|]. split; [exact Hst|]. rewrite Hlog. reflexivity.
Defined.

(** *** Directories and files *)

Lemma elem_of_ancestors (q d : path) :
  q ∈ ancestors d ↔ q ≠ [] ∧ q `prefix_of` d.
Proof.
  unfold ancestors. rewrite list_elem_of_fmap. split.
  - intros (n & -> & Hn). apply elem_of_seq in Hn. split.
    + intros Hnil. apply (f_equal length) in Hnil. rewrite length_take in Hnil.
      simpl in Hnil. lia.
    + exists (drop n d). by rewrite take_drop.
  - intros [Hne [k ->]]. exists (length q). split.
    + by rewrite take_app_length.
    + apply elem_of_seq. rewrite length_app. destruct q; [done|]. simpl. lia.
Qed.


Lemma snoc_ne_snoc (d : path) x y : x ≠ y → d ++ [x] ≠ d ++ [y].
Proof. intros Hne Heq. apply app_inj_tail in Heq as [_ ?]. done. Qed.



Lemma sibling_not_in_ancestors (d : path) x y :
  x ≠ y → d ++ [x] ∉ ancestors (d ++ [y]).
Proof.
  intros Hne [_ [k Hk]]%elem_of_ancestors. apply (snoc_ne_snoc d y x); [done|].
  assert (k = []) as ->.
  { apply (f_equal length) in Hk. rewrite !length_app in Hk. simpl in Hk.
    destruct k; [done|]. simpl in Hk. lia. }
  by rewrite app_nil_r in Hk.
Qed.


Lemma lookup_mkdirs (l : list path) (m : gmap path node) (q : path) :
  foldr (λ a, <[a := Dir]>) m l !! q = if bool_decide (q ∈ l) then Some Dir else m !! q.
Proof.
  induction l as [|a l IH].
  - unfold foldr. rewrite bool_decide_eq_false_2; [done|]. apply not_elem_of_nil.
  - cbn [foldr]. destruct (decide (a = q)) as [->|Hne].
    + rewrite lookup_insert_eq, bool_decide_eq_true_2; [done|]. apply list_elem_of_here.
    + rewrite lookup_insert_ne, IH by done.
      rewrite (bool_decide_ext (q ∈ a :: l) (q ∈ l)); [done|].
      rewrite elem_of_cons. naive_solver.
Qed.









#[local] Opaque get_project_dir.





#[local] Transparent get_project_dir.


#[local] Opaque get_project_dir.




(** A static site created without its page: writing [None] raises, after
    the row was stored and the directories and an empty [index.html] were
    created. *)
Example static_site_without_page :
  let r := new_deployment (H := host_docker) alice site_form_without_page empty_world in
  r.1 = Raise TypeError
  ∧ status <$> projects r.2 !! 1 = Some "stopped"
  ∧ fs r.2 !! ["users"; "alice"; "projects"; "1"; "logs"] = Some Dir
  ∧ fs r.2 !! ["users"; "alice"; "projects"; "1"; "index.html"] = Some (File []).
Proof. repeat split; vm_compute; reflexivity. Qed.

(** *** What a launch that returns has gone through *)

Lemma bind_ok_inv {A B} (m : M A) (k : A → M B) w b w' :
  (m ≫= k) w = (Ok b, w') →
  ∃ a w1, m w = (Ok a, w1) ∧ k a w1 = (Ok b, w').
Proof.
  unfold mbind, M_bind. destruct (m w) as [[a|e] w1]; [|done]. intros Hk. by exists a, w1.
Qed.

Lemma try_ok_inv {A} (m : M A) (h : exn → M A) w a w' :
  (∀ e w1, ∃ e' w2, h e w1 = (Raise e', w2)) →
  try_except m h w = (Ok a, w') →
  m w = (Ok a, w').
Proof.
  intros Hh. unfold try_except. destruct (m w) as [[a0|e] w1]; [done|].
  destruct (Hh e w1) as (e' & w2 & ->). done.
Qed.

Lemma clone_for_docker_ok_inv env p d w w' :
  clone_for_docker env p d w = (Ok tt, w') →
  clones_repository p →
  ∃ out, git_clone env = Ok out.
Proof.
  unfold clone_for_docker, clones_repository. intros Hrun [Hk Hr]. rewrite Hk in Hrun.
  destruct (dict_get "github_repo" (config p)) as [|repo]; [done|].
  rewrite Hr in Hrun. unfold try_except, git_clone_, emit, lift, modify, mbind, M_bind in Hrun.
  simpl in Hrun. destruct (git_clone env) as [out|e]; [by exists out|].
  by destruct e.
Qed.

(** A launch on the container backend returns only if the clone (when
    the project has a repository), the image build, the creation and the
    start of the container have all succeeded. *)
Lemma start_docker_deployment_ok_inv env u p w w' :
  start_docker_deployment env u p w = (Ok tt, w') →
  (clones_repository p → ∃ out, git_clone env = Ok out)
  ∧ images_build env = None
  ∧ (∃ c, containers_create env = Ok c)
  ∧ container_start env = None.
Proof.
  unfold start_docker_deployment. intros Hrun.
  apply bind_ok_inv in Hrun as ([] & w1 & Hb1 & Hb2).
  apply try_ok_inv in Hb1; [|intros; by eexists _, _].
  apply bind_ok_inv in Hb1 as ([] & w0 & Hclone & Hbuild).
  apply try_ok_inv in Hb2; [|intros; by eexists _, _].
  split; [by eapply clone_for_docker_ok_inv|].
  unfold images_build_, emit, check, modify, mbind, M_bind in Hbuild. simpl in Hbuild.
  destruct (images_build env); [done|]. split; [done|].
  unfold containers_create_, container_start_, emit, check, lift, modify, mbind, M_bind in Hb2.
  simpl in Hb2. destruct (containers_create env) as [c|]; [|done]. split; [by exists c|].
  simpl in Hb2. by destruct (container_start env).
Qed.

(** Writing the log file leaves every other path as it was. *)
Lemma open_w_keeps_lookup f q : f ≠ q → keeps (λ w, fs w !! q) (open_w f).
Proof.
  intros Hne w. unfold open_w. repeat case_match; try done. simpl.
  by rewrite lookup_insert_ne.
Qed.

Lemma f_write_keeps_lookup f c q : f ≠ q → keeps (λ w, fs w !! q) (f_write f c).
Proof. intros Hne w. unfold f_write, modify. simpl. by rewrite lookup_alter_ne. Qed.

Lemma append_keeps_lookup f c q : f ≠ q → keeps (λ w, fs w !! q) (append f c).
Proof.
  intros Hne. unfold append. apply keeps_bind; [|intros; by apply f_write_keeps_lookup].
  intros w. unfold open_a. repeat case_match; try done. simpl.
  case_match; [done|]. by rewrite lookup_insert_ne.
Qed.

Lemma on_called_process_error_raises f a b e w :
  ∃ e' w', on_called_process_error f a b e w = (Raise e', w').
Proof.
  unfold on_called_process_error. destruct e; try by eexists _, _.
  unfold mbind, M_bind. destruct (append _ _ w) as [[[]|e'] w1]; by eexists _, _.
Qed.

Lemma on_called_process_error_keeps_lookup f a b e q :
  f ≠ q → keeps (λ w, fs w !! q) (on_called_process_error f a b e).
Proof.
  intros Hne. unfold on_called_process_error. destruct e; try apply keeps_raise.
  apply keeps_bind; [by apply append_keeps_lookup|intros; apply keeps_raise].
Qed.

Lemma clone_for_native_keeps_lookup env p d f q :
  f ≠ q → keeps (λ w, fs w !! q) (clone_for_native env p d f).
Proof.
  intros Hne. unfold clone_for_native, git_clone_.
  repeat first [ by apply append_keeps_lookup
               | by apply on_called_process_error_keeps_lookup
               | by apply keeps_emit | keeps_step ].
Qed.

Lemma clone_for_native_ok_inv env p d f w w' :
  clone_for_native env p d f w = (Ok tt, w') →
  clones_repository p →
  ∃ out, git_clone env = Ok out.
Proof.
  unfold clone_for_native, clones_repository. intros Hrun [Hk Hr]. rewrite Hk in Hrun.
  destruct (dict_get "github_repo" (config p)) as [|repo]; [done|].
  rewrite Hr in Hrun.
  apply try_ok_inv in Hrun; [|apply on_called_process_error_raises].
  apply bind_ok_inv in Hrun as ([] & w1 & _ & Hrun).
  apply bind_ok_inv in Hrun as (out & w2 & Hclone & _).
  unfold git_clone_, emit, lift, modify, mbind, M_bind in Hclone. simpl in Hclone.
  destruct (git_clone env) as [out'|]; [by exists out'|done].
Qed.

Lemma install_requirements_ok_inv env d f w w' :
  install_requirements env d f w = (Ok tt, w') →
  is_Some (fs w !! (d ++ ["requirements.txt"])) →
  ∃ out, pip_install env = Ok out.
Proof.
  unfold install_requirements, path_exists. intros Hrun Hreq.
  unfold mbind at 1, M_bind at 1 in Hrun. rewrite bool_decide_eq_true_2 in Hrun by done.
  apply bind_ok_inv in Hrun as ([] & w1 & _ & Hrun).
  apply try_ok_inv in Hrun; [|apply on_called_process_error_raises].
  apply bind_ok_inv in Hrun as ([] & w2 & _ & Hrun).
  apply bind_ok_inv in Hrun as (out & w3 & Hpip & _).
  unfold lift in Hpip. destruct (pip_install env) as [out'|]; [by exists out'|done].
Qed.

(** A launch on the native backend returns only if the clone (when the
    project has a repository), the installation of the requirements (when
    the project has a requirements file) and the spawn of the child have
    all succeeded. *)
Lemma start_native_deployment_ok_inv `{Host} env u p w w' :
  start_native_deployment env u p w = (Ok tt, w') →
  (clones_repository p → ∃ out, git_clone env = Ok out)
  ∧ (is_Some (fs w !! (get_project_dir u p ++ ["requirements.txt"])) →
     ∃ out, pip_install env = Ok out)
  ∧ (∃ pid, popen env = Ok pid).
Proof.
  unfold start_native_deployment. intros Hrun.
  set (d := get_project_dir u p) in *.
  set (log := (d ++ ["logs"]) ++ ["app.log"]) in *.
  set (req := d ++ ["requirements.txt"]).
  assert (log ≠ req) as Hne.
  { subst log req. intros Heq. apply (f_equal length) in Heq.
    rewrite !length_app in Heq. simpl in Heq. lia. }
  apply bind_ok_inv in Hrun as ([] & w1 & Hmk & Hrun).
  apply bind_ok_inv in Hrun as ([] & w2 & Hopen & Hrun).
  apply bind_ok_inv in Hrun as ([] & w3 & Hwrite & Hrun).
  apply bind_ok_inv in Hrun as ([] & w4 & Hclone & Hrun).
  apply bind_ok_inv in Hrun as ([] & w5 & Hpip & Hrun).
  apply bind_ok_inv in Hrun as ([] & w6 & _ & Hrun).
  apply bind_ok_inv in Hrun as (cmd & w7 & _ & Hrun).
  destruct (all_str cmd) as [cmd'|]; [|done].
  apply bind_ok_inv in Hrun as ([] & w8 & _ & Hrun).
  apply bind_ok_inv in Hrun as (pid & w9 & Hpopen & _).
  split; [by eapply clone_for_native_ok_inv|]. split.
  - intros Hreq. eapply install_requirements_ok_inv; [exact Hpip|].
    fold req in Hreq |- *.
    assert (fs w4 !! req = fs w !! req) as ->; [|done].
    pose proof (clone_for_native_keeps_lookup env p d log req Hne w3) as H4.
    pose proof (f_write_keeps_lookup log StartingDeploymentAt req Hne w2) as H3.
    pose proof (open_w_keeps_lookup log req Hne w1) as H2.
    rewrite Hclone in H4. rewrite Hwrite in H3. rewrite Hopen in H2. simpl in *.
    rewrite H4, H3, H2. unfold makedirs in Hmk. case_match; [done|].
    injection Hmk as <-. simpl. rewrite lookup_mkdirs, bool_decide_eq_false_2; [done|].
    by apply sibling_not_in_ancestors.
  - unfold popen_, emit, lift, modify, mbind, M_bind in Hpopen. simpl in Hpopen.
    destruct (popen env) as [pid'|]; [by exists pid'|done].
Qed.

Lemma step_fails_launch_raises `{Host} env u p w :
  step_fails env u p w → ∃ e w2, launch env u p w = (Raise e, w2).
Proof.
  intros Hfail. destruct (launch env u p w) as [[[]|e] w2] eqn:Hl; [|by eexists _, _].
  exfalso. unfold launch, step_fails in *. destruct docker_available eqn:Hd.
  - apply start_docker_deployment_ok_inv in Hl as (Hclone & Hbuild & [c Hcreate] & Hstart).
    destruct Hfail as [[Hc [e He]]|[[_ Hdocker]|[[=] _]]].
    + destruct (Hclone Hc) as [out Hout]. congruence.
    + destruct Hdocker as [Hb|[[e He]|Hs]].
      * rewrite Hbuild in Hb. by destruct Hb.
      * congruence.
      * rewrite Hstart in Hs. by destruct Hs.
  - apply start_native_deployment_ok_inv in Hl as (Hclone & Hpip & [pid Hpid]).
    destruct Hfail as [[Hc [e He]]|[[[=] _]|[_ Hnative]]].
    + destruct (Hclone Hc) as [out Hout]. congruence.
    + destruct Hnative as [[Hreq [e He]]|[e He]].
      * destruct (Hpip Hreq) as [out Hout]. congruence.
      * congruence.
Qed.

(** C4.  When a step of the launch path fails before the backend is
    spawned (clone, image build, creation or start of the container,
    installation of the requirements, spawn of the child), the launch
    raises; and whenever the launch raises, start answers with a failure,
    the status is forced to [error], and the row is otherwise as it was
    before the request: the handle is the one it had, so a null handle
    stays null. *)
Theorem launch_failure_forces_error `{Host} env u project_id w p :
  projects w !! project_id = Some p →
  user_id p = u_id u →
  status p ≠ "running" →
  let p1 := set_status "deploying" p in
  let w1 := with_projects (alter (set_status "deploying") project_id) w in
  (step_fails env u p1 w1 → ∃ e w2, launch env u p1 w1 = (Raise e, w2))
  ∧ (∀ e w2, launch env u p1 w1 = (Raise e, w2) →
     ∃ w', start_project env u project_id w = (Ok (Json false (MsgExn e) 500), w')
           ∧ projects w' = <[project_id := set_status "error" p]> (projects w)
           ∧ status <$> projects w' !! project_id = Some "error"
           ∧ container_id <$> projects w' !! project_id = Some (container_id p)
           ∧ (container_id p = None →
              projects w' !! project_id ≫= container_id = None)).
Proof.
  intros Hp Hu Hst p1 w1. split; [apply step_fails_launch_raises|].
  intros e w2 Hl. rewrite (start_project_unfold env u project_id w p Hp Hu).
  destruct (String.eqb_spec (status p) "running") as [?|_]; [done|].
  pose proof (launch_has_effect env u p1 w1) as He. fold p1 w1.
  rewrite Hl in *. simpl in He. eexists. split; [done|].
  assert (projects (with_projects (alter (set_status "error") project_id) w2)
          = <[project_id := set_status "error" p]> (projects w)) as ->.
  { simpl. rewrite He. simpl. by apply alter_alter_status. }
  rewrite lookup_insert_eq. simpl. repeat split; try done.
Qed.

Lemma launch_failure_forces_error_witness :
  ∃ e w', start_project (H := host_docker) env_clone_fails alice 1
                        (world_with (repo_project "stopped"))
          = (Ok (Json false (MsgExn e) 500), w')
        ∧ status <$> projects w' !! 1 = Some "error"
        ∧ container_id <$> projects w' !! 1 = Some None.
Proof.
  destruct (launch_failure_forces_error (H := host_docker) env_clone_fails alice 1
              (world_with (repo_project "stopped")) (repo_project "stopped")
              eq_refl eq_refl ltac:(discriminate))
    as [Hraises Hforced].
  destruct Hraises as (e & w2 & Hl).
  - left. split; [split; reflexivity|]. eexists. reflexivity.
  - destruct (Hforced e w2 Hl) as (w' & Hr & _ & Hs & Hc & _).
    exists e, w'. split; [exact Hr|]. split; [exact Hs|exact Hc].
Defined.

(** The other failures of the launch path, on explicit inputs. *)
Example image_build_failure :
  let r := start_project (H := host_docker) env_build_fails alice 1
                         (world_with (site "stopped" None)) in
  r.1 = Ok (Json false (MsgExn (Wrapped "Failed to build Docker image: "
                                  (OtherError "BuildError"))) 500)
  ∧ projects r.2 !! 1 = Some (site "error" None).
Proof. split; vm_compute; reflexivity. Qed.

Example requirements_install_failure :
  let r := start_project (H := host_native) env_pip_fails alice 1 created_site_world in
  r.1 = Ok (Json false (MsgExn (Exception
             "Failed to install requirements: no matching distribution")) 500)
  ∧ (status <$> projects r.2 !! 1, container_id <$> projects r.2 !! 1)
    = (Some "error", Some None).
Proof. split; vm_compute; reflexivity. Qed.

Example spawn_failure :
  let r := start_project (H := host_native) env_spawn_fails alice 1 created_site_world in
  r.1 = Ok (Json false (MsgExn FileNotFoundError) 500)
  ∧ (status <$> projects r.2 !! 1, container_id <$> projects r.2 !! 1)
    = (Some "error", Some None).
Proof. split; vm_compute; reflexivity. Qed.

(** An exception in the wait of the readiness monitor ends in [error]. *)
Example monitor_wait_raises :
  projects (after (monitor_container_health env_sleep_raises
                     (site "deploying" (Some "c1")) "c1")
                  (world_with (site "deploying" (Some "c1")))) !! 1
  = Some (site "error" (Some "c1")).
Proof. vm_compute. reflexivity. Qed.

(** The port never answers: after thirty probes the status is [running]
    and the tunnel has been started. *)
Example monitor_timeout_runs :
  let w := after (monitor_container_health (env_unreachable "c1" "https://t1")
                    (site_with_token "deploying" (Some "c1")) "c1")
                 (world_with (site_with_token "deploying" (Some "c1"))) in
  status <$> projects w !! 1 = Some "running"
  ∧ length (filter (λ ev, ev = EvConnectEx 8000) (trace w)) = 30%nat
  ∧ tunnels w = [mkNgrokTunnel 1 1 (Some 1) "https://t1" 8000 "http" true].
Proof. repeat split; vm_compute; reflexivity. Qed.

(** *** Delete *)

Ltac keeps_frame :=
  repeat first
    [ keeps_step
    | apply keeps_modify; by intros []
    | by apply keeps_emit ].

Lemma stop_docker_deployment_keeps_sessions env p :
  keeps sessions_and_files (stop_docker_deployment env p).
Proof.
  unfold stop_docker_deployment, containers_get_, container_stop_, container_remove_,
    update_project. keeps_frame.
Qed.

Lemma os_kill_keeps_sessions env pid sig : keeps sessions_and_files (os_kill env pid sig).
Proof. unfold os_kill. keeps_frame. Qed.

Lemma reap_keeps_sessions env i pid : keeps sessions_and_files (reap env i pid).
Proof. unfold reap. keeps_frame. Qed.

Lemma time_sleep_keeps_sessions env i n : keeps sessions_and_files (time_sleep_ env i n).
Proof. unfold time_sleep_. keeps_frame. Qed.

#[local] Transparent wait_for_exit.

Lemma wait_for_exit_keeps_sessions env pid n :
  ∀ i, keeps sessions_and_files (wait_for_exit env pid n i).
Proof.
  induction n as [|n IH]; intros i; simpl; [apply keeps_ret|].
  repeat first [ apply reap_keeps_sessions | apply os_kill_keeps_sessions
               | apply time_sleep_keeps_sessions | apply IH | keeps_step ].
Qed.

#[local] Opaque wait_for_exit.

Lemma stop_native_deployment_keeps_sessions `{Host} env p :
  keeps sessions_and_files (stop_native_deployment env p).
Proof.
  unfold stop_native_deployment, force_kill, update_project.
  repeat first [ apply reap_keeps_sessions | apply os_kill_keeps_sessions
               | apply wait_for_exit_keeps_sessions | keeps_frame ].
Qed.

Lemma terminate_keeps_sessions `{Host} env p : keeps sessions_and_files (terminate env p).
Proof.
  unfold terminate. case_match.
  - apply stop_docker_deployment_keeps_sessions.
  - apply stop_native_deployment_keeps_sessions.
Qed.

Lemma stop_ngrok_tunnel_keeps_workloads env t : keeps workloads (stop_ngrok_tunnel env t).
Proof. unfold stop_ngrok_tunnel, ngrok_disconnect_. keeps_frame. Qed.

Lemma stop_ngrok_tunnel_keeps_projects env t : keeps projects (stop_ngrok_tunnel env t).
Proof. unfold stop_ngrok_tunnel, ngrok_disconnect_. keeps_frame. Qed.

Lemma stop_ngrok_tunnel_keeps_fs env t : keeps fs (stop_ngrok_tunnel env t).
Proof. unfold stop_ngrok_tunnel, ngrok_disconnect_. keeps_frame. Qed.

Lemma filter_deactivated (k : Z) (ts : list NgrokTunnel) :
  filter (λ t', t_id t' ≠ k)
         ((λ t, if bool_decide (t_id t = k) then set_active false t else t) <$> ts)
  = filter (λ t', t_id t' ≠ k) ts.
Proof.
  induction ts as [|t ts IH]; [done|]. rewrite fmap_cons.
  destruct (decide (t_id t = k)) as [Heq|Hne].
  - rewrite bool_decide_eq_true_2 by done.
    rewrite !filter_cons_False by (simpl; intros ?; done). exact IH.
  - rewrite bool_decide_eq_false_2 by done.
    rewrite !filter_cons_True by done. by rewrite IH.
Qed.

(** The session rows after [stop_ngrok_tunnel] and the deletion of the
    session. *)
Lemma delete_tunnel_rows env t w :
  filter (λ t', t_id t' ≠ t_id t) (tunnels (stop_ngrok_tunnel env t w).2)
  = filter (λ t', t_id t' ≠ t_id t) (tunnels w).
Proof.
  unfold stop_ngrok_tunnel, try_except, ngrok_disconnect_, emit, check, modify,
    mbind, M_bind.
  simpl. destruct (ngrok_disconnect env); simpl; [done|]. apply filter_deactivated.
Qed.

Lemma backend_gone_workloads `{Host} c w w' :
  workloads w' = workloads w → backend_gone c w → backend_gone c w'.
Proof.
  unfold workloads, backend_gone. intros [= Hc Hp]. rewrite Hc, Hp. done.
Qed.

(** A delete that succeeds: the row and the project directory are gone, a
    running backend named by the handle has been terminated, and of the
    tunnel sessions exactly the one that [project.ngrok_tunnel] yields has
    been removed. *)
Lemma delete_project_effect `{Host} env u project_id w p msg code w' :
  projects w !! project_id = Some p →
  p_id p = project_id →
  user_id p = u_id u →
  delete_project env u project_id w = (Ok (Json true msg code), w') →
  projects w' !! project_id = None
  ∧ fs w' !! get_project_dir u p = None
  ∧ (status p = "running" → ∀ c, container_id p = Some c → c ≠ "" → backend_gone c w')
  ∧ tunnels w'
    = match ngrok_tunnel p w with
      | Some t => filter (λ t', t_id t' ≠ t_id t) (tunnels w)
      | None => tunnels w
      end.
Proof.
  intros Hp Hid Hu Hrun. subst project_id.
  unfold delete_project, db_get, mbind at 1, M_bind at 1 in Hrun.
  rewrite Hp, Hu, Z.eqb_refl in Hrun. simpl in Hrun.
  unfold try_except in Hrun.
  match type of Hrun with
  | (let (_, _) := ?body w in _) = _ => destruct (body w) as [[r|e] w0] eqn:Hbody
  end; [|done].
  injection Hrun as -> <-.
  apply bind_ok_inv in Hbody as ([] & w1 & Hstop & Hbody).
  apply bind_ok_inv in Hbody as (present & w1' & Hexists & Hbody).
  unfold path_exists in Hexists. injection Hexists as <- <-.
  apply bind_ok_inv in Hbody as ([] & w2 & Hrm & Hbody).
  apply bind_ok_inv in Hbody as (w2' & w2'' & Hget & Hbody).
  unfold get_world in Hget. injection Hget as <- <-.
  apply bind_ok_inv in Hbody as ([] & w3 & Htun & Hbody).
  unfold db_delete_project, modify, mbind, M_bind in Hbody. simpl in Hbody.
  injection Hbody as _ Hw0. subst w0.
  (* the backend *)
  assert (sessions_and_files w1 = sessions_and_files w
          ∧ (status p = "running" → ∀ c, container_id p = Some c → c ≠ "" →
             backend_gone c w1)) as [Hs1 Hgone1].
  { destruct (String.eqb_spec (status p) "running") as [Hst|Hst].
    - pose proof (terminate_keeps_sessions env p w) as Hk. rewrite Hstop in Hk.
      split; [exact Hk|]. intros _ c Hc Hne.
      assert (truthy_opt (container_id p) = true) as Ht.
      { rewrite Hc. simpl. by destruct (String.eqb_spec c ""). }
      pose proof (terminate_effect env p w Ht) as He. unfold post in He.
      rewrite Hstop in He. by apply He.
    - injection Hstop as <-. split; [done|]. intros ?. done. }
  unfold sessions_and_files in Hs1. injection Hs1 as Ht1 Hf1.
  (* the directory *)
  assert (fs w2 !! get_project_dir u p = None
          ∧ tunnels w2 = tunnels w1 ∧ workloads w2 = workloads w1
          ∧ projects w2 = projects w1) as (Hd2 & Ht2 & Hw2 & Hp2).
  { case_bool_decide as Hpresent.
    - unfold rmtree, emit, check, modify, mbind, M_bind in Hrm. simpl in Hrm.
      destruct (rmtree_fault env); [done|]. injection Hrm as <-. simpl.
      split; [|done]. apply map_lookup_filter_None. right. intros x _ Hnot. by apply Hnot.
    - injection Hrm as <-. split; [|done].
      destruct (fs w1 !! get_project_dir u p) eqn:Hl; [|done]. by destruct Hpresent. }
  (* the session *)
  assert (ngrok_tunnel p w2 = ngrok_tunnel p w) as Hsame
    by (unfold ngrok_tunnel; by rewrite Ht2, Ht1).
  rewrite Hsame in Htun.
  assert (projects w3 = projects w2 ∧ fs w3 = fs w2 ∧ workloads w3 = workloads w2
          ∧ tunnels w3 = match ngrok_tunnel p w with
                         | Some t => filter (λ t', t_id t' ≠ t_id t) (tunnels w)
                         | None => tunnels w
                         end) as (Hp3 & Hf3 & Hw3 & Ht3).
  { destruct (ngrok_tunnel p w) as [t|].
    - apply bind_ok_inv in Htun as ([] & w2' & Hstopt & Hdel).
      unfold db_delete_tunnel, modify in Hdel. injection Hdel as <-.
      pose proof (stop_ngrok_tunnel_keeps_projects env t w2) as K1.
      pose proof (stop_ngrok_tunnel_keeps_fs env t w2) as K2.
      pose proof (stop_ngrok_tunnel_keeps_workloads env t w2) as K3.
      pose proof (delete_tunnel_rows env t w2) as K4.
      rewrite Hstopt in K1, K2, K3, K4. simpl in *.
      split; [done|]. split; [done|]. split; [done|]. by rewrite K4, Ht2, Ht1.
    - injection Htun as <-. split; [done|]. split; [done|]. split; [done|].
      by rewrite Ht2, Ht1. }
  split; [simpl; apply lookup_delete_eq|].
  split; [simpl; by rewrite Hf3|].
  split; [|exact Ht3].
  intros Hst c Hc Hne. apply (backend_gone_workloads c w1); [|by apply Hgone1].
  unfold workloads in *. simpl. congruence.
Qed.

(** When at most one tunnel session references the deployment, none
    references it after a delete that succeeds. *)
Lemma delete_project_single_tunnel `{Host} env u project_id w p msg code w' :
  projects w !! project_id = Some p →
  p_id p = project_id →
  user_id p = u_id u →
  at_most_one_tunnel project_id (tunnels w) →
  delete_project env u project_id w = (Ok (Json true msg code), w') →
  ∀ t, t ∈ tunnels w' → t_project_id t ≠ Some project_id.
Proof.
  intros Hp Hid Hu Hone Hrun.
  destruct (delete_project_effect env u project_id w p msg code w' Hp Hid Hu Hrun)
    as (_ & _ & _ & Htun).
  intros t Ht Href. rewrite Htun in Ht. unfold ngrok_tunnel in Ht. rewrite Hid in Ht.
  destruct (find _ (tunnels w)) as [t0|] eqn:Hfind.
  - apply list_elem_of_filter in Ht as [Hne Hin].
    apply find_some in Hfind as [Hin0 Href0].
    apply bool_decide_eq_true_1 in Href0. apply list_elem_of_In in Hin0.
    by apply Hne, Hone.
  - apply list_elem_of_In in Ht.
    pose proof (find_none _ _ Hfind t Ht) as Hno. simpl in Hno.
    by apply bool_decide_eq_false_1 in Hno.
Qed.

(** C6, on the deployment that was started twice.  Each start left a
    tunnel session behind, so two sessions reference the deployment.  The
    delete succeeds, removes the row, the directory and the container,
    and removes the first session only: the second one still references
    the deleted deployment, is still marked active, and its tunnel is
    still held open by the agent. *)
Theorem delete_project_leaves_second_tunnel :
  tunnels second_run_world
  = [mkNgrokTunnel 1 1 (Some 1) "https://t1" 8000 "http" true;
     mkNgrokTunnel 2 1 (Some 1) "https://t2" 8000 "http" true]
  ∧ ∃ w', delete_project (H := host_docker) (env_ok "c3" "https://t3") alice 1
                         second_run_world
          = (Ok (Json true (Msg "Project deleted successfully") 200), w')
        ∧ projects w' !! 1 = None
        ∧ fs w' !! ["users"; "alice"; "projects"; "1"] = None
        ∧ containers w' !! "c2" = None
        ∧ tunnels w' = [mkNgrokTunnel 2 1 (Some 1) "https://t2" 8000 "http" true]
        ∧ bool_decide ("https://t2" ∈ agent w') = true.
Proof.
  split; [vm_compute; reflexivity|]. eexists. split; [vm_compute; reflexivity|].
  repeat split; vm_compute; reflexivity.
Qed.

(** ** Further properties *)

(** *** What the handlers always do *)

Lemma try_except_answers {A} (m : M A) (h : exn → M A) w :
  (∀ e w1, ∃ r w', h e w1 = (Ok r, w')) →
  ∃ r w', try_except m h w = (Ok r, w').
Proof.
  intros Hh. unfold try_except. destruct (m w) as [[a|e] w1]; [by eexists _, _|apply Hh].
Qed.

Ltac answers :=
  repeat first
    [ by eexists _, _
    | apply try_except_answers; intros ? ?
    | match goal with
      | |- ∃ r w', (if ?b then _ else _) _ = _ => destruct b
      | |- ∃ r w', match ?x with _ => _ end _ = _ => destruct x
      end ].

(** X1.  The JSON routes of the lifecycle always answer: whatever the
    world and whatever the outcome of the calls they make, [start],
    [stop], [restart], [delete], [stats] and the two tunnel routes return
    a response, and no exception leaves the handler. *)
Theorem handlers_always_answer `{Host} ngrok_available env u project_id w :
  (∃ r w', start_project env u project_id w = (Ok r, w'))
  ∧ (∃ r w', stop_project env u project_id w = (Ok r, w'))
  ∧ (∃ r w', restart_project env u project_id w = (Ok r, w'))
  ∧ (∃ r w', delete_project env u project_id w = (Ok r, w'))
  ∧ (∃ r w', project_stats env u project_id w = (Ok r, w'))
  ∧ (∃ r w', start_ngrok_tunnel ngrok_available env u project_id w = (Ok r, w'))
  ∧ (∃ r w', stop_ngrok_tunnel_for_project env u project_id w = (Ok r, w')).
Proof.
  repeat split.
  - unfold start_project, db_get, mbind at 1, M_bind at 1. answers.
  - unfold stop_project, db_get, mbind at 1, M_bind at 1. answers.
  - unfold restart_project, db_get, mbind at 1, M_bind at 1. answers.
  - unfold delete_project, db_get, mbind at 1, M_bind at 1. answers.
  - unfold project_stats, db_get, mbind at 1, M_bind at 1. answers.
  - unfold start_ngrok_tunnel, db_get, get_world, mbind at 1, M_bind at 1. answers.
    unfold mbind, M_bind. answers.
  - unfold stop_ngrok_tunnel_for_project, db_get, get_world, mbind at 1, M_bind at 1. answers.
    unfold mbind, M_bind. answers.
Qed.

(** Taking the run of a handler apart, one step at a time. *)
Ltac crack :=
  repeat (simpl in *;
          match goal with
          | H : context [let (_, _) := ?x in _] |- _ => destruct x as [[?|?] ?] eqn:?
          | H : context [match ?x with _ => _ end] |- _ => destruct x eqn:?
          | H : context [if ?b then _ else _] |- _ => destruct b eqn:?
          end;
          unfold mret, M_ret, raise in *; simplify_eq).

(** X2.  An answer that blames the request has changed nothing: when
    [start], [stop], [restart], [delete], [stats] or a tunnel route
    answers with a code from 400 to 499, the world, the record of the
    calls made included, is the one the request found. *)
Theorem client_error_changes_nothing `{Host} ngrok_available env u project_id w r w' :
  client_error r →
  (start_project env u project_id w = (Ok r, w') → w' = w)
  ∧ (stop_project env u project_id w = (Ok r, w') → w' = w)
  ∧ (restart_project env u project_id w = (Ok r, w') → w' = w)
  ∧ (delete_project env u project_id w = (Ok r, w') → w' = w)
  ∧ (project_stats env u project_id w = (Ok r, w') → w' = w)
  ∧ (start_ngrok_tunnel ngrok_available env u project_id w = (Ok (Reply r), w') → w' = w)
  ∧ (stop_ngrok_tunnel_for_project env u project_id w = (Ok r, w') → w' = w).
Proof.
  intros Hr. repeat split; intros Hrun.
  - unfold start_project, db_get, try_except, mbind, M_bind, update_project, modify in Hrun.
    crack; unfold mret, M_ret, raise in *; simplify_eq; simpl in *; try lia; done.
  - unfold stop_project, db_get, try_except, mbind, M_bind, update_project, modify in Hrun.
    crack; unfold mret, M_ret, raise in *; simplify_eq; simpl in *; try lia; done.
  - unfold restart_project, db_get, try_except, mbind, M_bind, update_project, modify,
      current_row in Hrun.
    crack; unfold mret, M_ret, raise in *; simplify_eq; simpl in *; try lia; done.
  - unfold delete_project, db_get, try_except, mbind, M_bind, db_delete_project,
      db_delete_tunnel, path_exists, get_world, modify in Hrun.
    crack; unfold mret, M_ret, raise in *; simplify_eq; simpl in *; try lia; done.
  - unfold project_stats, db_get, try_except, mbind, M_bind, emit, lift, modify in Hrun.
    crack; unfold mret, M_ret, raise in *; simplify_eq; simpl in *; try lia; done.
  - unfold start_ngrok_tunnel, db_get, get_world, try_except, mbind, M_bind,
      update_project, modify in Hrun.
    crack; unfold mret, M_ret, raise in *; simplify_eq; simpl in *; try lia; done.
  - unfold stop_ngrok_tunnel_for_project, db_get, get_world, try_except, mbind, M_bind,
      update_project, db_delete_tunnel, modify in Hrun.
    crack; unfold mret, M_ret, raise in *; simplify_eq; simpl in *; try lia; done.
Qed.

Lemma client_error_changes_nothing_witness :
  (start_project (H := host_docker) (env_ok "c1" "https://t1") alice 1
                 (world_with (site "running" (Some "c0")))).2
  = world_with (site "running" (Some "c0")).
Proof.
  destruct (client_error_changes_nothing (H := host_docker) true (env_ok "c1" "https://t1")
              alice 1 (world_with (site "running" (Some "c0")))
              (Json false (Msg "Project is already running") 400)
              (start_project (H := host_docker) (env_ok "c1" "https://t1") alice 1
                             (world_with (site "running" (Some "c0")))).2)
    as [Hstart _].
  - simpl. lia.
  - apply Hstart. reflexivity.
Defined.

(** X3.  No route acts on a project the user does not own: when the
    project is not there or belongs to another user, every lifecycle and
    tunnel route answers 403 and leaves the world as it was. *)
Theorem not_owned_is_refused `{Host} ngrok_available env u project_id w :
  not_owned u project_id w →
  start_project env u project_id w = (Ok unauthorized, w)
  ∧ stop_project env u project_id w = (Ok unauthorized, w)
  ∧ restart_project env u project_id w = (Ok unauthorized, w)
  ∧ delete_project env u project_id w = (Ok unauthorized, w)
  ∧ project_stats env u project_id w = (Ok unauthorized, w)
  ∧ start_ngrok_tunnel ngrok_available env u project_id w = (Ok (Reply unauthorized), w)
  ∧ stop_ngrok_tunnel_for_project env u project_id w = (Ok unauthorized, w).
Proof.
  unfold not_owned. intros Hno.
  unfold start_project, stop_project, restart_project, delete_project, project_stats,
    start_ngrok_tunnel, stop_ngrok_tunnel_for_project, db_get, mbind, M_bind.
  destruct (projects w !! project_id) as [p|]; [|done].
  destruct (Z.eqb_spec (user_id p) (u_id u)); [done|]. simpl. done.
Qed.

Lemma not_owned_is_refused_witness :
  delete_project (H := host_docker) (env_ok "c1" "https://t1") bob 1
                 (world_with (site "running" (Some "c0")))
  = (Ok unauthorized, world_with (site "running" (Some "c0"))).
Proof.
  apply (not_owned_is_refused (H := host_docker) true (env_ok "c1" "https://t1") bob 1
           (world_with (site "running" (Some "c0")))).
  vm_compute. discriminate.
Defined.

(** *** Stats *)

Lemma keeps_state_emit ev : keeps state_of (emit ev).
Proof. apply keeps_emit. by intros []. Qed.

Lemma containers_get_keeps_state env cid : keeps state_of (containers_get_ env cid).
Proof.
  unfold containers_get_.
  repeat first [ apply keeps_state_emit | keeps_step ].
Qed.

(** X4.  A stats request only reads: whatever it answers, the tables, the
    files, the containers, the processes and the open tunnels are as
    before.  Without a container engine it never succeeds: the answer is
    a failure with code 400, 403 or 404, and no call is made. *)
Theorem project_stats_reads_only `{Host} env u project_id w :
  state_of (project_stats env u project_id w).2 = state_of w
  ∧ (docker_available = false →
     ∃ msg code, project_stats env u project_id w = (Ok (Json false msg code), w)
                 ∧ (code = 400 ∨ code = 403 ∨ code = 404)).
Proof.
  split.
  - revert w. change (keeps state_of (project_stats env u project_id)).
    unfold project_stats.
    repeat first [ apply keeps_state_emit | apply containers_get_keeps_state | keeps_step ].
  - intros Hd. unfold project_stats, db_get, try_except, mbind, M_bind.
    rewrite Hd. simpl.
    destruct (projects w !! project_id) as [p|]; [|by eexists _, _; eauto].
    destruct (negb (user_id p =? u_id u)); [by eexists _, _; eauto|].
    destruct (negb (status p =? "running")%string); [by eexists _, _; eauto|].
    destruct (negb (truthy_opt (container_id p))); by eexists _, _; eauto.
Qed.

(** X5.  When the container used no more CPU time than the system had
    available between the two samples, the percentage is at most 100 for
    each core the sample lists. *)
Theorem cpu_percent_bounded (s : Stats.stats) :
  Stats.cpu_delta s <= Stats.system_delta s →
  ∃ q, Stats.calculate_cpu_percent s = Some q
       ∧ (q <= inject_Z (Z.of_nat (length (Stats.percpu_usage
                                             (Stats.cpu_usage_of (Stats.cpu s))))) * 100)%Q.
Proof.
  intros Hle. unfold Stats.calculate_cpu_percent.
  set (n := inject_Z (Z.of_nat (length _))).
  assert (0 <= n)%Q as Hn.
  { subst n. change 0%Q with (inject_Z 0). rewrite <- Zle_Qle. lia. }
  destruct (Z.ltb_spec 0 (Stats.system_delta s)) as [Hs|Hs];
    destruct (Z.ltb_spec 0 (Stats.cpu_delta s)) as [Hc|Hc]; simpl.
  - unfold Stats.py_truediv. destruct (Z.eqb_spec (Stats.system_delta s) 0); [lia|].
    simpl. eexists. split; [reflexivity|].
    apply Qmult_le_compat_r; [|discriminate].
    rewrite <- (Qmult_1_l n) at 2. apply Qmult_le_compat_r; [|exact Hn].
    apply Qle_shift_div_r.
    + change 0%Q with (inject_Z 0). rewrite <- Zlt_Qlt. exact Hs.
    + rewrite Qmult_1_l. rewrite <- Zle_Qle. exact Hle.
  - exists 0%Q. split; [reflexivity|]. apply Qmult_le_0_compat; [exact Hn|discriminate].
  - exists 0%Q. split; [reflexivity|]. apply Qmult_le_0_compat; [exact Hn|discriminate].
  - exists 0%Q. split; [reflexivity|]. apply Qmult_le_0_compat; [exact Hn|discriminate].
Qed.

Lemma cpu_percent_bounded_witness :
  ∃ q, Stats.calculate_cpu_percent (sample 100 350 1000 2000 4) = Some q
       ∧ (q <= 400)%Q.
Proof.
  destruct (cpu_percent_bounded (sample 100 350 1000 2000 4)) as (q & Hq & Hb).
  - vm_compute. discriminate.
  - exists q. split; [exact Hq|]. exact Hb.
Defined.

(** *** Restart *)

Lemma restart_project_unfold `{Host} env u project_id w p :
  projects w !! project_id = Some p →
  user_id p = u_id u →
  restart_project env u project_id w =
    match (if String.eqb (status p) "running" then terminate env p else mret tt) w with
    | (Raise e, w1) =>
        (Ok (Json false (MsgExn e) 500),
         with_projects (alter (set_status "error") project_id) w1)
    | (Ok _, w1) =>
        let w1d := with_projects (alter (set_status "deploying") project_id) w1 in
        match launch env u (default p (projects w1d !! project_id)) w1d with
        | (Ok _, w2) => (Ok (Json true (Msg "Project is restarting") 200), w2)
        | (Raise e, w2) =>
            (Ok (Json false (MsgExn e) 500),
             with_projects (alter (set_status "error") project_id) w2)
        end
    end.
Proof.
  intros Hp Hu. unfold restart_project, db_get, mbind at 1, M_bind at 1.
  rewrite Hp, Hu, Z.eqb_refl. simpl.
  unfold try_except, update_project, current_row, modify, mbind, M_bind.
  destruct ((if (status p =? "running")%string then terminate env p else mret ()) w)
    as [[[]|e] w1]; [|done].
  simpl. by destruct (launch _ _ _ _) as [[[]|e] w2].
Qed.

Lemma alter_status_absorb (m : gmap Z Project) i s1 s2 :
  alter (set_status s2) i (alter (set_status s1) i m) = alter (set_status s2) i m.
Proof.
  apply map_eq. intros j. destruct (decide (i = j)) as [->|Hne].
  - rewrite !lookup_alter_eq. by destruct (m !! j).
  - by rewrite !lookup_alter_ne.
Qed.

(** The row of a project after a termination that returned. *)
Lemma terminate_row `{Host} env p w w1 :
  projects w !! p_id p = Some p →
  terminate env p w = (Ok tt, w1) →
  ∃ p1, projects w1 !! p_id p = Some p1
        ∧ status p1 = status p ∧ user_id p1 = user_id p ∧ p_id p1 = p_id p.
Proof.
  intros Hp Ht. destruct (truthy_opt (container_id p)) eqn:Hh.
  - pose proof (terminate_effect env p w Hh) as He. unfold post in He.
    rewrite Ht in He. destruct He as [-> _].
    exists (set_container_id None p). by rewrite lookup_alter_eq, Hp.
  - rewrite (terminate_falsy env p w Hh) in Ht. injection Ht as <-. by exists p.
Qed.

(** X6.  Restart composes stop and start.  On a deployment that is not
    [running], restart leaves the world that start leaves.  On a
    [running] deployment whose termination returns, restart leaves the
    world that stop followed by start leaves.  In both cases the two
    answers carry the same code. *)
Theorem restart_is_stop_then_start `{Host} env u project_id w p :
  projects w !! project_id = Some p →
  p_id p = project_id →
  user_id p = u_id u →
  (status p ≠ "running" →
     let a := restart_project env u project_id w in
     let b := start_project env u project_id w in
     a.2 = b.2 ∧ answer_code a.1 = answer_code b.1)
  ∧ (status p = "running" →
     (∃ w1, terminate env p w = (Ok tt, w1)) →
     let a := restart_project env u project_id w in
     let b := start_project env u project_id (stop_project env u project_id w).2 in
     a.2 = b.2 ∧ answer_code a.1 = answer_code b.1).
Proof.
  intros Hp Hid Hu. split.
  - intros Hst. rewrite (restart_project_unfold env u project_id w p Hp Hu).
    rewrite (start_project_unfold env u project_id w p Hp Hu).
    destruct (String.eqb_spec (status p) "running") as [?|_]; [done|]. simpl.
    rewrite lookup_alter_eq, Hp. simpl.
    by destruct (launch _ _ _ _) as [[[]|e] w2].
  - intros Hst [w1 Ht]. rewrite (restart_project_unfold env u project_id w p Hp Hu).
    rewrite (stop_project_unfold env u project_id w p Hp Hu Hst).
    rewrite Hst, Ht. simpl.
    subst project_id.
    destruct (terminate_row env p w w1 Hp Ht) as (p1 & Hp1 & Hs1 & Hu1 & Hid1).
    rewrite (start_project_unfold env u (p_id p) _ (set_status "stopped" p1)).
    + simpl. rewrite Ht, lookup_alter_eq, Hp1. simpl.
      assert (with_projects (alter (set_status "deploying") (p_id p))
                (with_projects (alter (set_status "stopped") (p_id p)) w1)
              = with_projects (alter (set_status "deploying") (p_id p)) w1) as ->.
      { destruct w1. unfold with_projects. simpl. by rewrite alter_status_absorb. }
      change (set_status "deploying" (set_status "stopped" p1))
        with (set_status "deploying" p1).
      by destruct (launch _ _ _ _) as [[[]|e] w2].
    + simpl. by rewrite lookup_alter_eq, Hp1.
    + simpl. congruence.
Qed.

Lemma restart_is_stop_then_start_witness :
  let w := with_container "c0" (world_with (site "running" (Some "c0"))) in
  (restart_project (H := host_docker) (env_ok "c1" "https://t1") alice 1 w).2
  = (start_project (H := host_docker) (env_ok "c1" "https://t1") alice 1
       (stop_project (H := host_docker) (env_ok "c1" "https://t1") alice 1 w).2).2.
Proof.
  intros w.
  destruct (restart_is_stop_then_start (H := host_docker) (env_ok "c1" "https://t1") alice 1
              w (site "running" (Some "c0")) eq_refl eq_refl eq_refl) as [_ Hrun].
  apply Hrun; [reflexivity|]. eexists. vm_compute. reflexivity.
Defined.

(** X7.  When the termination of the backend raises during a restart,
    the status is forced to [error] and the handle is kept, where stop
    would have left the status [running]: the answer is a failure, no
    launch is tried, and the row differs from the one found only in its
    status. *)
Theorem restart_termination_failure `{Host} env u project_id w p e w1 :
  projects w !! project_id = Some p →
  user_id p = u_id u →
  status p = "running" →
  terminate env p w = (Raise e, w1) →
  restart_project env u project_id w
  = (Ok (Json false (MsgExn e) 500),
     with_projects (alter (set_status "error") project_id) w1)
  ∧ projects (restart_project env u project_id w).2 !! project_id
    = Some (set_status "error" p)
  ∧ trace (restart_project env u project_id w).2 = trace w1.
Proof.
  intros Hp Hu Hst Ht. rewrite (restart_project_unfold env u project_id w p Hp Hu).
  rewrite Hst. simpl. rewrite Ht. simpl. split; [done|]. split; [|done].
  assert (projects w1 = projects w) as ->.
  { destruct (truthy_opt (container_id p)) eqn:Hh.
    - pose proof (terminate_effect env p w Hh) as He. unfold post in He.
      by rewrite Ht in He.
    - by rewrite (terminate_falsy env p w Hh) in Ht. }
  by rewrite lookup_alter_eq, Hp.
Qed.

Lemma restart_termination_failure_witness :
  let w := with_container "c0" (world_with (site "running" (Some "c0"))) in
  projects (restart_project (H := host_docker) env_stop_fails alice 1 w).2 !! 1
  = Some (site "error" (Some "c0")).
Proof.
  intros w.
  destruct (restart_termination_failure (H := host_docker) env_stop_fails alice 1 w
              (site "running" (Some "c0"))
              (Wrapped "Failed to stop Docker container: " (OtherError "APIError"))
              (terminate (H := host_docker) env_stop_fails
                         (site "running" (Some "c0")) w).2
              eq_refl eq_refl eq_refl) as (_ & Hrow & _).
  - vm_compute. reflexivity.
  - exact Hrow.
Defined.

(** *** Tunnel routes *)

Lemma active_tunnels_nonneg u w : 0 <= active_tunnels u w.
Proof. unfold active_tunnels. lia. Qed.

Lemma active_tunnels_snoc u w t :
  active_tunnels u (with_tunnels (λ ts, ts ++ [t]) w)
  = active_tunnels u w
    + (if bool_decide (t_user_id t = u_id u ∧ active t = true) then 1 else 0).
Proof.
  unfold active_tunnels. simpl. rewrite list.filter_app, List.length_app.
  destruct (bool_decide_reflect (t_user_id t = u_id u ∧ active t = true)).
  - rewrite filter_cons_True by done. simpl. lia.
  - rewrite filter_cons_False by done. simpl. lia.
Qed.

(** X8.  The tunnel route enforces the plan's quota before anything
    else happens: when the user's active sessions have reached
    [max_ngrok_tunnels], and always on the [free] plan or a plan that
    [PLANS] does not list, the answer is a 4xx and the world is left as
    it was. *)
Theorem tunnel_quota_refuses ngrok_available env u project_id w :
  max_ngrok_tunnels (get_plan_limits u) <= active_tunnels u w
  ∨ plan u = "free" ∨ PLANS (plan u) = None →
  ∃ r, start_ngrok_tunnel ngrok_available env u project_id w = (Ok (Reply r), w)
       ∧ client_error r.
Proof.
  intros Hq.
  assert (max_ngrok_tunnels (get_plan_limits u) <= active_tunnels u w) as Hle.
  { pose proof (active_tunnels_nonneg u w).
    destruct Hq as [?|[Hf|Hn]]; [done| |]; unfold get_plan_limits.
    - rewrite Hf. simpl. lia.
    - rewrite Hn. simpl. lia. }
  clear Hq. apply Z.leb_le in Hle.
  unfold start_ngrok_tunnel, db_get, get_world, mbind, M_bind, mret, M_ret.
  destruct (projects w !! project_id) as [p|]; [|eexists; split; [done|simpl; lia]].
  destruct (negb (user_id p =? u_id u)); [eexists; split; [done|simpl; lia]|].
  destruct (negb (status p =? "running")%string); [eexists; split; [done|simpl; lia]|].
  rewrite Hle. eexists; split; [done|simpl; lia].
Qed.

Lemma tunnel_quota_refuses_witness :
  ∃ r, start_ngrok_tunnel true (env_ok "c1" "https://t1") carol 1
         (world_with (mkProject 1 "site" "static-site" "running" 3 8000
                                (<["ngrok_token" := JStr "tok"]> ∅) (Some "c0") None None))
       = (Ok (Reply r), world_with (mkProject 1 "site" "static-site" "running" 3 8000
                                (<["ngrok_token" := JStr "tok"]> ∅) (Some "c0") None None))
       ∧ client_error r.
Proof.
  apply (tunnel_quota_refuses true (env_ok "c1" "https://t1") carol 1).
  right. left. reflexivity.
Defined.

(** X9.  The tunnel route cannot open a tunnel for a deployment without
    a non-empty stored [ngrok_token]: the name [ngrok] is bound in the
    function only by the import under [if ngrok_token], so the call of
    [ngrok.connect] fails.  Whatever the outcomes of the external calls,
    the answer is a failure and no row, session, file, container,
    process or agent tunnel changes. *)
Theorem tunnel_route_needs_stored_token ngrok_available env u project_id w p :
  projects w !! project_id = Some p →
  stored_token p = None →
  ∃ msg code w', start_ngrok_tunnel ngrok_available env u project_id w
                 = (Ok (Reply (Json false msg code)), w')
                 ∧ state_of w' = state_of w.
Proof.
  intros Hp Htok.
  assert (∃ w0 : World, w0 = w) as [w0 Hw0] by eauto.
  unfold start_ngrok_tunnel, db_get, get_world, mbind at 1, M_bind at 1.
  rewrite Hp. unfold unauthorized.
  destruct (negb (user_id p =? u_id u)); [by eexists _, _, _|].
  destruct (negb (status p =? "running")%string); [by eexists _, _, _|].
  unfold mbind at 1, M_bind at 1.
  destruct (_ <=? _); [by eexists _, _, _|].
  destruct (negb ngrok_available); [by eexists _, _, _|].
  unfold try_except.
  destruct (template p =? "pyrogram-bot")%string; [by eexists _, _, _|].
  unfold stored_token in Htok.
  unfold time_sleep_, emit, check, modify, raise, mbind, M_bind, mret, M_ret.
  destruct (dict_get "ngrok_token" (config p)) as [|tok];
    [|destruct (truthy (JStr tok)); [done|]];
    simpl; destruct (time_sleep env 0); simpl; by eexists _, _, _.
Qed.

Lemma tunnel_route_needs_stored_token_witness :
  ∃ msg code w',
    start_ngrok_tunnel true (env_ok "c1" "https://t1") alice 1
      (with_container "c0" (world_with (site "running" (Some "c0"))))
    = (Ok (Reply (Json false msg code)), w')
    ∧ state_of w' = state_of (with_container "c0" (world_with (site "running" (Some "c0")))).
Proof.
  apply (tunnel_route_needs_stored_token true (env_ok "c1" "https://t1") alice 1
           (with_container "c0" (world_with (site "running" (Some "c0"))))
           (site "running" (Some "c0"))); reflexivity.
Defined.

Lemma next_key_fresh (ks : list Z) : ∀ k, k ∈ ks → k < next_key ks.
Proof.
  unfold next_key. induction ks as [|a ks IH]; intros k Hk.
  - by apply elem_of_nil in Hk.
  - apply elem_of_cons in Hk. simpl. destruct Hk as [->|Hk]; [lia|].
    specialize (IH k Hk). lia.
Qed.

(** X10.  A tunnel started by the route: for the owner's running
    deployment of a kind other than [pyrogram-bot], with a stored token,
    the quota not reached, the tunnel agent loaded, and the sleep and the
    connection returning, the answer carries the public url and the key
    of the new session; exactly one session row is appended, active and
    owned by the caller, under a key no earlier session has; the project
    row points to it; and the user's count of active sessions grows by
    one. *)
Theorem tunnel_route_starts_session env u project_id w p tok url :
  projects w !! project_id = Some p →
  p_id p = project_id →
  user_id p = u_id u →
  status p = "running" →
  active_tunnels u w < max_ngrok_tunnels (get_plan_limits u) →
  template p ≠ "pyrogram-bot" →
  stored_token p = Some tok →
  time_sleep env 0 = None →
  ngrok_connect env = Ok url →
  let k := next_key (t_id <$> tunnels w) in
  ∃ w', start_ngrok_tunnel true env u project_id w = (Ok (Started url k), w')
        ∧ tunnels w' = tunnels w ++ [session_row k (u_id u) p url]
        ∧ projects w' = alter (set_ngrok_tunnel_id (Some k)) project_id (projects w)
        ∧ agent w' = {[url]} ∪ agent w
        ∧ active_tunnels u w' = active_tunnels u w + 1
        ∧ (∀ t, t ∈ tunnels w → t_id t ≠ k).
Proof.
  intros Hp Hid Hu Hst Hq Hk Htok Hsl Hco k.
  unfold start_ngrok_tunnel, db_get, get_world, mbind at 1, M_bind at 1.
  rewrite Hp, Hu, Z.eqb_refl, Hst. simpl.
  unfold mbind at 1, M_bind at 1.
  destruct (Z.leb_spec (max_ngrok_tunnels (get_plan_limits u)) (active_tunnels u w));
    [lia|].
  unfold try_except.
  destruct (String.eqb_spec (template p) "pyrogram-bot") as [?|_]; [done|].
  unfold stored_token in Htok.
  unfold ngrok_connect_, time_sleep_, update_project, emit, check, lift, modify, raise,
    mbind, M_bind, mret, M_ret.
  destruct (dict_get "ngrok_token" (config p)) as [|tok']; [done|].
  simpl in Htok |- *. destruct (negb (tok' =? "")%string); [|done].
  simpl. rewrite Hsl. simpl. rewrite Hco. simpl.
  eexists. split; [reflexivity|]. simpl. subst project_id.
  repeat split.
  - unfold active_tunnels. simpl.
    rewrite list.filter_app, List.length_app. rewrite filter_cons_True by done.
    simpl. lia.
  - intros t Ht Heq. pose proof (next_key_fresh (t_id <$> tunnels w) (t_id t)) as Hf.
    specialize (Hf (list_elem_of_fmap_2 t_id _ _ Ht)). fold k in Hf. lia.
Qed.

Lemma tunnel_route_starts_session_witness :
  ∃ w', start_ngrok_tunnel true (env_ok "c1" "https://t1") alice 1
          (with_container "c0" (world_with (site_with_token "running" (Some "c0"))))
        = (Ok (Started "https://t1" 1), w')
        ∧ tunnels w' = [session_row 1 1 (site_with_token "running" (Some "c0")) "https://t1"].
Proof.
  destruct (tunnel_route_starts_session (env_ok "c1" "https://t1") alice 1
              (with_container "c0" (world_with (site_with_token "running" (Some "c0"))))
              (site_with_token "running" (Some "c0")) "tok" "https://t1")
    as (w' & Hr & Ht & _); try reflexivity.
  - vm_compute. discriminate.
  - exists w'. split; [exact Hr | exact Ht].
Defined.

(** X11.  The tunnel route never takes the caller's count of active
    sessions past the plan's quota: after the handler, whatever it
    answered, the count is at most the larger of the count before and
    [max_ngrok_tunnels]. *)
Theorem tunnel_route_respects_quota ngrok_available env u project_id w :
  active_tunnels u (start_ngrok_tunnel ngrok_available env u project_id w).2
  <= Z.max (active_tunnels u w) (max_ngrok_tunnels (get_plan_limits u)).
Proof.
  unfold start_ngrok_tunnel, db_get, get_world, mbind at 1, M_bind at 1.
  destruct (projects w !! project_id) as [p|]; [|simpl; lia].
  destruct (negb (user_id p =? u_id u)); [simpl; lia|].
  destruct (negb (status p =? "running")%string); [simpl; lia|].
  unfold mbind at 1, M_bind at 1.
  destruct (Z.leb_spec (max_ngrok_tunnels (get_plan_limits u)) (active_tunnels u w))
    as [_|Hq]; [simpl; lia|].
  destruct (negb ngrok_available); [simpl; lia|].
  unfold try_except.
  destruct (template p =? "pyrogram-bot")%string; [simpl; lia|].
  unfold ngrok_connect_, time_sleep_, update_project, emit, check, lift, modify, raise,
    mbind, M_bind, mret, M_ret.
  assert (∀ t, active_tunnels u (with_tunnels (λ ts, ts ++ [t]) w)
               <= Z.max (active_tunnels u w) (max_ngrok_tunnels (get_plan_limits u)))
    as Hsnoc.
  { intros t. rewrite active_tunnels_snoc. destruct (bool_decide _); lia. }
  destruct (dict_get "ngrok_token" (config p)) as [|tok];
    [|simpl; destruct (negb (tok =? "")%string)];
    simpl; destruct (time_sleep env 0); simpl;
    try (unfold active_tunnels; simpl; lia);
    destruct (ngrok_connect env) as [url|]; simpl;
    try (unfold active_tunnels; simpl; lia).
  etrans; [|apply (Hsnoc (mkNgrokTunnel (next_key (t_id <$> tunnels w)) (u_id u)
                                        (Some (p_id p)) url (port p) "http" true))].
  unfold active_tunnels. simpl. lia.
Qed.


Lemma find_some_elem {A} (f : A → bool) (l : list A) (x : A) :
  find f l = Some x → x ∈ l ∧ f x = true.
Proof.
  intros Hf. apply find_some in Hf as [Hin Hx]. split; [|done].
  by apply list_elem_of_In.
Qed.

(** X13.  Stopping a tunnel through the route: when the owner's
    deployment has a session, the answer is always the success message,
    also when the agent fails to disconnect; the session row is deleted
    (with every row that shares its key), the project row no longer
    points to a session, and the agent has dropped the tunnel exactly
    when the disconnect returned. *)
Theorem tunnel_stop_always_succeeds env u project_id w p t :
  projects w !! project_id = Some p →
  p_id p = project_id →
  user_id p = u_id u →
  ngrok_tunnel p w = Some t →
  ∃ w', stop_ngrok_tunnel_for_project env u project_id w
        = (Ok (Json true (Msg "Ngrok tunnel stopped successfully") 200), w')
        ∧ tunnels w' = filter (λ t', t_id t' ≠ t_id t) (tunnels w)
        ∧ (t ∉ tunnels w')
        ∧ projects w' = alter (set_ngrok_tunnel_id None) project_id (projects w)
        ∧ agent w' = match ngrok_disconnect env with
                     | None => agent w ∖ {[public_url t]}
                     | Some _ => agent w
                     end.
Proof.
  intros Hp Hid Hu Ht. subst project_id.
  unfold stop_ngrok_tunnel_for_project, db_get, get_world, mbind at 1, M_bind at 1.
  rewrite Hp, Hu, Z.eqb_refl. simpl.
  unfold mbind at 1, M_bind at 1. rewrite Ht.
  unfold try_except at 1, stop_ngrok_tunnel, try_except, ngrok_disconnect_, db_delete_tunnel,
    update_project, emit, check, modify, raise, mbind, M_bind, mret, M_ret.
  simpl.
  assert (∀ l : list NgrokTunnel, t ∉ filter (λ t', t_id t' ≠ t_id t) l) as Hnot.
  { intros l Hin. apply list_elem_of_filter in Hin as [Hne _]. done. }
  destruct (ngrok_disconnect env); simpl; (eexists; split; [reflexivity|simpl]).
  - repeat split. apply Hnot.
  - rewrite filter_deactivated. repeat split. apply Hnot.
Qed.

Lemma tunnel_stop_always_succeeds_witness :
  let t := session_row 1 1 (site "running" (Some "c0")) "https://t1" in
  let w := with_tunnels (λ _, [t]) (world_with (site "running" (Some "c0"))) in
  ∃ w', stop_ngrok_tunnel_for_project
          (mkEnv (Ok "") None (Ok "c1") None None None None (Ok no_stats) (Ok "") (Ok "")
                 (Ok 4242) false (Some 0%nat) (λ _, Ok 0) (λ _, None) (Ok "https://t1")
                 (Some (OtherError "PyngrokNgrokError")) None)
          alice 1 w
        = (Ok (Json true (Msg "Ngrok tunnel stopped successfully") 200), w')
        ∧ tunnels w' = [].
Proof.
  intros t w.
  destruct (tunnel_stop_always_succeeds
              (mkEnv (Ok "") None (Ok "c1") None None None None (Ok no_stats) (Ok "") (Ok "")
                 (Ok 4242) false (Some 0%nat) (λ _, Ok 0) (λ _, None) (Ok "https://t1")
                 (Some (OtherError "PyngrokNgrokError")) None)
              alice 1 w (site "running" (Some "c0")) t
              eq_refl eq_refl eq_refl eq_refl) as (w' & Hr & Hrows & _).
  exists w'. split; [exact Hr|]. rewrite Hrows. reflexivity.
Defined.

(** *** The readiness wait *)

Lemma with_trace_app (w : World) (a b : list Event) :
  with_trace (λ t, t ++ b) (with_trace (λ t, t ++ a) w) = with_trace (λ t, t ++ a ++ b) w.
Proof. destruct w. unfold with_trace. simpl. by rewrite <- app_assoc. Qed.

Lemma with_trace_nil (w : World) : with_trace (λ t, t ++ []) w = w.
Proof. destruct w. unfold with_trace. simpl. by rewrite app_nil_r. Qed.

(** X14.  The readiness wait probes the port at most [n] times, one
    second apart, and stops at the first probe that finds the port open:
    when the first [k] probes fail (a non-zero result or an exception) and
    either [k] is the bound or the next probe answers 0, the wait returns
    after exactly [k] rounds of probe and sleep, plus the successful probe
    if there was one, and changes nothing but the trace. *)
Theorem wait_for_port_trace env port_no n k :
  ∀ i w,
    (k ≤ n)%nat →
    (∀ j, (j < k)%nat →
          connect_ex env (i + j) ≠ Ok 0 ∧ time_sleep env (i + j) = None) →
    k = n ∨ connect_ex env (i + k) = Ok 0 →
    wait_for_port env port_no n i w
    = (Ok tt, with_trace (λ t, t ++ probe_rounds k port_no
                                 ++ (if (k <? n)%nat then [EvConnectEx port_no] else [])) w).
Proof.
  revert n. induction k as [|k IH]; intros n i w Hle Hfail Hend.
  - destruct n as [|n]; simpl.
    + by rewrite with_trace_nil.
    + destruct Hend as [?|Hopen]; [done|]. rewrite Nat.add_0_r in Hopen.
      unfold mbind, M_bind, emit, modify. simpl. by rewrite Hopen.
  - destruct n as [|n]; [lia|].
    destruct (Hfail 0%nat ltac:(lia)) as [Hclosed Hsleep].
    rewrite Nat.add_0_r in Hclosed, Hsleep.
    assert (wait_for_port env port_no (S n) i w
            = wait_for_port env port_no n (S i)
                (with_trace (λ t, t ++ [EvConnectEx port_no; EvSleep 1]) w)) as ->.
    { simpl. unfold mbind at 1, M_bind at 1, emit, modify, time_sleep_. simpl.
      destruct (connect_ex env i) as [[|?|?]|?]; try done;
        unfold mbind, M_bind, emit, modify, check; simpl; rewrite Hsleep; simpl;
        by rewrite with_trace_app. }
    rewrite (IH n (S i)).
    + rewrite with_trace_app. simpl.
      by replace (S k <? S n)%nat with (k <? n)%nat
        by (destruct (Nat.ltb_spec k n), (Nat.ltb_spec (S k) (S n)); (done || lia)).
    + lia.
    + intros j Hj. replace (S i + j)%nat with (i + S j)%nat by lia. apply Hfail. lia.
    + destruct Hend as [?|Hopen]; [left; lia|right].
      by replace (S i + k)%nat with (i + S k)%nat by lia.
Qed.

Lemma wait_for_port_trace_witness :
  wait_for_port (env_port_opens_at 2) 8000 30 0 empty_world
  = (Ok tt, with_trace (λ t, t ++ [EvConnectEx 8000; EvSleep 1; EvConnectEx 8000; EvSleep 1;
                                   EvConnectEx 8000]) empty_world).
Proof.
  apply (wait_for_port_trace (env_port_opens_at 2) 8000 30 2 0 empty_world).
  - lia.
  - intros [|[|j]] Hj; [split; [discriminate|reflexivity]..|lia].
  - right. reflexivity.
Defined.

Lemma wait_for_port_probes env port_no n :
  ∀ i w q, EvConnectEx q ∈ trace (wait_for_port env port_no n i w).2 →
           EvConnectEx q ∈ trace w ∨ q = port_no.
Proof.
  induction n as [|n IH]; intros i w q; simpl; [by left|].
  unfold mbind at 1, M_bind at 1, emit, modify. simpl.
  assert (∀ l : list Event, EvConnectEx q ∈ l ++ [EvConnectEx port_no] →
                            EvConnectEx q ∈ l ∨ q = port_no) as Hsnoc.
  { intros l Hin. apply elem_of_app in Hin as [?|Hin]; [by left|right].
    apply list_elem_of_singleton in Hin. congruence. }
  assert (∀ l : list Event, EvConnectEx q ∈ l ++ [EvSleep 1] → EvConnectEx q ∈ l) as Hsleep.
  { intros l Hin. apply elem_of_app in Hin as [?|Hin]; [done|].
    by apply list_elem_of_singleton in Hin. }
  destruct (connect_ex env i) as [[|?|?]|?]; simpl; try apply Hsnoc;
    unfold time_sleep_, mbind, M_bind, emit, modify, check; simpl;
    destruct (time_sleep env i); simpl;
    try (intros Hin; apply Hsnoc, Hsleep, Hin);
    intros Hin; apply IH in Hin as [Hin|?]; [|by right| |by right| |by right];
    apply Hsnoc, Hsleep, Hin.
Qed.

(** X15.  The readiness monitor probes only a port that the container
    was started with: every probe that [wait_until_ready] adds to the
    trace is on a host port of [port_mapping]. *)
Theorem wait_until_ready_probes_published_port env p w q :
  EvConnectEx q ∈ trace (wait_until_ready env p w).2 →
  EvConnectEx q ∉ trace w →
  q ∈ (port_mapping p).*2.
Proof.
  unfold wait_until_ready, port_mapping. intros Hin Hnew.
  destruct (str_in (template p) network_kinds).
  - apply wait_for_port_probes in Hin as [? | ->]; [done|]. simpl. set_solver.
  - destruct (String.eqb (template p) "vps").
    + apply wait_for_port_probes in Hin as [? | ->]; [done|]. simpl. set_solver.
    + exfalso. apply Hnew.
      repeat case_match; revert Hin;
        unfold time_sleep_, mbind, M_bind, emit, modify, check, mret, M_ret; simpl;
        try done;
        destruct (time_sleep env 0); simpl; intros Hin;
        apply elem_of_app in Hin as [?|Hin]; try done;
        by apply list_elem_of_singleton in Hin.
Qed.

Lemma wait_until_ready_probes_published_port_witness :
  8000 ∈ (port_mapping (site "deploying" (Some "c1"))).*2.
Proof.
  apply (wait_until_ready_probes_published_port (env_ok "c1" "https://t1")
           (site "deploying" (Some "c1")) empty_world 8000).
  - vm_compute. apply list_elem_of_In. simpl. auto.
  - vm_compute. intros Hin. by apply elem_of_nil in Hin.
Defined.

(** *** Deletion that fails; a native process that is gone *)

Lemma rmtree_keeps_projects env d : keeps projects (rmtree env d).
Proof. unfold rmtree. keeps_projects. Qed.

(** X16.  The answer of [delete_project] tells whether the row is gone.
    For the owner's project, a success answer means the row is deleted; a
    failure answer carries code 500, and then the row is still stored
    with its status and every session row is as before. *)
Theorem delete_answer_tells `{Host} env u project_id w p :
  projects w !! project_id = Some p →
  p_id p = project_id →
  user_id p = u_id u →
  ∃ ok msg code w',
    delete_project env u project_id w = (Ok (Json ok msg code), w')
    ∧ if ok then projects w' !! project_id = None
      else code = 500
           ∧ (∃ p', projects w' !! project_id = Some p' ∧ status p' = status p)
           ∧ tunnels w' = tunnels w.
Proof.
  intros Hp Hid Hu. subst project_id.
  unfold delete_project, db_get, mbind at 1, M_bind at 1.
  rewrite Hp, Hu, Z.eqb_refl. simpl.
  unfold try_except, mbind at 1, M_bind at 1.
  assert (match (if (status p =? "running")%string then terminate env p else mret tt) w with
          | (Ok _, w1) => ∃ p1, projects w1 !! p_id p = Some p1 ∧ status p1 = status p
          | (Raise _, w1) => projects w1 = projects w
          end
          ∧ sessions_and_files
              ((if (status p =? "running")%string then terminate env p else mret tt) w).2
            = sessions_and_files w) as [Hrow Hkeep].
  { destruct (status p =? "running")%string; [|split; [by exists p|done]].
    split; [|apply terminate_keeps_sessions].
    destruct (terminate env p w) as [[[]|e] w1] eqn:Ht.
    - destruct (terminate_row env p w w1 Hp Ht) as (p1 & ? & ? & _). by exists p1.
    - destruct (truthy_opt (container_id p)) eqn:Hh.
      + pose proof (terminate_effect env p w Hh) as He. unfold post in He.
        by rewrite Ht in He.
      + by rewrite (terminate_falsy env p w Hh) in Ht. }
  destruct ((if (status p =? "running")%string then terminate env p else mret tt) w)
    as [[[]|e] w1]; simpl in Hkeep; injection Hkeep as Htun Hfs.
  - destruct Hrow as (p1 & Hp1 & Hs1).
    unfold path_exists, rmtree, get_world, stop_ngrok_tunnel, try_except, ngrok_disconnect_,
      db_delete_tunnel, db_delete_project, emit, check, modify, raise,
      mbind, M_bind, mret, M_ret.
    simpl.
    destruct (bool_decide (is_Some (fs w1 !! get_project_dir u p)));
      [destruct (rmtree_fault env) as [e|]|]; simpl.
    + exists false. eexists _, _, _. split; [reflexivity|]. simpl.
      split; [done|]. split; [by exists p1|done].
    + exists true. unfold ngrok_tunnel. simpl.
      destruct (find _ (tunnels w1)); simpl; [destruct (ngrok_disconnect env)|]; simpl;
        eexists _, _, _; (split; [reflexivity|]); simpl; apply lookup_delete_eq.
    + exists true. unfold ngrok_tunnel. simpl.
      destruct (find _ (tunnels w1)); simpl; [destruct (ngrok_disconnect env)|]; simpl;
        eexists _, _, _; (split; [reflexivity|]); simpl; apply lookup_delete_eq.
  - exists false. eexists _, _, _. split; [reflexivity|]. simpl.
    split; [done|]. rewrite Hrow. split; [by exists p|done].
Qed.

Lemma delete_answer_tells_witness :
  ∃ msg w', delete_project (H := host_docker) env_stop_fails alice 1
              (with_container "c0" (world_with (site "running" (Some "c0"))))
            = (Ok (Json false msg 500), w')
            ∧ is_Some (projects w' !! 1).
Proof.
  destruct (delete_answer_tells (H := host_docker) env_stop_fails alice 1
              (with_container "c0" (world_with (site "running" (Some "c0"))))
              (site "running" (Some "c0")) eq_refl eq_refl eq_refl)
    as (ok & msg & code & w' & Hr & Hrest).
  assert (ok = false) as ->.
  { vm_compute in Hr. by injection Hr as <- _ _ _. }
  destruct Hrest as (-> & (p' & Hp' & _) & _).
  exists msg, w'. split; [exact Hr|]. by exists p'.
Defined.

(** X17.  A native deployment whose process is gone cannot be stopped
    or deleted.  With the engine absent, for the owner's [running]
    project whose handle spells the pid of no live process, the first
    signal fails: [stop_project] and [delete_project] both answer 500 with
    the wrapped lookup error, no further signal is sent, and nothing but
    the trace changes; the row stays [running] with its handle. *)
Theorem gone_process_blocks_stop `{Host} env u project_id w p h pid :
  docker_available = false →
  projects w !! project_id = Some p →
  user_id p = u_id u →
  status p = "running" →
  container_id p = Some h →
  h ≠ "" →
  py_int h = Some pid →
  pid ∉ procs w →
  let failure := Json false (MsgExn (Wrapped "Failed to stop native process: "
                                             ProcessLookupError)) 500 in
  let w' := with_trace (λ t, t ++ [EvKill pid SIGTERM]) w in
  stop_project env u project_id w = (Ok failure, w')
  ∧ delete_project env u project_id w = (Ok failure, w').
Proof.
  intros Hd Hp Hu Hst Hh Hne Hpid Hgone failure w'.
  assert (terminate env p w
          = (Raise (Wrapped "Failed to stop native process: " ProcessLookupError), w'))
    as Ht.
  { unfold terminate, stop_native_deployment. rewrite Hd, Hh. simpl.
    destruct (String.eqb_spec h "") as [?|_]; [done|]. simpl.
    rewrite Hpid.
    unfold try_except, os_kill, emit, modify, get_world, raise, mbind, M_bind, mret, M_ret.
    simpl. by rewrite bool_decide_eq_false_2. }
  split.
  - rewrite (stop_project_unfold env u project_id w p Hp Hu Hst). by rewrite Ht.
  - unfold delete_project, db_get, mbind at 1, M_bind at 1.
    rewrite Hp, Hu, Z.eqb_refl, Hst. simpl.
    unfold try_except, mbind at 1, M_bind at 1. by rewrite Ht.
Qed.

Lemma gone_process_blocks_stop_witness :
  let w := world_with (native_site "running" (Some "4242")) in
  stop_project (H := host_native) (env_ok "c1" "https://t1") alice 1 w
  = (Ok (Json false (MsgExn (Wrapped "Failed to stop native process: "
                                     ProcessLookupError)) 500),
     with_trace (λ t, t ++ [EvKill 4242 SIGTERM]) w).
Proof.
  intros w.
  destruct (gone_process_blocks_stop (H := host_native) (env_ok "c1" "https://t1") alice 1 w
              (native_site "running" (Some "4242")) "4242" 4242
              eq_refl eq_refl eq_refl eq_refl eq_refl) as [Hstop _].
  - discriminate.
  - vm_compute. reflexivity.
  - vm_compute. set_solver.
  - exact Hstop.
Defined.

(** *** Stopping a native process *)

Lemma kill_sent_emit pid ev w :
  ev ≠ EvKill pid SIGKILL →
  kill_sent pid (with_trace (λ t, t ++ [ev]) w) ↔ kill_sent pid w.
Proof.
  intros Hne. unfold kill_sent. simpl. rewrite elem_of_app, list_elem_of_singleton.
  split; [intros [?|?]; [done|congruence]|by left].
Qed.

#[local] Transparent wait_for_exit.

Lemma wait_for_exit_spec env pid n :
  os_kill_denied env = false →
  (∀ j, time_sleep env j = None) →
  ∀ i w, ∃ w', wait_for_exit env pid n i w = (Ok tt, w')
               ∧ (kill_sent pid w' ↔ kill_sent pid w)
               ∧ projects w' = projects w
               ∧ (pid ∈ procs w →
                  match exits_after env with
                  | Some k => (i + n ≤ k)%nat
                  | None => True
                  end →
                  pid ∈ procs w').
Proof.
  intros Hden Hsl. induction n as [|n IH]; intros i w; [by exists w|].
  simpl. unfold try_except, reap, os_kill, time_sleep_, emit, check, modify, raise, get_world,
    mbind at 1, M_bind at 1, mbind, M_bind, mret, M_ret.
  rewrite Hden, Hsl.
  destruct (exits_after env) as [k|] eqn:Hk; [destruct (Nat.leb_spec k i)|]; simpl.
  - rewrite bool_decide_eq_false_2 by set_solver. simpl. eexists. split; [done|].
    split; [by rewrite kill_sent_emit|]. split; [done|]. intros _ ?. lia.
  - destruct (bool_decide_reflect (pid ∈ procs w)); simpl.
    + destruct (IH (S i) (with_trace (λ t, t ++ [EvSleep 1])
                            (with_trace (λ t, t ++ [EvKill pid SIG0]) w)))
        as (w' & -> & Hks & Hpr & Hin).
      exists w'. split; [done|]. split.
      { rewrite Hks, !kill_sent_emit by done. done. }
      split; [done|]. intros _ ?. apply Hin; [done|lia].
    + eexists. split; [done|]. split; [by apply kill_sent_emit|]. done.
  - destruct (bool_decide_reflect (pid ∈ procs w)); simpl.
    + destruct (IH (S i) (with_trace (λ t, t ++ [EvSleep 1])
                            (with_trace (λ t, t ++ [EvKill pid SIG0]) w)))
        as (w' & -> & Hks & Hpr & Hin).
      exists w'. split; [done|]. split.
      { rewrite Hks, !kill_sent_emit by done. done. }
      split; [done|]. intros _ _. by apply Hin.
    + eexists. split; [done|]. split; [by apply kill_sent_emit|]. done.
Qed.

#[local] Opaque wait_for_exit.

(** X18.  [SIGKILL] is sent only to a process that outlives the grace
    period.  For a live process that the program may signal, with the
    sleeps returning, [stop_native_deployment] returns, the process is
    gone afterwards, and [SIGKILL] has been sent exactly when the child
    is still there ten seconds after [SIGTERM] (or had been sent
    before). *)
Theorem sigkill_only_for_survivors `{Host} env p h pid w :
  container_id p = Some h →
  h ≠ "" →
  py_int h = Some pid →
  pid ∈ procs w →
  os_kill_denied env = false →
  (∀ j, time_sleep env j = None) →
  ∃ w', stop_native_deployment env p w = (Ok tt, w')
        ∧ (pid ∉ procs w')
        ∧ (kill_sent pid w' ↔ kill_sent pid w ∨ survives env 10).
Proof.
  intros Hh Hne Hpid Hlive Hden Hsl.
  unfold stop_native_deployment. rewrite Hh. simpl.
  destruct (String.eqb_spec h "") as [?|_]; [done|]. simpl. rewrite Hpid.
  unfold try_except, mbind at 1, M_bind at 1, mret at 1, M_ret at 1.
  unfold mbind at 1, M_bind at 1.
  assert (os_kill env pid SIGTERM w
          = (Ok tt, with_trace (λ t, t ++ [EvKill pid SIGTERM]) w)) as ->.
  { unfold os_kill, emit, modify, get_world, mbind, M_bind, mret, M_ret. simpl.
    by rewrite bool_decide_eq_true_2, Hden. }
  destruct (wait_for_exit_spec env pid 10 Hden Hsl 0%nat
              (with_trace (λ t, t ++ [EvKill pid SIGTERM]) w))
    as (w2 & Hloop & Hks & _ & Hin).
  unfold mbind at 1, M_bind at 1. rewrite Hloop.
  rewrite kill_sent_emit in Hks by done.
  unfold force_kill, try_except, reap, os_kill, update_project, emit, check, modify, raise,
    get_world, mbind, M_bind, mret, M_ret.
  rewrite Hden. unfold survives.
  destruct (exits_after env) as [k|] eqn:Hk; [destruct (Nat.leb_spec k 10)|]; simpl.
  - rewrite bool_decide_eq_false_2 by set_solver. simpl. eexists. split; [done|].
    simpl. split; [set_solver|].
    unfold kill_sent in *. simpl. rewrite elem_of_app, list_elem_of_singleton.
    split; [intros [?|?]; [left; by apply Hks|done]|intros [?|?]; [left; by apply Hks|lia]].
  - specialize (Hin Hlive ltac:(simpl; lia)).
    repeat (rewrite bool_decide_eq_true_2 by done; simpl). eexists. split; [done|].
    simpl. split; [set_solver|]. split; [by right|].
    intros _. unfold kill_sent. simpl. set_solver.
  - specialize (Hin Hlive I).
    repeat (rewrite bool_decide_eq_true_2 by done; simpl). eexists. split; [done|].
    simpl. split; [set_solver|]. split; [by right|].
    intros _. unfold kill_sent. simpl. set_solver.
Qed.

Lemma sigkill_only_for_survivors_witness :
  ∃ w', stop_native_deployment (H := host_native) env_ignores_sigterm
          (native_site "running" (Some "4242")) (native_world "running") = (Ok tt, w')
        ∧ (4242 ∉ procs w')
        ∧ kill_sent 4242 w'.
Proof.
  destruct (sigkill_only_for_survivors (H := host_native) env_ignores_sigterm
              (native_site "running" (Some "4242")) "4242" 4242 (native_world "running")
              eq_refl) as (w' & Hr & Hgone & Hks).
  - discriminate.
  - vm_compute. reflexivity.
  - vm_compute. set_solver.
  - reflexivity.
  - intros j. reflexivity.
  - exists w'. split; [exact Hr|]. split; [exact Hgone|].
    apply Hks. right. exact I.
Defined.

(** *** Kinds that the native backend cannot launch *)

Lemma launch_command_raises `{Host} p w :
  no_native_command p → ∃ e, launch_command p w = (Raise e, w).
Proof.
  unfold no_native_command, launch_command, native_kinds, str_in. simpl.
  intros [Hk|[Hk Hc]].
  - repeat (apply orb_false_elim in Hk as [-> Hk]). by eexists.
  - rewrite Hk, Hc. simpl. by eexists.
Qed.

(** X19.  Without the engine some deployments can never be started.
    For a kind outside [native_kinds] ([vps], [github-docker], any other
    text) and for a repository deployment without start command,
    [start_native_deployment] raises whatever the outcomes of the external
    calls, leaving every row as it was; so on a host without the engine
    [start_project] answers 500 and the status becomes [error]. *)
Theorem native_backend_cannot_launch `{Host} env u project_id w p :
  no_native_command p →
  (∀ w0, ∃ e w', start_native_deployment env u p w0 = (Raise e, w')
                 ∧ projects w' = projects w0)
  ∧ (docker_available = false →
     projects w !! project_id = Some p →
     user_id p = u_id u →
     status p ≠ "running" →
     ∃ e w', start_project env u project_id w = (Ok (Json false (MsgExn e) 500), w')
             ∧ status <$> projects w' !! project_id = Some "error").
Proof.
  intros Hno.
  assert (∀ q w0, no_native_command q →
                  ∃ e w', start_native_deployment env u q w0 = (Raise e, w')
                          ∧ projects w' = projects w0) as Hraise.
  { intros q w0 Hq. pose proof (start_native_deployment_effect env u q w0) as He.
    destruct (start_native_deployment env u q w0) as [[[]|e] w'] eqn:Hrun.
    - exfalso. unfold start_native_deployment in Hrun.
      apply bind_ok_inv in Hrun as ([] & w1 & _ & Hrun).
      apply bind_ok_inv in Hrun as ([] & w2 & _ & Hrun).
      apply bind_ok_inv in Hrun as ([] & w3 & _ & Hrun).
      apply bind_ok_inv in Hrun as ([] & w4 & _ & Hrun).
      apply bind_ok_inv in Hrun as ([] & w5 & _ & Hrun).
      apply bind_ok_inv in Hrun as ([] & w6 & _ & Hrun).
      apply bind_ok_inv in Hrun as (cmd & w7 & Hcmd & _).
      destruct (launch_command_raises q w6 Hq) as [e He']. congruence.
    - by exists e, w'. }
  split; [intros w0; by apply Hraise|].
  intros Hd Hp Hu Hst.
  rewrite (start_project_unfold env u project_id w p Hp Hu).
  destruct (String.eqb_spec (status p) "running") as [?|_]; [done|].
  unfold launch. rewrite Hd.
  destruct (Hraise (set_status "deploying" p)
              (with_projects (alter (set_status "deploying") project_id) w))
    as (e & w' & Hrun & Hrows); [exact Hno|].
  simpl. rewrite Hrun. exists e. eexists. split; [reflexivity|].
  simpl. rewrite Hrows. simpl. by rewrite !lookup_alter_eq, Hp.
Qed.

Lemma native_backend_cannot_launch_witness :
  ∃ e w', start_project (H := host_native) (env_ok "c1" "https://t1") alice 1
            (world_with (vps_project "stopped"))
          = (Ok (Json false (MsgExn e) 500), w')
          ∧ status <$> projects w' !! 1 = Some "error".
Proof.
  destruct (native_backend_cannot_launch (H := host_native) (env_ok "c1" "https://t1") alice 1
              (world_with (vps_project "stopped")) (vps_project "stopped")) as [_ Hstart].
  - left. reflexivity.
  - apply Hstart; [reflexivity|reflexivity|reflexivity|discriminate].
Defined.

(** *** Creation: what it adds and what it leaves *)

Lemma setup_project_keeps_projects u p c : keeps projects (setup_project u p c).
Proof.
  unfold setup_project, subscript, path_join, f_write_val.
  repeat first [ apply makedirs_keeps_projects | apply open_w_keeps_projects
               | apply f_write_keeps_projects | keeps_step ].
Qed.

Lemma next_project_id_fresh w : projects w !! next_project_id w = None.
Proof.
  destruct (projects w !! next_project_id w) as [p|] eqn:Hp; [|done].
  apply elem_of_map_to_list in Hp.
  pose proof (next_key_fresh (fst <$> map_to_list (projects w)) (next_project_id w)) as Hf.
  specialize (Hf (list_elem_of_fmap_2 fst _ _ Hp)). unfold next_project_id in Hf. lia.
Qed.

(** The rows after a creation: those before, and possibly one more,
    stored under the next key, stopped, without handle and owned by the
    caller; none when the plan's limit was reached. *)
Lemma new_deployment_rows `{Host} u form w :
  projects (new_deployment u form w).2 = projects w
  ∨ (project_limit_reached u w = false
     ∧ ∃ row, projects (new_deployment u form w).2
              = <[next_project_id w := row]> (projects w)
              ∧ user_id row = u_id u ∧ status row = "stopped"
              ∧ container_id row = None ∧ p_id row = next_project_id w).
Proof.
  set (Q := λ res : result response * World,
         projects res.2 = projects w
         ∨ (project_limit_reached u w = false
            ∧ ∃ row, projects res.2 = <[next_project_id w := row]> (projects w)
                     ∧ user_id row = u_id u ∧ status row = "stopped"
                     ∧ container_id row = None ∧ p_id row = next_project_id w)).
  change (Q (new_deployment u form w)).
  assert (∀ r, Q (r, w)) as Hsame by (intros r; by left).
  assert (∀ r w' row,
            project_limit_reached u w = false →
            projects w' = <[next_project_id w := row]> (projects w) →
            user_id row = u_id u → status row = "stopped" →
            container_id row = None → p_id row = next_project_id w →
            Q (r, w')) as Hadd.
  { intros r w' row ? ? ? ? ? ?. right. split; [done|]. by exists row. }
  clearbody Q.
  unfold new_deployment, get_world, mbind at 1, M_bind at 1.
  destruct (project_limit_reached u w) eqn:Hlim; [apply Hsame|].
  unfold mbind at 1, M_bind at 1.
  assert (∀ port_no,
            Q ((project ← match form_get "name" form, form_get "template" form with
                          | JStr name_, JStr template_ =>
                              mret (mkProject (next_key (fst <$> map_to_list (projects w)))
                                      name_ template_ "stopped" (u_id u) port_no
                                      (form_config (form_get "template" form) form
                                                   (form_get "github_repo" form))
                                      None None (opt_of_jval (form_get "github_repo" form)))
                          | _, _ => raise IntegrityError
                          end;
                modify (with_projects <[p_id project := project]>);;
                makedirs (get_project_dir u project);;
                setup_project u project (form_config (form_get "template" form) form
                                                     (form_get "github_repo" form));;
                match form_get "ngrok_token" form with
                | JStr ngrok_token =>
                    if truthy (JStr ngrok_token) && str_in (template project) tunnel_kinds
                    then update_project (p_id project)
                           (set_config (<["ngrok_token" := JStr ngrok_token]>
                                          (form_config (form_get "template" form) form
                                                       (form_get "github_repo" form))))
                    else mret tt
                | JNull => mret tt
                end;;
                mret (Redirect "dashboard")) w)) as Hrest.
  { intros port_no. unfold mbind at 1, M_bind at 1.
    destruct (form_get "name" form) as [|name_]; [apply Hsame|].
    destruct (form_get "template" form) as [|template_]; [apply Hsame|].
    unfold mret at 1, M_ret at 1.
    match goal with
    | |- context [makedirs (get_project_dir u ?row)] => set (row0 := row)
    end.
    unfold mbind at 1, M_bind at 1, modify.
    change (p_id row0) with (next_project_id w).
    set (w1 := with_projects <[next_project_id w := row0]> w).
    unfold mbind at 1, M_bind at 1.
    pose proof (makedirs_keeps_projects (get_project_dir u row0) w1) as H2.
    destruct (makedirs (get_project_dir u row0) w1) as [[[]|e2] w2];
      simpl in H2; [|by apply (Hadd _ _ row0)].
    unfold mbind at 1, M_bind at 1.
    match goal with
    | |- context [setup_project u row0 ?c w2] =>
        pose proof (setup_project_keeps_projects u row0 c w2) as H3;
        destruct (setup_project u row0 c w2) as [[[]|e3] w3]
    end; simpl in H3; [|apply (Hadd _ _ row0); try done; by rewrite H3, H2].
    unfold mbind at 1, M_bind at 1.
    destruct (form_get "ngrok_token" form) as [|tok];
      [| destruct (truthy (JStr tok) && str_in (template row0) tunnel_kinds) ];
      simpl; try (apply (Hadd _ _ row0); try done; by rewrite H3, H2).
    eapply Hadd; [done|simpl; rewrite H3, H2; simpl; apply alter_insert_eq|done..]. }
  destruct (form !! "port") as [s|]; [destruct (py_int s) as [port_no|]; [|apply Hsame]|];
    apply Hrest.
Qed.

(** X20.  A creation never disturbs what is stored.  Every row that was
    there before [new_deployment] is there unchanged afterwards, whatever
    the form holds and whether the handler returns or raises; a row that
    is new has the next key, belongs to the caller, is [stopped] and has
    no handle; and when the plan's limit was reached, no row is added. *)
Theorem new_deployment_keeps_rows `{Host} u form w :
  let w' := (new_deployment u form w).2 in
  (∀ i p, projects w !! i = Some p → projects w' !! i = Some p)
  ∧ (∀ i p, projects w' !! i = Some p → projects w !! i = None →
            i = next_project_id w ∧ p_id p = i ∧ user_id p = u_id u
            ∧ status p = "stopped" ∧ container_id p = None)
  ∧ (project_limit_reached u w = true → projects w' = projects w).
Proof.
  intros w'. subst w'.
  destruct (new_deployment_rows u form w) as [Heq|(Hlim & row & Heq & Hu & Hst & Hc & Hid)];
    rewrite Heq.
  - split; [done|]. split; [|done]. intros i p Hp Hn. congruence.
  - split; [|split; [|congruence]].
    + intros i p Hp. rewrite lookup_insert_ne; [done|].
      intros <-. by rewrite next_project_id_fresh in Hp.
    + intros i p Hp Hn. apply lookup_insert_Some in Hp as [[<- <-]|[_ Hp]]; [done|].
      congruence.
Qed.

(** X21.  The plan's project limit holds across creations: on a plan
    with a positive limit, the caller's number of projects after
    [new_deployment] is at most the larger of the number before and the
    limit; on any plan it grows by at most one. *)
Theorem new_deployment_respects_limit `{Host} u form w :
  let w' := (new_deployment u form w).2 in
  owned_projects u w' <= owned_projects u w + 1
  ∧ (0 < max_projects (get_plan_limits u) →
     owned_projects u w' <= Z.max (owned_projects u w) (max_projects (get_plan_limits u))).
Proof.
  intros w'. subst w'.
  destruct (new_deployment_rows u form w) as [Heq|(Hlim & row & Heq & Hu & _)];
    unfold owned_projects; rewrite Heq; [lia|].
  rewrite map_filter_insert_True by done.
  rewrite map_size_insert_None
    by (apply map_lookup_filter_None_2; left; apply next_project_id_fresh).
  split; [lia|]. intros Hpos.
  unfold project_limit_reached in Hlim.
  apply andb_false_iff in Hlim as [Hlim|Hlim]; [apply Z.ltb_ge in Hlim; lia|].
  apply Z.leb_gt in Hlim. lia.
Qed.

Lemma new_deployment_respects_limit_witness :
  owned_projects alice (new_deployment (H := host_docker) alice site_form empty_world).2
  <= Z.max (owned_projects alice empty_world) (max_projects (get_plan_limits alice)).
Proof.
  apply (new_deployment_respects_limit (H := host_docker) alice site_form empty_world).
  reflexivity.
Defined.

(** X22.  A form that cannot be stored creates nothing.  When the limit
    is not reached and the form lacks the name or the kind, or its port is
    not a number, [new_deployment] raises ([ValueError] for the port,
    the integrity error of the table otherwise) and leaves the world as it
    was: no row, no directory, no file. *)
Theorem incomplete_form_creates_nothing `{Host} u form w :
  project_limit_reached u w = false →
  incomplete_form form →
  ∃ e, new_deployment u form w = (Raise e, w) ∧ (e = ValueError ∨ e = IntegrityError).
Proof.
  intros Hlim Hform.
  unfold new_deployment, get_world, mbind at 1, M_bind at 1. rewrite Hlim.
  unfold mbind at 1, M_bind at 1, form_get.
  destruct Hform as [Hn|[Ht|(s & Hs & Hp)]].
  - rewrite Hn.
    destruct (form !! "port") as [s|]; [destruct (py_int s)|]; simpl; eauto.
  - rewrite Ht.
    destruct (form !! "port") as [s|]; [destruct (py_int s)|]; simpl;
      destruct (form !! "name"); simpl; eauto.
  - rewrite Hs, Hp. simpl. eauto.
Qed.

Lemma incomplete_form_creates_nothing_witness :
  ∃ e, new_deployment (H := host_docker) alice (<["template" := "static-site"]> ∅)
         empty_world = (Raise e, empty_world)
       ∧ (e = ValueError ∨ e = IntegrityError).
Proof.
  apply (incomplete_form_creates_nothing (H := host_docker) alice
           (<["template" := "static-site"]> ∅) empty_world).
  - reflexivity.
  - left. reflexivity.
Defined.

(** *** The native monitor without its log file *)

Lemma append_closed f c w :
  ¬ openable (fs w) f →
  ∃ e, append f c w = (Raise e, w) ∧ (e = FileNotFoundError ∨ e = IsADirectoryError).
Proof.
  intros Hno. unfold append, open_a, mbind, M_bind.
  destruct (is_dir (fs w) (parent f)) eqn:Hd; simpl; [|eauto].
  destruct (bool_decide_reflect (fs w !! f = Some Dir)); [eauto|].
  exfalso. apply Hno. by split.
Qed.

Lemma capture_logs_closed f lines w :
  ¬ openable (fs w) f →
  capture_logs f lines w = (Ok tt, w)
  ∨ ∃ e, capture_logs f lines w = (Raise e, w)
         ∧ (e = FileNotFoundError ∨ e = IsADirectoryError).
Proof.
  intros Hno. induction lines as [|line lines IH]; simpl; [by left|].
  unfold mbind, M_bind. destruct (String.eqb line ""); simpl; [exact IH|].
  destruct (append_closed f (Text line) w Hno) as (e & -> & He). right. eauto.
Qed.

(** X23.  When the log file cannot be opened (its directory is gone, or
    a directory is in its place), the native monitor ends with the
    exception of [open]: the handler's own write to the log fails too, so
    no status is written and the row stays as it was. *)
Theorem monitor_without_log_file process p log_file w :
  ¬ openable (fs w) log_file →
  ∃ e w', monitor_native_process process p log_file w = (Raise e, w')
          ∧ (e = FileNotFoundError ∨ e = IsADirectoryError)
          ∧ projects w' = projects w
          ∧ fs w' = fs w.
Proof.
  intros Hno. unfold monitor_native_process, try_except, mbind at 1, M_bind at 1.
  destruct (capture_logs_closed log_file (proc_stdout process) w Hno) as [->|(e & -> & _)].
  - unfold mbind at 1, M_bind at 1, modify.
    set (w1 := with_procs (λ s, s ∖ {[proc_pid process]}) w).
    assert (¬ openable (fs w1) log_file) as Hno1 by done.
    unfold mbind at 1, M_bind at 1.
    destruct (append_closed log_file (exit_message (proc_returncode process)) w1 Hno1)
      as (e & -> & _).
    unfold mbind at 1, M_bind at 1.
    destruct (append_closed log_file (ErrorMonitoring e) w1 Hno1) as (e' & -> & He').
    by exists e', w1.
  - unfold mbind at 1, M_bind at 1.
    destruct (append_closed log_file (ErrorMonitoring e) w Hno) as (e' & -> & He').
    by exists e', w.
Qed.

Lemma monitor_without_log_file_witness :
  ∃ e w', monitor_native_process (mkProcess 4242 ["ready"] 0) (native_site "deploying" None)
            ["users"; "alice"; "projects"; "1"; "logs"; "app.log"]
            (world_with (native_site "deploying" None))
          = (Raise e, w')
          ∧ projects w' = projects (world_with (native_site "deploying" None)).
Proof.
  destruct (monitor_without_log_file (mkProcess 4242 ["ready"] 0)
              (native_site "deploying" None)
              ["users"; "alice"; "projects"; "1"; "logs"; "app.log"]
              (world_with (native_site "deploying" None)))
    as (e & w' & Hr & _ & Hp & _).
  - intros [Hd _]. vm_compute in Hd. discriminate.
  - by exists e, w'.
Defined.

(** *** Creation is not atomic *)





(** *** A launch on the container backend that succeeds *)




(** *** The readiness monitor and a row that is gone *)

Lemma wait_for_port_keeps_state env port_no n :
  ∀ i, keeps state_of (wait_for_port env port_no n i).
Proof.
  induction n as [|n IH]; intros i; simpl; [apply keeps_ret|].
  apply keeps_bind; [apply keeps_state_emit|intros _].
  destruct (connect_ex env i) as [[|?|?]|?]; try apply keeps_ret;
    (apply keeps_bind; [|intros _; apply IH]);
    unfold time_sleep_; (apply keeps_bind; [apply keeps_state_emit|intros _; apply keeps_check]).
Qed.

Lemma wait_until_ready_keeps_state env p : keeps state_of (wait_until_ready env p).
Proof.
  unfold wait_until_ready, time_sleep_.
  repeat first [ apply wait_for_port_keeps_state | apply keeps_state_emit | keeps_step ].
Qed.

(** X26.  The readiness monitor of a project whose row has been deleted
    in the meantime does nothing: whatever the probes and the sleeps do,
    it returns, and no row, session, file, container, process or agent
    tunnel changes. *)
Theorem monitor_of_deleted_project env p container w :
  projects w !! p_id p = None →
  ∃ w', monitor_container_health env p container w = (Ok tt, w')
        ∧ state_of w' = state_of w.
Proof.
  intros Hgone. unfold monitor_container_health, try_except, mbind at 1, M_bind at 1.
  pose proof (wait_until_ready_keeps_state env p w) as Hk.
  destruct (wait_until_ready env p w) as [[[]|e] w1]; simpl in Hk;
    assert (projects w1 !! p_id p = None) as Hgone1
      by (unfold state_of in Hk; injection Hk as Hk _ _ _ _ _; by rewrite Hk).
  - unfold db_get, mbind, M_bind. rewrite Hgone1. by exists w1.
  - unfold db_get, mbind, M_bind. rewrite Hgone1. by exists w1.
Qed.

Lemma monitor_of_deleted_project_witness :
  ∃ w', monitor_container_health (env_ok "c1" "https://t1") (site "deploying" (Some "c1"))
          "c1" empty_world = (Ok tt, w')
        ∧ state_of w' = state_of empty_world.
Proof.
  apply (monitor_of_deleted_project (env_ok "c1" "https://t1") (site "deploying" (Some "c1"))
           "c1" empty_world).
  reflexivity.
Defined.

(** *** Starting and stopping a tunnel *)

Lemma find_snoc_None {A} (f : A → bool) (l : list A) (x : A) :
  find f l = None → find f (l ++ [x]) = if f x then Some x else None.
Proof.
  induction l as [|a l IH]; simpl; [done|]. destruct (f a); [done|exact IH].
Qed.

Lemma filter_fresh_key (k : Z) (ts : list NgrokTunnel) :
  (∀ t, t ∈ ts → t_id t ≠ k) → filter (λ t', t_id t' ≠ k) ts = ts.
Proof.
  induction ts as [|t ts IH]; intros Hf; [done|].
  rewrite filter_cons_True by (apply Hf; left).
  rewrite IH; [done|]. intros t' Ht'. apply Hf. by right.
Qed.

(** X27.  Starting a tunnel through the route and then stopping it
    undoes the start.  For the owner's running deployment without a
    session, with a stored token and the quota not reached, when the
    connection and then the disconnection succeed, the stop answers
    success and the rows, the sessions and the agent's tunnels are as
    they were before the start. *)
Theorem tunnel_round_trip env env' u project_id w p tok url :
  projects w !! project_id = Some p →
  p_id p = project_id →
  user_id p = u_id u →
  status p = "running" →
  active_tunnels u w < max_ngrok_tunnels (get_plan_limits u) →
  template p ≠ "pyrogram-bot" →
  stored_token p = Some tok →
  time_sleep env 0 = None →
  ngrok_connect env = Ok url →
  ngrok_tunnel p w = None →
  ngrok_tunnel_id p = None →
  url ∉ agent w →
  ngrok_disconnect env' = None →
  ∃ w2, stop_ngrok_tunnel_for_project env' u project_id
          (start_ngrok_tunnel true env u project_id w).2
        = (Ok (Json true (Msg "Ngrok tunnel stopped successfully") 200), w2)
        ∧ state_of w2 = state_of w.
Proof.
  intros Hp Hid Hu Hst Hq Hk Htok Hsl Hco Hnone Hnull Hfresh Hdis.
  set (k := next_key (t_id <$> tunnels w)).
  assert (∃ evs,
            start_ngrok_tunnel true env u project_id w
            = (Ok (Started url k),
               with_projects (alter (set_ngrok_tunnel_id (Some k)) (p_id p))
                 (with_tunnels (λ ts, ts ++ [session_row k (u_id u) p url])
                    (with_agent (λ s, {[url]} ∪ s) (with_trace (λ t, t ++ evs) w)))))
    as [evs ->].
  { unfold start_ngrok_tunnel, db_get, get_world, mbind at 1, M_bind at 1.
    rewrite Hp, Hu, Z.eqb_refl, Hst. simpl.
    unfold mbind at 1, M_bind at 1.
    destruct (Z.leb_spec (max_ngrok_tunnels (get_plan_limits u)) (active_tunnels u w));
      [lia|].
    unfold try_except.
    destruct (String.eqb_spec (template p) "pyrogram-bot") as [?|_]; [done|].
    unfold stored_token in Htok.
    unfold ngrok_connect_, time_sleep_, update_project, emit, check, lift, modify, raise,
      mbind, M_bind, mret, M_ret.
    destruct (dict_get "ngrok_token" (config p)) as [|tok']; [done|].
    simpl in Htok |- *. destruct (negb (tok' =? "")%string); [|done].
    simpl. rewrite Hsl. simpl. rewrite Hco. simpl.
    exists [EvNgrokToken tok'; EvSleep 10; EvNgrokConnect (port p)].
    unfold session_row, with_trace. simpl. by rewrite <- !app_assoc. }
  simpl. subst project_id.
  unfold stop_ngrok_tunnel_for_project, db_get, get_world, mbind at 1, M_bind at 1.
  simpl. rewrite lookup_alter_eq, Hp. simpl. rewrite Hu, Z.eqb_refl. simpl.
  unfold mbind at 1, M_bind at 1, ngrok_tunnel. simpl.
  rewrite (find_snoc_None _ _ _ Hnone). simpl.
  rewrite bool_decide_eq_true_2 by done.
  unfold try_except at 1, stop_ngrok_tunnel, try_except, ngrok_disconnect_, db_delete_tunnel,
    update_project, emit, check, modify, raise, mbind, M_bind, mret, M_ret.
  simpl. rewrite Hdis. simpl. eexists. split; [reflexivity|].
  unfold state_of. simpl.
  assert (∀ t, t ∈ tunnels w → t_id t ≠ k) as Hkey.
  { intros t Ht Heq. pose proof (next_key_fresh (t_id <$> tunnels w) (t_id t)) as Hf.
    specialize (Hf (list_elem_of_fmap_2 t_id _ _ Ht)). fold k in Hf. lia. }
  match goal with
  | |- (?a, ?b, _, _, _, ?c) = _ =>
      assert (a = projects w) as ->; [|assert (b = tunnels w) as ->;
                                        [|assert (c = agent w) as ->; [|done]]]
  end.
  - apply map_eq. intros j. destruct (decide (p_id p = j)) as [<-|Hne].
    + rewrite !lookup_alter_eq, Hp. simpl. destruct p. simpl in *. by subst.
    + by rewrite !lookup_alter_ne.
  - rewrite (filter_deactivated k). rewrite list.filter_app.
    rewrite filter_cons_False by (simpl; intros ?; done).
    rewrite filter_nil, app_nil_r. by apply filter_fresh_key.
  - apply leibniz_equiv. set_solver.
Qed.

Lemma tunnel_round_trip_witness :
  let w := with_container "c0" (world_with (site_with_token "running" (Some "c0"))) in
  ∃ w2, stop_ngrok_tunnel_for_project (env_ok "c1" "https://t1") alice 1
          (start_ngrok_tunnel true (env_ok "c1" "https://t1") alice 1 w).2
        = (Ok (Json true (Msg "Ngrok tunnel stopped successfully") 200), w2)
        ∧ state_of w2 = state_of w.
Proof.
  intros w.
  apply (tunnel_round_trip (env_ok "c1" "https://t1") (env_ok "c1" "https://t1") alice 1 w
           (site_with_token "running" (Some "c0")) "tok" "https://t1"); try reflexivity.
  - vm_compute. discriminate.
  - vm_compute. set_solver.
Defined.
